(** * Pledge ledger of the crowdfunding platform: a shallow embedding

    The development follows [models/project_model.py] (class [ProjectModel],
    the Project Catalog), [models/user_model.py] (class [UserModel], the User
    Directory), [models/pledge_model.py] (class [PledgeModel], the Pledge
    Ledger) and the controllers of [main.py].

    The ledger is embedded twice.
    - The typed ledger.  Every JSON file is a list of typed records, so a
      file never holds a dictionary with a missing key, and an amount is an
      integer of [Z] with [+], [<] and [<=] of [Z].  On such files no
      statement inside the [try] block of [create_pledge] raises, and its
      [except] clause is never entered.
    - The ledger over the stored objects (module [Json]).  A stored object
      may lack any of its keys, and reading a missing key raises [KeyError];
      the division of [_calculate_progress_percentage] raises
      [OverflowError] on integers too large for a float; [create_pledge] has
      its [try] block and its [except] clause.  An amount is a number of the
      class [Json.Number], of which Python's [int] and [float] are
      instances.  On complete objects with integer amounts the two
      embeddings agree, which is proved below.

    Conventions of both.
    - A [datetime] is the number of microseconds since a fixed epoch, a
      [timedelta] is a difference of two of them, and [timedelta.days] is the
      floor of that difference divided by one day.
    - One call of an operation reads the clock once: the argument [now].
    - [_load_data] and [_save_data] are the methods of a storage interface.
      With [disk] every write succeeds; with [flaky] a write may fail when
      the file is opened, and [_save_data] then swallows the exception and
      leaves the file as it was, as its [except] clause does.  What holds
      whatever a write does is stated for an arbitrary instance of the
      interface, in terms of the list that [_save_data] is given. *)

From Stdlib Require Import ZArith List String Ascii Bool Lia DecimalString Sorted.
From Stdlib Require Import Permutation DecimalNat Floats.
From Stdlib Require DecimalPos DecimalZ.
Import ListNotations.
Open Scope Z_scope.

(** ** Dates and times *)

Definition datetime := Z.
Definition US_PER_SECOND : Z := 1000000.
Definition US_PER_DAY : Z := 86400 * US_PER_SECOND.

(** [timedelta.days]: Python normalises a timedelta so that the remainder is
    non-negative, i.e. the day count is a floor. *)
Definition timedelta_days (delta : Z) : Z := delta / US_PER_DAY.

(** [strftime('%Y-%m-%d %H:%M:%S')] keeps whole seconds; the stored text is
    represented by that count of seconds, and [strptime] reads it back. *)
Definition strftime_seconds (t : datetime) : Z := t / US_PER_SECOND.
Definition strptime_seconds (s : Z) : datetime := s * US_PER_SECOND.

(** [datetime.now().replace(hour=0, minute=0, second=0, microsecond=0)] *)
Definition midnight (t : datetime) : datetime := (t / US_PER_DAY) * US_PER_DAY.

(** A ['%Y-%m-%d'] text is a day number; [strptime] places it at midnight. *)
Definition strptime_date (day : Z) : datetime := day * US_PER_DAY.

(** ** Number formatting *)

Definition str_of_Z (z : Z) : string := NilZero.string_of_int (Z.to_int z).

Fixpoint zeros (n : nat) : string :=
  match n with
  | O => EmptyString
  | S n' => String "0" (zeros n')
  end.

(** The format [{n:06d}] for a non-negative [n]. *)
Definition format_06d (n : nat) : string :=
  let s := NilEmpty.string_of_uint (Nat.to_uint n) in
  (zeros (6 - String.length s) ++ s)%string.

(** ** Records

    The entries ['status': 'successful'] and ['status': 'rejected'] are
    constant in their stores and are not repeated in the records. *)

Record Project := mkProject {
  p_id : string;
  p_name : string;
  goal_amount : Z;
  current_amount : Z;
  deadline : option Z   (* day number; [None] when the text does not parse *)
}.

Record RewardTier := mkRewardTier {
  r_id : string;
  r_project_id : string;
  r_name : string;
  min_amount : Z;
  remaining_quota : Z
}.

Record User := mkUser {
  u_id : string;
  username : string;
  full_name : string
}.

Record Pledge := mkPledge {
  pl_id : string;
  pl_user_id : string;
  pl_project_id : string;
  pl_amount : Z;
  pl_reward_id : option string;
  pledge_date : Z            (* whole seconds *)
}.

Record RejectedPledge := mkRejectedPledge {
  rj_user_id : string;
  rj_project_id : string;
  rj_amount : Z;
  rj_reward_id : option string;
  rejection_date : Z;        (* whole seconds *)
  rejection_reason : string
}.

(** The dictionary returned by [create_pledge] and [_reject_pledge]. *)
Record Outcome := mkOutcome {
  success : bool;
  message : string;
  pledge_id : option string
}.

(** ** Storage *)

Class Storage (F : Type -> Type) := {
  _load_data : forall {A : Type}, F A -> list A;
  _save_data : forall {A : Type}, list A -> F A -> F A
}.

(** Storage on which every write succeeds. *)
Definition disk (A : Type) : Type := list A.

#[export] Instance disk_storage : Storage disk := {
  _load_data := fun A f => f;
  _save_data := fun A data _ => data
}.

(** Storage on which a write may fail: [_save_data] catches the exception,
    prints it and returns, so the file keeps its contents. *)
Record flaky (A : Type) : Type := mkFlaky {
  contents : list A;
  writable : bool
}.
Arguments mkFlaky {A} _ _.
Arguments contents {A} _.
Arguments writable {A} _.

#[export] Instance flaky_storage : Storage flaky := {
  _load_data := fun A f => contents f;
  _save_data := fun A data f =>
    if writable f then mkFlaky data true else f
}.

(** The five files of the [data/] directory. *)
Record World (F : Type -> Type) := mkWorld {
  projects_file : F Project;
  rewards_file : F RewardTier;
  pledges_file : F Pledge;
  rejected_pledges_file : F RejectedPledge;
  users_file : F User
}.
Arguments mkWorld {F} _ _ _ _ _.
Arguments projects_file {F} _.
Arguments rewards_file {F} _.
Arguments pledges_file {F} _.
Arguments rejected_pledges_file {F} _.
Arguments users_file {F} _.

Definition set_projects {F} (w : World F) (f : F Project) : World F :=
  mkWorld f (rewards_file w) (pledges_file w) (rejected_pledges_file w) (users_file w).
Definition set_rewards {F} (w : World F) (f : F RewardTier) : World F :=
  mkWorld (projects_file w) f (pledges_file w) (rejected_pledges_file w) (users_file w).
Definition set_pledges {F} (w : World F) (f : F Pledge) : World F :=
  mkWorld (projects_file w) (rewards_file w) f (rejected_pledges_file w) (users_file w).
Definition set_rejected {F} (w : World F) (f : F RejectedPledge) : World F :=
  mkWorld (projects_file w) (rewards_file w) (pledges_file w) f (users_file w).

(** ** Python helpers *)

(** Truth value of the [reward_id] argument: [None] and [''] are false.  The
    result is the identifier when the argument is true. *)
Definition truthy (reward_id : option string) : option string :=
  match reward_id with
  | Some s => if (s =? "")%string then None else Some s
  | None => None
  end.

(** [list.sort] and [sorted] are stable.  [stable_sort before l] sorts [l] so
    that [x] comes ahead of [y] whenever [before x y]; elements that are not
    ordered by [before] keep the order they had in [l]. *)
Fixpoint insert_sorted {A : Type} (before : A -> A -> bool) (x : A) (l : list A)
  : list A :=
  match l with
  | [] => [x]
  | y :: l' => if before y x then y :: insert_sorted before x l'
               else x :: y :: l'
  end.

Definition stable_sort {A : Type} (before : A -> A -> bool) (l : list A) : list A :=
  fold_right (insert_sorted before) [] l.

(** A slice [l[:n]]; a negative [n] counts from the end. *)
Definition slice_to {A : Type} (n : Z) (l : list A) : list A :=
  if 0 <=? n then firstn (Z.to_nat n) l
  else firstn (List.length l - Z.to_nat (- n))%nat l.

(** [d[k] = d.get(k, 0) + v] on an insertion-ordered dictionary. *)
Fixpoint dict_add (k : string) (v : Z) (d : list (string * Z)) : list (string * Z) :=
  match d with
  | [] => [(k, 0 + v)]
  | (k', v') :: d' =>
      if (k' =? k)%string then (k', v' + v) :: d'
      else (k', v') :: dict_add k v d'
  end.

(** ** Project Catalog ([ProjectModel]) *)

(** A project dictionary as [get_all_projects] returns it: the stored record
    and the computed [days_remaining].  (The computed [progress_percentage] is
    a float that the ledger never reads; it is left out.) *)
Record ProjectView := mkProjectView {
  pv_project : Project;
  days_remaining : Z
}.

Definition _calculate_days_remaining (now : datetime) (deadline_str : option Z) : Z :=
  match deadline_str with
  | Some day =>
      let deadline := strptime_date day in
      let today := midnight now in
      let remaining := timedelta_days (deadline - today) in
      Z.max 0 remaining
  | None => 0
  end.

Fixpoint add_amount (project_id : string) (additional_amount : Z)
  (projects : list Project) : option (list Project) :=
  match projects with
  | [] => None
  | project :: rest =>
      if (p_id project =? project_id)%string
      then Some (mkProject (p_id project) (p_name project) (goal_amount project)
                   (current_amount project + additional_amount)
                   (deadline project) :: rest)
      else option_map (cons project) (add_amount project_id additional_amount rest)
  end.

Fixpoint take_quota (reward_id : string) (decrease_by : Z)
  (rewards : list RewardTier) : option (list RewardTier) :=
  match rewards with
  | [] => None
  | reward :: rest =>
      if ((r_id reward =? reward_id)%string && (0 <? remaining_quota reward))%bool
      then Some (mkRewardTier (r_id reward) (r_project_id reward) (r_name reward)
                   (min_amount reward)
                   (remaining_quota reward - decrease_by) :: rest)
      else option_map (cons reward) (take_quota reward_id decrease_by rest)
  end.

Section Models.
Context {F : Type -> Type} {storage : Storage F}.

Definition get_all_projects (w : World F) (now : datetime) : list ProjectView :=
  map (fun project =>
         mkProjectView project (_calculate_days_remaining now (deadline project)))
      (_load_data (projects_file w)).

Definition get_project_by_id (w : World F) (now : datetime) (project_id : string)
  : option ProjectView :=
  find (fun project => (p_id (pv_project project) =? project_id)%string)
       (get_all_projects w now).

Definition get_reward_tiers (w : World F) (project_id : string) : list RewardTier :=
  let rewards := _load_data (rewards_file w) in
  let project_rewards :=
    filter (fun r => (r_project_id r =? project_id)%string) rewards in
  stable_sort (fun x y => min_amount x <? min_amount y) project_rewards.

Definition update_project_amount (w : World F) (project_id : string)
  (additional_amount : Z) : World F * bool :=
  let projects := _load_data (projects_file w) in
  match add_amount project_id additional_amount projects with
  | Some projects' =>
      (set_projects w (_save_data projects' (projects_file w)), true)
  | None => (w, false)
  end.

Definition update_reward_quota (w : World F) (reward_id : string)
  (decrease_by : Z) : World F * bool :=
  let rewards := _load_data (rewards_file w) in
  match take_quota reward_id decrease_by rewards with
  | Some rewards' =>
      (set_rewards w (_save_data rewards' (rewards_file w)), true)
  | None => (w, false)
  end.

(** ** User Directory ([UserModel]) *)

Definition get_user_by_id (w : World F) (user_id : string) : option User :=
  find (fun user => (u_id user =? user_id)%string) (_load_data (users_file w)).

(** ** Pledge Ledger ([PledgeModel]) *)

Definition _reject_pledge (w : World F) (now : datetime)
  (user_id project_id : string) (amount : Z) (reward_id : option string)
  (reason : string) : World F * Outcome :=
  let rejected_pledge :=
    mkRejectedPledge user_id project_id amount (truthy reward_id)
      (strftime_seconds now) reason in
  let rejected_pledges := _load_data (rejected_pledges_file w) in
  (set_rejected w
     (_save_data (rejected_pledges ++ [rejected_pledge]) (rejected_pledges_file w)),
   mkOutcome false reason None).

(** The loop of [create_pledge] that looks the selected tier up. *)
Definition select_reward (w : World F) (project_id reward_id : string)
  : option RewardTier :=
  find (fun reward => (r_id reward =? reward_id)%string)
       (get_reward_tiers w project_id).

Definition amount_too_low (min : Z) : string :=
  ("Amount must be at least " ++ str_of_Z min ++ " for this reward")%string.

(** Business rule 2: the reason of the first reward check that fails. *)
Definition reward_rejection (w : World F) (project_id : string) (amount : Z)
  (reward_id : option string) : option string :=
  match truthy reward_id with
  | None => None
  | Some rid =>
      match select_reward w project_id rid with
      | None => Some "Selected reward tier not found"%string
      | Some selected_reward =>
          if amount <? min_amount selected_reward
          then Some (amount_too_low (min_amount selected_reward))
          else if remaining_quota selected_reward <=? 0
          then Some "Selected reward tier is sold out"%string
          else None
      end
  end.

(** The part of [create_pledge] after all validations have passed. *)
Definition record_pledge (w : World F) (now : datetime)
  (user_id project_id : string) (amount : Z) (reward_id : option string)
  : World F * Outcome :=
  let pledge_id :=
    ("pledge_" ++ format_06d (List.length (_load_data (pledges_file w)) + 1)%nat)%string in
  let new_pledge :=
    mkPledge pledge_id user_id project_id amount (truthy reward_id)
      (strftime_seconds now) in
  let pledges := _load_data (pledges_file w) in
  let w1 := set_pledges w (_save_data (pledges ++ [new_pledge]) (pledges_file w)) in
  let w2 := fst (update_project_amount w1 project_id amount) in
  let w3 := match truthy reward_id with
            | Some rid => fst (update_reward_quota w2 rid 1)
            | None => w2
            end in
  (w3, mkOutcome true "Pledge created successfully" (Some pledge_id)).

Definition create_pledge (w : World F) (now : datetime)
  (user_id project_id : string) (amount : Z) (reward_id : option string)
  : World F * Outcome :=
  match get_project_by_id w now project_id with
  | None =>
      _reject_pledge w now user_id project_id amount reward_id "Project not found"
  | Some project =>
      if days_remaining project <=? 0
      then _reject_pledge w now user_id project_id amount reward_id
             "Project deadline has passed"
      else
        match reward_rejection w project_id amount reward_id with
        | Some reason =>
            _reject_pledge w now user_id project_id amount reward_id reason
        | None => record_pledge w now user_id project_id amount reward_id
        end
  end.

End Models.

(** A call [flash(text, category)] of the controllers in [main.py]. *)
Record Flash := mkFlash {
  flash_text : string;
  flash_category : string
}.

(** ** Statistics *)

(** The dictionary of [get_pledge_statistics].  The two rounded float ratios,
    [success_rate_percentage] and [average_pledge_amount], are left out. *)
Record Statistics := mkStatistics {
  total_successful_pledges : nat;
  total_rejected_pledges : nat;
  total_pledge_attempts : nat;
  total_pledged_amount : Z;
  recent_successful_pledges : nat;
  recent_rejected_pledges : nat;
  top_rejection_reasons : list (string * Z)
}.

(** An entry of [get_top_backers]. *)
Record Backer := mkBacker {
  user_name : string;
  b_username : string;
  total_pledged : Z;
  pledge_count : nat
}.

(** The test [(current_date - date).days <= 7] of the two counting loops,
    for a date stored as text. *)
Definition is_recent (current_date : datetime) (date_str : Z) : bool :=
  timedelta_days (current_date - strptime_seconds date_str) <=? 7.

(** The loop that fills [user_totals]. *)
Definition user_totals (pledges : list Pledge) : list (string * Z) :=
  fold_left (fun totals pledge =>
               dict_add (pl_user_id pledge) (pl_amount pledge) totals)
            pledges [].

(** The loop that fills [rejection_reasons]. *)
Definition rejection_reasons (rejected_pledges : list RejectedPledge)
  : list (string * Z) :=
  fold_left (fun reasons rejection =>
               dict_add (rejection_reason rejection) 1 reasons)
            rejected_pledges [].

(** [sorted(d.items(), key=lambda x: x[1], reverse=True)] *)
Definition sort_by_value_desc (items : list (string * Z)) : list (string * Z) :=
  stable_sort (fun x y => snd y <? snd x) items.

Section Reports.
Context {F : Type -> Type} {storage : Storage F}.

Definition get_pledge_statistics (w : World F) (now : datetime) : Statistics :=
  let successful_pledges := _load_data (pledges_file w) in
  let rejected_pledges := _load_data (rejected_pledges_file w) in
  let total_successful := List.length successful_pledges in
  let total_rejected := List.length rejected_pledges in
  let total_attempts := (total_successful + total_rejected)%nat in
  let total_amount := fold_left Z.add (map pl_amount successful_pledges) 0 in
  let current_date := now in
  let recent_successful :=
    List.length (filter (fun pledge => is_recent current_date (pledge_date pledge))
                        successful_pledges) in
  let recent_rejected :=
    List.length (filter (fun rejection =>
                           is_recent current_date (rejection_date rejection))
                        rejected_pledges) in
  mkStatistics total_successful total_rejected total_attempts total_amount
    recent_successful recent_rejected
    (slice_to 5 (sort_by_value_desc (rejection_reasons rejected_pledges))).

Definition pledges_of (user_id : string) (pledges : list Pledge) : list Pledge :=
  filter (fun p => (pl_user_id p =? user_id)%string) pledges.

Definition get_top_backers (w : World F) (limit : Z) : list Backer :=
  let pledges := _load_data (pledges_file w) in
  let sorted_backers := sort_by_value_desc (user_totals pledges) in
  flat_map (fun entry =>
              let '(user_id, total_amount) := entry in
              match get_user_by_id w user_id with
              | Some user =>
                  [mkBacker (full_name user) (username user) total_amount
                     (List.length (pledges_of user_id pledges))]
              | None => []
              end)
           (slice_to limit sorted_backers).

(** ** Sequential execution of the operations that write *)

Inductive operation :=
| CreatePledge (now : datetime) (user_id project_id : string) (amount : Z)
    (reward_id : option string)
| UpdateProjectAmount (project_id : string) (additional_amount : Z)
| UpdateRewardQuota (reward_id : string) (decrease_by : Z).

Definition run_operation (w : World F) (op : operation) : World F :=
  match op with
  | CreatePledge now user_id project_id amount reward_id =>
      fst (create_pledge w now user_id project_id amount reward_id)
  | UpdateProjectAmount project_id additional_amount =>
      fst (update_project_amount w project_id additional_amount)
  | UpdateRewardQuota reward_id decrease_by =>
      fst (update_reward_quota w reward_id decrease_by)
  end.

Definition run (ops : list operation) (w : World F) : World F :=
  fold_left run_operation ops w.

End Reports.

(** ** Observations used in the statements *)

(** [successful_count + rejected_count] *)
Definition record_count {F} {storage : Storage F} (w : World F) : nat :=
  (List.length (_load_data (pledges_file w))
   + List.length (_load_data (rejected_pledges_file w)))%nat.

(** All five checks of [create_pledge] pass. *)
Definition accepted {F} {storage : Storage F} (w : World F) (now : datetime)
  (project_id : string) (amount : Z) (reward_id : option string) : Prop :=
  exists project,
    get_project_by_id w now project_id = Some project /\
    0 < days_remaining project /\
    reward_rejection w project_id amount reward_id = None.

(** Every reward tier of the catalog has a non-negative quota. *)
Definition quotas_nonneg {F} {storage : Storage F} (w : World F) : Prop :=
  Forall (fun reward => 0 <= remaining_quota reward) (_load_data (rewards_file w)).

(** The decrement of a direct call to the quota hook is at most one. *)
Definition small_decrement (op : operation) : Prop :=
  match op with
  | UpdateRewardQuota _ decrease_by => decrease_by <= 1
  | _ => True
  end.

Definition with_quota (reward : RewardTier) (quota : Z) : RewardTier :=
  mkRewardTier (r_id reward) (r_project_id reward) (r_name reward)
    (min_amount reward) quota.

(** The sum of the amounts of the successful pledges of one user. *)
Definition total_of (user_id : string) (pledges : list Pledge) : Z :=
  fold_left Z.add (map pl_amount (pledges_of user_id pledges)) 0.

(** Descending order of the values of two dictionary items. *)
Definition by_value_desc (x y : string * Z) : Prop := snd y <= snd x.



Definition with_amount (project : Project) (amount : Z) : Project :=
  mkProject (p_id project) (p_name project) (goal_amount project) amount
    (deadline project).

(** A successful pledge of tier [reward_id] takes one unit of it. *)
Definition claim_unit (reward_id : string) (decrease_by : Z) (reward : RewardTier)
  : RewardTier :=
  if (r_id reward =? reward_id)%string
  then with_quota reward (remaining_quota reward - decrease_by)
  else reward.

Definition set_users {F} (w : World F) (f : F User) : World F :=
  mkWorld (projects_file w) (rewards_file w) (pledges_file w)
    (rejected_pledges_file w) f.

Definition sold_out : string := "Selected reward tier is sold out".
Definition tier_not_found : string := "Selected reward tier not found".

(** ** Sample data *)

Module Sample.

(** Ten o'clock in the morning of day 20000. *)
Definition now0 : datetime := 20000 * US_PER_DAY + 36000 * US_PER_SECOND.

Definition smart_home : Project :=
  mkProject "10001001" "Smart Home IoT System" 50000 35750 (Some 20045).
Definition expired : Project :=
  mkProject "20002002" "Handcrafted Wooden Furniture" 25000 28500 (Some 20000).

Definition early_bird : RewardTier :=
  mkRewardTier "reward_1" "10001001" "Early Bird Special" 2500 0.
Definition standard : RewardTier :=
  mkRewardTier "reward_2" "10001001" "Standard Package" 1000 3.

Definition alice : User := mkUser "user_0001" "alice" "Alice Archer".
Definition bob : User := mkUser "user_0002" "bob" "Bob Baker".
Definition carol : User := mkUser "user_0003" "carol" "Carol Cook".

Definition catalog : World disk :=
  mkWorld [smart_home; expired] [early_bird; standard] [] [] [alice; bob; carol].

(** The same files, but [rejected_pledges.json] and [pledges.json] cannot be
    written. *)
Definition read_only_ledger : World flaky :=
  mkWorld (mkFlaky [smart_home; expired] true)
          (mkFlaky [early_bird; standard] true)
          (mkFlaky [] false) (mkFlaky [] false)
          (mkFlaky [alice; bob; carol] true).

Definition writable_ledger : World flaky :=
  mkWorld (mkFlaky [smart_home; expired] true)
          (mkFlaky [early_bird; standard] true)
          (mkFlaky [] true) (mkFlaky [] true)
          (mkFlaky [alice; bob; carol] true).

(** The same files, but [projects.json] and [reward_tiers.json] cannot be
    written. *)
Definition read_only_catalog : World flaky :=
  mkWorld (mkFlaky [smart_home; expired] false)
          (mkFlaky [early_bird; standard] false)
          (mkFlaky [] true) (mkFlaky [] true)
          (mkFlaky [alice; bob; carol] true).

(** Three backers with totals 500, 1500 and 300. *)
Definition backed : World disk :=
  mkWorld [smart_home; expired] [early_bird; standard]
    [mkPledge "pledge_000001" "user_0001" "10001001" 200 None 1727000000;
     mkPledge "pledge_000002" "user_0002" "10001001" 1500 None 1727000100;
     mkPledge "pledge_000003" "user_0003" "10001001" 300 None 1727000200;
     mkPledge "pledge_000004" "user_0001" "10001001" 300 None 1727000300]
    [] [alice; bob; carol].

(** One pledge made seven days and one second before [now0], one rejection
    made exactly eight days before [now0]. *)
Definition aged : World disk :=
  mkWorld [smart_home] []
    [mkPledge "pledge_000001" "user_0001" "10001001" 200 None
       (strftime_seconds now0 - 7 * 86400 - 1)]
    [mkRejectedPledge "user_0001" "10001001" 200 None
       (strftime_seconds now0 - 8 * 86400) "Project not found"]
    [alice].

End Sample.

(** ** More of the Pledge Ledger: the listings *)

(** A pledge dictionary with the [project_name] that [get_user_pledges]
    adds to it. *)
Record UserPledge := mkUserPledge {
  up_pledge : Pledge;
  up_project_name : string
}.

(** A pledge dictionary with the [user_name] that [get_project_pledges]
    adds to it. *)
Record ProjectPledge := mkProjectPledge {
  pp_pledge : Pledge;
  pp_user_name : string
}.

(** The integer entries of [get_project_statistics]; the two float ratios,
    [success_rate] and [overall_progress], are left out. *)
Record ProjectStatistics := mkProjectStatistics {
  total_projects : nat;
  active_projects : nat;
  expired_projects : Z;
  successful_projects : nat;
  total_goal_amount : Z;
  total_raised_amount : Z
}.

(** What [user_profile] hands to its template. *)
Record ProfilePage := mkProfilePage {
  page_user : option User;
  page_pledges : list UserPledge;
  page_total_pledged : Z;
  page_projects_backed : nat
}.

(** The template filter [days_remaining]. *)
Definition days_remaining_filter (days : Z) : string :=
  if days <=? 0 then "Expired"%string
  else if days =? 1 then "1 day left"%string
  else (str_of_Z days ++ " days left")%string.

Section Listings.
Context {F : Type -> Type} {storage : Storage F}.

Definition get_user_pledges (w : World F) (now : datetime) (user_id : string)
  : list UserPledge :=
  let pledges := _load_data (pledges_file w) in
  let user_pledges := filter (fun p => (pl_user_id p =? user_id)%string) pledges in
  map (fun pledge =>
         mkUserPledge pledge
           match get_project_by_id w now (pl_project_id pledge) with
           | Some project => p_name (pv_project project)
           | None => "Unknown Project"%string
           end)
      user_pledges.

(** The sort key is the text of [pledge_date]; the texts have one fixed
    layout, so their order is the order of the seconds they stand for.
    [reverse=True] keeps the stored order of pledges of the same second. *)
Definition get_project_pledges (w : World F) (project_id : string)
  : list ProjectPledge :=
  let pledges := _load_data (pledges_file w) in
  let project_pledges :=
    filter (fun p => (pl_project_id p =? project_id)%string) pledges in
  let annotated :=
    map (fun pledge =>
           mkProjectPledge pledge
             match get_user_by_id w (pl_user_id pledge) with
             | Some user => full_name user
             | None => "Anonymous"%string
             end)
        project_pledges in
  stable_sort (fun x y => pledge_date (pp_pledge y) <? pledge_date (pp_pledge x))
              annotated.

Definition get_project_statistics (w : World F) (now : datetime)
  : ProjectStatistics :=
  let projects := get_all_projects w now in
  let total_projects := List.length projects in
  let active_projects :=
    List.length (filter (fun p => 0 <? days_remaining p) projects) in
  let expired_projects := Z.of_nat total_projects - Z.of_nat active_projects in
  let total_goal :=
    fold_left Z.add (map (fun p => goal_amount (pv_project p)) projects) 0 in
  let total_raised :=
    fold_left Z.add (map (fun p => current_amount (pv_project p)) projects) 0 in
  let successful_projects :=
    List.length (filter (fun p => goal_amount (pv_project p)
                                  <=? current_amount (pv_project p)) projects) in
  mkProjectStatistics total_projects active_projects expired_projects
    successful_projects total_goal total_raised.

(** The controller [user_profile]; [None] is the redirect to the login page
    of a request without a session. *)
Definition user_profile (w : World F) (now : datetime)
  (session_user : option string) : option ProfilePage :=
  match session_user with
  | None => None
  | Some user_id =>
      let user := get_user_by_id w user_id in
      let user_pledges := get_user_pledges w now user_id in
      let total_pledged :=
        fold_left Z.add (map (fun p => pl_amount (up_pledge p)) user_pledges) 0 in
      let projects_backed :=
        List.length
          (nodup string_dec (map (fun p => pl_project_id (up_pledge p)) user_pledges)) in
      Some (mkProfilePage user user_pledges total_pledged projects_backed)
  end.

End Listings.

(** ** The User Directory with its stored fields ([UserModel])

    The ledger only reads the identifier and the two names of a user, which is
    what the record [User] above holds.  The module below has the records of
    [users.json] in full, for the operations that create and check users.
    Left out of the development: [get_filtered_projects] and
    [get_all_categories] (they read fields and a file the ledger never
    touches), the float ratios, and the generators of random sample data. *)

(** The format [{n:0Wd}] for a non-negative [n]. *)
Definition zero_pad (width : nat) (n : nat) : string :=
  let s := NilEmpty.string_of_uint (Nat.to_uint n) in
  (zeros (width - String.length s) ++ s)%string.

Definition format_04d (n : nat) : string := zero_pad 4 n.

(** The number that a zero-padded identifier suffix stands for. *)
Definition read_number (s : string) : option nat :=
  option_map Nat.of_uint (NilEmpty.uint_of_string s).

Module UserModel.

(** A record of [users.json].  [acc_created_date] is the text of the
    creation time as whole seconds, [None] when the text does not parse. *)
Record Account := mkAccount {
  acc_id : string;
  acc_username : string;
  acc_password : string;
  acc_email : string;
  acc_full_name : string;
  acc_created_date : option Z
}.

(** The dictionary that the lookups return: the record without the
    password. *)
Record PublicUser := mkPublicUser {
  pub_id : string;
  pub_username : string;
  pub_email : string;
  pub_full_name : string;
  pub_created_date : option Z
}.

Definition public (user : Account) : PublicUser :=
  mkPublicUser (acc_id user) (acc_username user) (acc_email user)
    (acc_full_name user) (acc_created_date user).

(** The part of a stored user that the Pledge Ledger looks at. *)
Definition directory_entry (user : Account) : User :=
  mkUser (acc_id user) (acc_username user) (acc_full_name user).

(** The dictionary returned by [create_user]. *)
Record Registration := mkRegistration {
  reg_success : bool;
  reg_message : string;
  reg_user_id : option string
}.

(** The dictionary of [get_user_statistics]. *)
Record UserStatistics := mkUserStatistics {
  total_users : nat;
  recent_users : nat;
  active_users : nat
}.

(** What [login] and [logout] keep in the Flask session. *)
Record Session := mkSession {
  session_user_id : string;
  session_username : string;
  session_full_name : string
}.

Section Model.
(** [_hash_password]: the hexadecimal SHA-256 digest, taken as given. *)
Variable _hash_password : string -> string.
Context {F : Type -> Type} {storage : Storage F}.

Definition authenticate (users_file : F Account) (username password : string)
  : option PublicUser :=
  let users := _load_data users_file in
  let hashed_password := _hash_password password in
  option_map public
    (find (fun user => ((acc_username user =? username)%string
                        && (acc_password user =? hashed_password)%string)%bool)
          users).

Definition get_user_by_id (users_file : F Account) (user_id : string)
  : option PublicUser :=
  option_map public
    (find (fun user => (acc_id user =? user_id)%string) (_load_data users_file)).

Definition get_all_users (users_file : F Account) : list PublicUser :=
  map public (_load_data users_file).

Definition create_user (users_file : F Account) (now : datetime)
  (username password email full_name : string) : F Account * Registration :=
  let users := _load_data users_file in
  if existsb (fun user => (acc_username user =? username)%string) users
  then (users_file, mkRegistration false "Username already exists" None)
  else if existsb (fun user => (acc_email user =? email)%string) users
  then (users_file, mkRegistration false "Email already exists" None)
  else
    let user_id := ("user_" ++ format_04d (List.length users + 1))%string in
    let new_user :=
      mkAccount user_id username (_hash_password password) email full_name
        (Some (strftime_seconds now)) in
    (_save_data (users ++ [new_user]) users_file,
     mkRegistration true "User created successfully" (Some user_id)).

Definition get_user_statistics (users_file : F Account) (now : datetime)
  : UserStatistics :=
  let users := get_all_users users_file in
  let total_users := List.length users in
  let today := now in
  let recent_users :=
    List.length
      (filter (fun user =>
                 match pub_created_date user with
                 | Some created =>
                     timedelta_days (today - strptime_seconds created) <=? 30
                 | None => false
                 end)
              users) in
  mkUserStatistics total_users recent_users total_users.

(** The POST branch of the controller [login]; [username] is the form field
    after [strip()].  The result is the session afterwards and the flashed
    message. *)
Definition login (users_file : F Account) (session : option Session)
  (username password : string) : option Session * Flash :=
  if ((username =? "")%string || (password =? "")%string)%bool
  then (session, mkFlash "Please provide both username and password" "error")
  else
    match authenticate users_file username password with
    | Some user =>
        (Some (mkSession (pub_id user) (pub_username user) (pub_full_name user)),
         mkFlash ("Welcome back, " ++ pub_full_name user ++ "!") "success")
    | None => (session, mkFlash "Invalid username or password" "error")
    end.

End Model.

(** The controller [logout]. *)
Definition logout (session : option Session) : option Session * Flash :=
  let username := match session with
                  | Some s => session_username s
                  | None => "User"%string
                  end in
  (None, mkFlash ("Goodbye, " ++ username ++ "!") "info").

End UserModel.

(** ** Observations used in the further statements *)

(** Position [i] of the success store holds the identifier numbered [i + 1]. *)
Fixpoint numbered_from (n : nat) (ids : list string) : Prop :=
  match ids with
  | [] => True
  | id :: rest => id = ("pledge_" ++ format_06d n)%string /\ numbered_from (S n) rest
  end.

Definition sequential_ledger {F} {storage : Storage F} (w : World F) : Prop :=
  numbered_from 1 (map pl_id (_load_data (pledges_file w))).

(** Position [i] of [users.json] holds the identifier numbered [i + 1]. *)
Fixpoint users_numbered_from (n : nat) (ids : list string) : Prop :=
  match ids with
  | [] => True
  | id :: rest =>
      id = ("user_" ++ format_04d n)%string /\ users_numbered_from (S n) rest
  end.

(** The sum of the quotas of a reward file. *)
Definition total_quota (rewards : list RewardTier) : Z :=
  fold_left Z.add (map remaining_quota rewards) 0.

(** Ascending order of the minimum amounts of two tiers. *)
Definition cheaper_first (a b : RewardTier) : Prop := min_amount a <= min_amount b.

(** Newest first. *)
Definition newer_first (a b : ProjectPledge) : Prop :=
  pledge_date (pp_pledge b) <= pledge_date (pp_pledge a).

(** The loop that fills a dictionary of sums, for any key and value. *)
Definition tally {A : Type} (key : A -> string) (value : A -> Z) (l : list A)
  : list (string * Z) :=
  fold_left (fun d x => dict_add (key x) (value x) d) l [].

(** The write of [_save_data] to [file] lands: what is saved is what
    [_load_data] reads afterwards. *)
Definition write_lands {F} {storage : Storage F} {A : Type} (file : F A) : Prop :=
  forall data : list A, _load_data (_save_data data file) = data.

(** The write of [_save_data] to [file] lands or leaves the file as it was. *)
Definition write_lands_or_not {F} {storage : Storage F} {A : Type} (file : F A)
  : Prop :=
  forall data : list A,
    _load_data (_save_data data file) = data \/
    _load_data (_save_data data file) = _load_data file.

(** What a write can do to a file of pledges: it lands, or the file cannot
    be opened and stays as it was, or the file is opened, truncated, and the
    dump fails, after which [_load_data] finds nothing it can parse. *)
Definition pledge_writes_land_fail_or_tear (F : Type -> Type)
  {storage : Storage F} : Prop :=
  forall (data : list Pledge) (file : F Pledge),
    _load_data (_save_data data file) = data \/
    _load_data (_save_data data file) = _load_data file \/
    _load_data (_save_data data file) = [].

Module MoreSamples.

Definition accounts : list UserModel.Account :=
  [UserModel.mkAccount "user_0001" "admin" "5e88" "admin@crowdfunding.com"
     "System Administrator" (Some 1705312800);
   UserModel.mkAccount "user_0002" "john_doe" "ef92" "john.doe@email.com"
     "John Doe" (Some 1707575400)].

(** A stand-in for the digest, used where a concrete function is needed. *)
Definition toy_hash (password : string) : string := ("#" ++ password)%string.

End MoreSamples.

(** * The ledger over the stored objects

    The second embedding follows the same functions, on the dictionaries that
    [json.load] returns: a key may be missing, in which case the subscript
    raises [KeyError]; the amounts are numbers of any one Python type; and
    [create_pledge] has its [try] block and its handler. *)

Module Json.

(** ** Exceptions *)

Inductive exception :=
| KeyError (key : string)
| OverflowError (text : string).

(** [str(e)]; the text of a [KeyError] is the [repr] of the key. *)
Definition str_of_exception (e : exception) : string :=
  match e with
  | KeyError key => ("'" ++ key ++ "'")%string
  | OverflowError text => text
  end.

Inductive result (T : Type) : Type :=
| Return (value : T)
| Raise (e : exception).
Arguments Return {T} _.
Arguments Raise {T} _.

Definition bind {T U : Type} (m : result T) (k : T -> result U) : result U :=
  match m with
  | Return value => k value
  | Raise e => Raise e
  end.

Notation "x <- m ;; k" := (bind m (fun x => k))
  (at level 61, m at next level, right associativity).

(** The subscript [d[key]] of a stored dictionary. *)
Definition item {T : Type} (key : string) (value : option T) : result T :=
  match value with
  | Some v => Return v
  | None => Raise (KeyError key)
  end.

(** A loop over a list whose body may raise: the first exception ends it. *)
Fixpoint map_result {T U : Type} (f : T -> result U) (l : list T)
  : result (list U) :=
  match l with
  | [] => Return []
  | x :: rest => y <- f x ;; ys <- map_result f rest ;; Return (y :: ys)
  end.

Fixpoint filter_result {T : Type} (p : T -> result bool) (l : list T)
  : result (list T) :=
  match l with
  | [] => Return []
  | x :: rest =>
      keep <- p x ;; kept <- filter_result p rest ;;
      Return (if keep then x :: kept else kept)
  end.

(** The loop [for x in l: if p(x): return x], [None] at its end. *)
Fixpoint find_result {T : Type} (p : T -> result bool) (l : list T)
  : result (option T) :=
  match l with
  | [] => Return None
  | x :: rest => found <- p x ;; if found then Return (Some x) else find_result p rest
  end.

(** ** Numbers *)

Class Number (A : Type) := {
  num_zero : A;
  num_add : A -> A -> A;
  num_ltb : A -> A -> bool;
  num_leb : A -> A -> bool;
  num_str : A -> string;
  true_div_overflows : A -> A -> bool
}.

Definition int_true_div_overflows (a b : Z) : bool :=
  (2 ^ 1024 - 2 ^ 970) * Z.abs b <=? Z.abs a.

#[global] Instance int_number : Number Z := {
  num_zero := 0;
  num_add := Z.add;
  num_ltb := Z.ltb;
  num_leb := Z.leb;
  num_str := str_of_Z;
  true_div_overflows := int_true_div_overflows
}.

Definition float_number (repr : float -> string) : Number float := {|
  num_zero := 0%float;
  num_add := PrimFloat.add;
  num_ltb := PrimFloat.ltb;
  num_leb := PrimFloat.leb;
  num_str := repr;
  true_div_overflows := fun _ _ => false
|}.

(** ** Stored objects

    The dictionaries of [projects.json] and [reward_tiers.json] with the keys
    that the ledger reads; [None] stands for a key that the object does not
    have.  The records that the ledger appends are written in full. *)

Record Project (A : Type) := mkProject {
  p_id : option string;
  p_name : option string;
  goal_amount : option A;
  current_amount : option A;
  deadline : option (option Z)   (* the inner [None]: a text that does not parse *)
}.
Arguments mkProject {A} _ _ _ _ _.
Arguments p_id {A} _.
Arguments p_name {A} _.
Arguments goal_amount {A} _.
Arguments current_amount {A} _.
Arguments deadline {A} _.

Record RewardTier (A : Type) := mkRewardTier {
  r_id : option string;
  r_project_id : option string;
  r_name : option string;
  min_amount : option A;
  remaining_quota : option Z
}.
Arguments mkRewardTier {A} _ _ _ _ _.
Arguments r_id {A} _.
Arguments r_project_id {A} _.
Arguments r_name {A} _.
Arguments min_amount {A} _.
Arguments remaining_quota {A} _.

Record Pledge (A : Type) := mkPledge {
  pl_id : string;
  pl_user_id : string;
  pl_project_id : string;
  pl_amount : A;
  pl_reward_id : option string;
  pledge_date : Z
}.
Arguments mkPledge {A} _ _ _ _ _ _.
Arguments pl_id {A} _.
Arguments pl_user_id {A} _.
Arguments pl_project_id {A} _.
Arguments pl_amount {A} _.
Arguments pl_reward_id {A} _.
Arguments pledge_date {A} _.

Record RejectedPledge (A : Type) := mkRejectedPledge {
  rj_user_id : string;
  rj_project_id : string;
  rj_amount : A;
  rj_reward_id : option string;
  rejection_date : Z;
  rejection_reason : string
}.
Arguments mkRejectedPledge {A} _ _ _ _ _ _.
Arguments rj_user_id {A} _.
Arguments rj_project_id {A} _.
Arguments rj_amount {A} _.
Arguments rj_reward_id {A} _.
Arguments rejection_date {A} _.
Arguments rejection_reason {A} _.

(** The four files that [create_pledge] reads and writes. *)
Record World (F : Type -> Type) (A : Type) := mkWorld {
  projects_file : F (Project A);
  rewards_file : F (RewardTier A);
  pledges_file : F (Pledge A);
  rejected_pledges_file : F (RejectedPledge A)
}.
Arguments mkWorld {F A} _ _ _ _.
Arguments projects_file {F A} _.
Arguments rewards_file {F A} _.
Arguments pledges_file {F A} _.
Arguments rejected_pledges_file {F A} _.

Definition set_projects {F A} (w : World F A) (f : F (Project A)) : World F A :=
  mkWorld f (rewards_file w) (pledges_file w) (rejected_pledges_file w).
Definition set_rewards {F A} (w : World F A) (f : F (RewardTier A)) : World F A :=
  mkWorld (projects_file w) f (pledges_file w) (rejected_pledges_file w).
Definition set_pledges {F A} (w : World F A) (f : F (Pledge A)) : World F A :=
  mkWorld (projects_file w) (rewards_file w) f (rejected_pledges_file w).
Definition set_rejected {F A} (w : World F A) (f : F (RejectedPledge A)) : World F A :=
  mkWorld (projects_file w) (rewards_file w) (pledges_file w) f.

(** A project dictionary with the computed [days_remaining]. *)
Record ProjectView (A : Type) := mkProjectView {
  pv_project : Project A;
  days_remaining : Z
}.
Arguments mkProjectView {A} _ _.
Arguments pv_project {A} _.
Arguments days_remaining {A} _.

Definition with_amount {A} (project : Project A) (amount : A) : Project A :=
  mkProject (p_id project) (p_name project) (goal_amount project) (Some amount)
    (deadline project).

Definition with_quota {A} (reward : RewardTier A) (quota : Z) : RewardTier A :=
  mkRewardTier (r_id reward) (r_project_id reward) (r_name reward)
    (min_amount reward) (Some quota).

Section Models.
Context {A : Type} {number : Number A} {F : Type -> Type} {storage : Storage F}.

(** ** Project Catalog ([ProjectModel]) *)

(** [_calculate_progress_percentage]: the ledger never reads the percentage,
    so only the way the call ends is kept.  A goal that is [<= 0] returns
    before the division. *)
Definition _calculate_progress_percentage (current_amount goal_amount : A)
  : result unit :=
  if num_leb goal_amount num_zero then Return tt
  else if true_div_overflows current_amount goal_amount
  then Raise (OverflowError "integer division result too large for a float")
  else Return tt.

(** The body of the loop of [get_all_projects]. *)
Definition computed (now : datetime) (project : Project A)
  : result (ProjectView A) :=
  deadline_str <- item "deadline" (deadline project) ;;
  current <- item "current_amount" (current_amount project) ;;
  goal <- item "goal_amount" (goal_amount project) ;;
  _ <- _calculate_progress_percentage current goal ;;
  Return (mkProjectView project (_calculate_days_remaining now deadline_str)).

Definition get_all_projects (w : World F A) (now : datetime)
  : result (list (ProjectView A)) :=
  map_result (computed now) (_load_data (projects_file w)).

Definition get_project_by_id (w : World F A) (now : datetime) (project_id : string)
  : result (option (ProjectView A)) :=
  projects <- get_all_projects w now ;;
  find_result (fun project =>
                 id <- item "id" (p_id (pv_project project)) ;;
                 Return (id =? project_id)%string)
              projects.

(** The sort key [x['min_amount']] is computed for every element before the
    list is sorted. *)
Definition get_reward_tiers (w : World F A) (project_id : string)
  : result (list (RewardTier A)) :=
  let rewards := _load_data (rewards_file w) in
  project_rewards <-
    filter_result (fun r => owner <- item "project_id" (r_project_id r) ;;
                            Return (owner =? project_id)%string)
                  rewards ;;
  keyed <-
    map_result (fun r => key <- item "min_amount" (min_amount r) ;; Return (key, r))
               project_rewards ;;
  Return (map snd (stable_sort (fun x y => num_ltb (fst x) (fst y)) keyed)).

Fixpoint add_amount (project_id : string) (additional_amount : A)
  (projects : list (Project A)) : result (option (list (Project A))) :=
  match projects with
  | [] => Return None
  | project :: rest =>
      id <- item "id" (p_id project) ;;
      if (id =? project_id)%string
      then
        current <- item "current_amount" (current_amount project) ;;
        Return (Some (with_amount project (num_add current additional_amount)
                      :: rest))
      else
        rest' <- add_amount project_id additional_amount rest ;;
        Return (option_map (cons project) rest')
  end.

Fixpoint take_quota (reward_id : string) (decrease_by : Z)
  (rewards : list (RewardTier A)) : result (option (list (RewardTier A))) :=
  match rewards with
  | [] => Return None
  | reward :: rest =>
      id <- item "id" (r_id reward) ;;
      if (id =? reward_id)%string
      then
        quota <- item "remaining_quota" (remaining_quota reward) ;;
        if 0 <? quota
        then Return (Some (with_quota reward (quota - decrease_by) :: rest))
        else
          rest' <- take_quota reward_id decrease_by rest ;;
          Return (option_map (cons reward) rest')
      else
        rest' <- take_quota reward_id decrease_by rest ;;
        Return (option_map (cons reward) rest')
  end.

(** The two hooks return the files as they leave them together with the way
    the call ends: an exception raised in the loop leaves the file alone. *)
Definition update_project_amount (w : World F A) (project_id : string)
  (additional_amount : A) : World F A * result bool :=
  match add_amount project_id additional_amount (_load_data (projects_file w)) with
  | Return (Some projects') =>
      (set_projects w (_save_data projects' (projects_file w)), Return true)
  | Return None => (w, Return false)
  | Raise e => (w, Raise e)
  end.

Definition update_reward_quota (w : World F A) (reward_id : string)
  (decrease_by : Z) : World F A * result bool :=
  match take_quota reward_id decrease_by (_load_data (rewards_file w)) with
  | Return (Some rewards') =>
      (set_rewards w (_save_data rewards' (rewards_file w)), Return true)
  | Return None => (w, Return false)
  | Raise e => (w, Raise e)
  end.

(** ** Pledge Ledger ([PledgeModel]) *)

Definition _reject_pledge (w : World F A) (now : datetime)
  (user_id project_id : string) (amount : A) (reward_id : option string)
  (reason : string) : World F A * Outcome :=
  let rejected_pledge :=
    mkRejectedPledge user_id project_id amount (truthy reward_id)
      (strftime_seconds now) reason in
  let rejected_pledges := _load_data (rejected_pledges_file w) in
  (set_rejected w
     (_save_data (rejected_pledges ++ [rejected_pledge]) (rejected_pledges_file w)),
   mkOutcome false reason None).

(** The loop of [create_pledge] that looks the selected tier up. *)
Definition select_reward (w : World F A) (project_id reward_id : string)
  : result (option (RewardTier A)) :=
  rewards <- get_reward_tiers w project_id ;;
  find_result (fun reward => id <- item "id" (r_id reward) ;;
                             Return (id =? reward_id)%string)
              rewards.

Definition amount_too_low (min : A) : string :=
  ("Amount must be at least " ++ num_str min ++ " for this reward")%string.

(** Business rule 2: the reason of the first reward check that fails. *)
Definition reward_rejection (w : World F A) (project_id : string) (amount : A)
  (reward_id : option string) : result (option string) :=
  match truthy reward_id with
  | None => Return None
  | Some rid =>
      selected <- select_reward w project_id rid ;;
      match selected with
      | None => Return (Some tier_not_found)
      | Some selected_reward =>
          min <- item "min_amount" (min_amount selected_reward) ;;
          if num_ltb amount min
          then Return (Some (amount_too_low min))
          else
            quota <- item "remaining_quota" (remaining_quota selected_reward) ;;
            if quota <=? 0 then Return (Some sold_out) else Return None
      end
  end.

(** The part of the [try] block after all validations have passed: the
    pledge is saved first, so an exception raised by one of the two hooks
    leaves it stored. *)
Definition record_pledge (w : World F A) (now : datetime)
  (user_id project_id : string) (amount : A) (reward_id : option string)
  : World F A * result Outcome :=
  let pledge_id :=
    ("pledge_" ++ format_06d (List.length (_load_data (pledges_file w)) + 1)%nat)%string in
  let new_pledge :=
    mkPledge pledge_id user_id project_id amount (truthy reward_id)
      (strftime_seconds now) in
  let pledges := _load_data (pledges_file w) in
  let w1 := set_pledges w (_save_data (pledges ++ [new_pledge]) (pledges_file w)) in
  let done := mkOutcome true "Pledge created successfully" (Some pledge_id) in
  match update_project_amount w1 project_id amount with
  | (w2, Raise e) => (w2, Raise e)
  | (w2, Return _) =>
      match truthy reward_id with
      | None => (w2, Return done)
      | Some rid =>
          match update_reward_quota w2 rid 1 with
          | (w3, Raise e) => (w3, Raise e)
          | (w3, Return _) => (w3, Return done)
          end
      end
  end.

(** The [try] block of [create_pledge]: the files as the block leaves them,
    and the dictionary it returns or the exception it raises. *)
Definition try_block (w : World F A) (now : datetime)
  (user_id project_id : string) (amount : A) (reward_id : option string)
  : World F A * result Outcome :=
  let reject reason :=
    let '(w', outcome) :=
      _reject_pledge w now user_id project_id amount reward_id reason in
    (w', Return outcome) in
  match get_project_by_id w now project_id with
  | Raise e => (w, Raise e)
  | Return None => reject "Project not found"%string
  | Return (Some project) =>
      if days_remaining project <=? 0
      then reject "Project deadline has passed"%string
      else
        match reward_rejection w project_id amount reward_id with
        | Raise e => (w, Raise e)
        | Return (Some reason) => reject reason
        | Return None => record_pledge w now user_id project_id amount reward_id
        end
  end.

Definition create_pledge (w : World F A) (now : datetime)
  (user_id project_id : string) (amount : A) (reward_id : option string)
  : World F A * Outcome :=
  match try_block w now user_id project_id amount reward_id with
  | (w', Return outcome) => (w', outcome)
  | (w', Raise e) =>
      _reject_pledge w' now user_id project_id amount reward_id
        ("System error: " ++ str_of_exception e)
  end.

End Models.

(** ** The pledge controller ([make_pledge] in [main.py])

    The amount that the controller hands to the ledger is the result of
    [float(amount_str)].  The outer [except] clause of the controller is
    left out: [create_pledge] catches what its own [try] block raises, and
    the other statements of the controller raise nothing but the
    [ValueError] of [float]. *)

(** The text of the [amount] form field after [strip()]: empty, something
    [float] rejects, or the text of a float, which may be [nan] or [inf]. *)
Inductive amount_field :=
| AmountEmpty
| AmountInvalid
| AmountNumber (amount : float).

Section Controller.
(** [repr] of a float and the format [{amount:.2f}], taken as given. *)
Variable repr : float -> string.
Variable format_2f : float -> string.
Context {F : Type -> Type} {storage : Storage F}.

(** [session_user] is [session['user_id']], [None] when nobody is logged in;
    [reward_id] is the stripped form field, [''] when it is absent. *)
Definition make_pledge (w : World F float) (now : datetime)
  (session_user : option string) (project_id : string)
  (amount_str : amount_field) (reward_id : string)
  : World F float * option Flash :=
  match session_user with
  | None => (w, None)
  | Some user_id =>
      match amount_str with
      | AmountEmpty => (w, Some (mkFlash "Please enter a pledge amount" "error"))
      | AmountInvalid => (w, Some (mkFlash "Please enter a valid amount" "error"))
      | AmountNumber amount =>
          if PrimFloat.leb amount 0
          then (w, Some (mkFlash "Pledge amount must be greater than zero" "error"))
          else
            let '(w', result) :=
              create_pledge (number := float_number repr) w now user_id project_id
                amount (if (reward_id =? "")%string then None else Some reward_id) in
            if success result
            then (w', Some (mkFlash
                              ("Thank you! Your pledge of $" ++ format_2f amount
                               ++ " was successful!") "success"))
            else (w', Some (mkFlash ("Pledge failed: " ++ message result) "error"))
      end
  end.

End Controller.

End Json.

(** ** The typed records as stored objects *)

(** The object that [json.dump] writes for a record: every key is there. *)
Definition json_project (project : Project) : Json.Project Z :=
  Json.mkProject (Some (p_id project)) (Some (p_name project))
    (Some (goal_amount project)) (Some (current_amount project))
    (Some (deadline project)).

Definition json_tier (reward : RewardTier) : Json.RewardTier Z :=
  Json.mkRewardTier (Some (r_id reward)) (Some (r_project_id reward))
    (Some (r_name reward)) (Some (min_amount reward))
    (Some (remaining_quota reward)).

Definition json_pledge (pledge : Pledge) : Json.Pledge Z :=
  Json.mkPledge (pl_id pledge) (pl_user_id pledge) (pl_project_id pledge)
    (pl_amount pledge) (pl_reward_id pledge) (pledge_date pledge).

Definition json_rejection (rejection : RejectedPledge) : Json.RejectedPledge Z :=
  Json.mkRejectedPledge (rj_user_id rejection) (rj_project_id rejection)
    (rj_amount rejection) (rj_reward_id rejection) (rejection_date rejection)
    (rejection_reason rejection).

Definition json_file {T U : Type} (f : T -> U) (file : flaky T) : flaky U :=
  mkFlaky (map f (contents file)) (writable file).

Definition json_world (w : World flaky) : Json.World flaky Z :=
  Json.mkWorld (json_file json_project (projects_file w))
    (json_file json_tier (rewards_file w))
    (json_file json_pledge (pledges_file w))
    (json_file json_rejection (rejected_pledges_file w)).

Definition json_view (view : ProjectView) : Json.ProjectView Z :=
  Json.mkProjectView (json_project (pv_project view)) (days_remaining view).

(** No division of [_calculate_progress_percentage] overflows. *)
Definition no_overflow (projects : list Project) : Prop :=
  Forall (fun project =>
            goal_amount project <= 0 \/
            Json.int_true_div_overflows (current_amount project)
              (goal_amount project) = false)
         projects.

Module JsonSample.

(** The tier of another project whose object has lost its ['id']. *)
Definition nameless : Json.RewardTier Z :=
  Json.mkRewardTier None (Some "20002002"%string) (Some "Supporter"%string)
    (Some 100) (Some 5).

(** The files of [Sample.catalog] with that object at the head of
    [reward_tiers.json]. *)
Definition damaged : Json.World disk Z :=
  Json.mkWorld (map json_project [Sample.smart_home; Sample.expired])
    (nameless :: map json_tier [Sample.early_bird; Sample.standard]) [] [].

Definition catalog : Json.World disk Z :=
  Json.mkWorld (map json_project [Sample.smart_home; Sample.expired])
    (map json_tier [Sample.early_bird; Sample.standard]) [] [].

(** The files of [Sample.catalog] with float amounts. *)
Definition float_catalog : Json.World disk float :=
  Json.mkWorld
    [Json.mkProject (Some "10001001"%string) (Some "Smart Home IoT System"%string)
       (Some 50000%float) (Some 35750%float) (Some (Some 20045))]
    [Json.mkRewardTier (Some "reward_1"%string) (Some "10001001"%string)
       (Some "Early Bird Special"%string) (Some 2500%float) (Some 0);
     Json.mkRewardTier (Some "reward_2"%string) (Some "10001001"%string)
       (Some "Standard Package"%string) (Some 1000%float) (Some 3)]
    [] [].

End JsonSample.

(** * Properties *)

(** ** Frame lemmas: which files an operation leaves alone *)

Section Frames.
Context {F : Type -> Type} {storage : Storage F}.

Lemma update_project_amount_frame (w : World F) project_id amount :
  let w' := fst (update_project_amount w project_id amount) in
  rewards_file w' = rewards_file w /\ pledges_file w' = pledges_file w /\
  rejected_pledges_file w' = rejected_pledges_file w /\
  users_file w' = users_file w.
Proof.
  unfold update_project_amount.
  destruct (add_amount project_id amount (_load_data (projects_file w)));
    cbn; auto.
Qed.

Lemma update_reward_quota_frame (w : World F) reward_id decrease_by :
  let w' := fst (update_reward_quota w reward_id decrease_by) in
  projects_file w' = projects_file w /\ pledges_file w' = pledges_file w /\
  rejected_pledges_file w' = rejected_pledges_file w /\
  users_file w' = users_file w.
Proof.
  unfold update_reward_quota.
  destruct (take_quota reward_id decrease_by (_load_data (rewards_file w)));
    cbn; auto.
Qed.

Lemma record_pledge_ledger (w : World F) now user_id project_id amount reward_id :
  let w' := fst (record_pledge w now user_id project_id amount reward_id) in
  pledges_file w' =
    _save_data
      (_load_data (pledges_file w) ++
       [mkPledge
          ("pledge_" ++ format_06d (List.length (_load_data (pledges_file w)) + 1))
          user_id project_id amount (truthy reward_id) (strftime_seconds now)])
      (pledges_file w) /\
  rejected_pledges_file w' = rejected_pledges_file w /\
  users_file w' = users_file w.
Proof.
  unfold record_pledge. cbn [fst].
  set (w1 := set_pledges w _).
  destruct (update_project_amount_frame w1 project_id amount) as (_ & Hp & Hr & Hu).
  destruct (truthy reward_id) as [rid|].
  - destruct (update_reward_quota_frame
                (fst (update_project_amount w1 project_id amount)) rid 1)
      as (_ & Hp' & Hr' & Hu').
    rewrite Hp', Hr', Hu', Hp, Hr, Hu. subst w1. cbn. auto.
  - rewrite Hp, Hr, Hu. subst w1. cbn. auto.
Qed.

Lemma record_pledge_catalog (w : World F) now user_id project_id amount reward_id :
  let w' := fst (record_pledge w now user_id project_id amount reward_id) in
  projects_file w' =
    match add_amount project_id amount (_load_data (projects_file w)) with
    | Some projects' => _save_data projects' (projects_file w)
    | None => projects_file w
    end /\
  rewards_file w' =
    match truthy reward_id with
    | Some rid =>
        match take_quota rid 1 (_load_data (rewards_file w)) with
        | Some rewards' => _save_data rewards' (rewards_file w)
        | None => rewards_file w
        end
    | None => rewards_file w
    end.
Proof.
  unfold record_pledge, update_project_amount, update_reward_quota. cbn.
  destruct (add_amount project_id amount (_load_data (projects_file w)));
    destruct (truthy reward_id) as [rid|]; cbn;
    try destruct (take_quota rid 1 (_load_data (rewards_file w))); cbn; auto.
Qed.

Lemma _reject_pledge_frame (w : World F) now user_id project_id amount reward_id reason :
  let w' := fst (_reject_pledge w now user_id project_id amount reward_id reason) in
  projects_file w' = projects_file w /\ rewards_file w' = rewards_file w /\
  pledges_file w' = pledges_file w /\ users_file w' = users_file w /\
  rejected_pledges_file w' =
    _save_data
      (_load_data (rejected_pledges_file w) ++
       [mkRejectedPledge user_id project_id amount (truthy reward_id)
          (strftime_seconds now) reason])
      (rejected_pledges_file w).
Proof. cbn. auto. Qed.

End Frames.

(** ** The two exits of [create_pledge] *)

Section Exits.
Context {F : Type -> Type} {storage : Storage F}.

Lemma create_pledge_exits (w : World F) now user_id project_id amount reward_id :
  (accepted w now project_id amount reward_id /\
   create_pledge w now user_id project_id amount reward_id =
     record_pledge w now user_id project_id amount reward_id)
  \/
  (~ accepted w now project_id amount reward_id /\
   exists reason,
     create_pledge w now user_id project_id amount reward_id =
       _reject_pledge w now user_id project_id amount reward_id reason).
Proof.
  unfold create_pledge, accepted.
  destruct (get_project_by_id w now project_id) as [project|] eqn:Hp.
  - destruct (days_remaining project <=? 0) eqn:Hd.
    + right. split; [|eauto]. intros (p & Heq & Hpos & _).
      injection Heq as <-. apply Z.leb_le in Hd. lia.
    + apply Z.leb_gt in Hd.
      destruct (reward_rejection w project_id amount reward_id) as [reason|] eqn:Hr.
      * right. split; [|eauto]. intros (p & _ & _ & Hnone). discriminate.
      * left. split; [|reflexivity]. exists project. auto.
  - right. split; [|eauto]. intros (p & Heq & _). discriminate.
Qed.

Lemma create_pledge_success (w : World F) now user_id project_id amount reward_id :
  success (snd (create_pledge w now user_id project_id amount reward_id)) = true ->
  accepted w now project_id amount reward_id /\
  create_pledge w now user_id project_id amount reward_id =
    record_pledge w now user_id project_id amount reward_id.
Proof.
  intros Hs.
  destruct (create_pledge_exits w now user_id project_id amount reward_id)
    as [H | (_ & reason & Heq)]; [exact H|].
  rewrite Heq in Hs. discriminate Hs.
Qed.

Lemma create_pledge_failure (w : World F) now user_id project_id amount reward_id :
  success (snd (create_pledge w now user_id project_id amount reward_id)) = false ->
  ~ accepted w now project_id amount reward_id /\
  create_pledge w now user_id project_id amount reward_id =
    _reject_pledge w now user_id project_id amount reward_id
      (message (snd (create_pledge w now user_id project_id amount reward_id))).
Proof.
  intros Hs.
  destruct (create_pledge_exits w now user_id project_id amount reward_id)
    as [(_ & Heq) | (Hn & reason & Heq)].
  - rewrite Heq in Hs. discriminate Hs.
  - split; [exact Hn|]. rewrite Heq. reflexivity.
Qed.

End Exits.

(** ** One record per call of the typed ledger *)

(** On typed records, when the two ledger files can be written, every call
    to [create_pledge] appends exactly one record: a [Pledge] to the success
    store, and nothing to the rejection store, exactly when all validations
    pass; otherwise a [RejectedPledge] carrying the returned reason to the
    rejection store, and nothing to the success store.  The number of
    successful plus rejected records grows by exactly one. *)
Theorem create_pledge_one_record :
  forall (w : World flaky) now user_id project_id amount reward_id,
    writable (pledges_file w) = true ->
    writable (rejected_pledges_file w) = true ->
    let w' := fst (create_pledge w now user_id project_id amount reward_id) in
    let out := snd (create_pledge w now user_id project_id amount reward_id) in
    record_count w' = S (record_count w) /\
    (success out = true <-> accepted w now project_id amount reward_id) /\
    (success out = true ->
       (exists pledge,
          pl_user_id pledge = user_id /\ pl_project_id pledge = project_id /\
          pl_amount pledge = amount /\
          contents (pledges_file w') = contents (pledges_file w) ++ [pledge]) /\
       contents (rejected_pledges_file w') = contents (rejected_pledges_file w)) /\
    (success out = false ->
       (exists rejected,
          rj_user_id rejected = user_id /\ rj_project_id rejected = project_id /\
          rj_amount rejected = amount /\
          rejection_reason rejected = message out /\
          contents (rejected_pledges_file w') =
            contents (rejected_pledges_file w) ++ [rejected]) /\
       contents (pledges_file w') = contents (pledges_file w)).
Proof.
  intros w now user_id project_id amount reward_id Hwp Hwr w' out.
  assert (Hacc : accepted w now project_id amount reward_id ->
                 success out = true /\
                 (exists pledge,
                    pl_user_id pledge = user_id /\ pl_project_id pledge = project_id /\
                    pl_amount pledge = amount /\
                    contents (pledges_file w') = contents (pledges_file w) ++ [pledge]) /\
                 contents (rejected_pledges_file w') = contents (rejected_pledges_file w)).
  { intros Ha.
    destruct (create_pledge_exits w now user_id project_id amount reward_id)
      as [(_ & Heq) | (Hn & _)]; [|contradiction].
    subst w' out. rewrite Heq.
    destruct (record_pledge_ledger w now user_id project_id amount reward_id)
      as (Hp & Hr & _).
    cbv zeta in Hp, Hr. rewrite Hp, Hr. cbn. rewrite Hwp. cbn.
    split; [reflexivity|]. split; [|reflexivity].
    eexists. repeat split; reflexivity. }
  assert (Hrej : ~ accepted w now project_id amount reward_id ->
                 success out = false /\
                 (exists rejected,
                    rj_user_id rejected = user_id /\ rj_project_id rejected = project_id /\
                    rj_amount rejected = amount /\
                    rejection_reason rejected = message out /\
                    contents (rejected_pledges_file w') =
                      contents (rejected_pledges_file w) ++ [rejected]) /\
                 contents (pledges_file w') = contents (pledges_file w)).
  { intros Hn.
    destruct (create_pledge_exits w now user_id project_id amount reward_id)
      as [(Ha & _) | (_ & reason & Heq)]; [contradiction|].
    subst w' out. rewrite Heq. cbn. rewrite Hwr. cbn.
    split; [reflexivity|]. split; [|reflexivity].
    eexists. repeat split; reflexivity. }
  destruct (create_pledge_exits w now user_id project_id amount reward_id)
    as [(Ha & _) | (Hn & _)].
  - destruct (Hacc Ha) as (Hs & (pledge & Hu & Hpj & Ham & Hp) & Hr).
    split; [|split; [|split]].
    + unfold record_count. cbn. rewrite Hp, Hr, length_app. cbn. lia.
    + tauto.
    + eauto 10.
    + rewrite Hs. discriminate.
  - destruct (Hrej Hn) as (Hs & (rejected & Hu & Hpj & Ham & Hm & Hr) & Hp).
    split; [|split; [|split]].
    + unfold record_count. cbn. rewrite Hp, Hr, length_app. cbn. lia.
    + rewrite Hs. split; [discriminate | contradiction].
    + rewrite Hs. discriminate.
    + eauto 10.
Qed.

Lemma create_pledge_one_record_witness :
  writable (pledges_file Sample.writable_ledger) = true /\
  writable (rejected_pledges_file Sample.writable_ledger) = true /\
  record_count
    (fst (create_pledge Sample.writable_ledger Sample.now0
            "user_0001" "10001001" 500 None)) =
  S (record_count Sample.writable_ledger).
Proof.
  split; [reflexivity|]. split; [reflexivity|].
  exact (proj1 (create_pledge_one_record Sample.writable_ledger Sample.now0
                  "user_0001" "10001001" 500 None eq_refl eq_refl)).
Defined.

(** ** Lists: stable sorting, lookup *)

Section SortFacts.
Context {A : Type} (before : A -> A -> bool).

Lemma insert_sorted_In (x y : A) (l : list A) :
  In y (insert_sorted before x l) <-> y = x \/ In y l.
Proof.
  induction l as [|z l IH]; cbn.
  - intuition.
  - destruct (before z x); cbn; [rewrite IH|]; intuition.
Qed.

Lemma stable_sort_In (y : A) (l : list A) :
  In y (stable_sort before l) <-> In y l.
Proof.
  induction l as [|x l IH]; cbn; [reflexivity|].
  rewrite insert_sorted_In, IH. intuition.
Qed.

End SortFacts.

Lemma insert_sorted_map {A B : Type} (f : A -> B) beforeA beforeB x l :
  (forall a b, beforeB (f a) (f b) = beforeA a b) ->
  insert_sorted beforeB (f x) (map f l) = map f (insert_sorted beforeA x l).
Proof.
  intros Hf. induction l as [|y l IH]; cbn; [reflexivity|].
  rewrite Hf. destruct (beforeA y x); cbn; [rewrite IH|]; reflexivity.
Qed.

Lemma stable_sort_map {A B : Type} (f : A -> B) beforeA beforeB l :
  (forall a b, beforeB (f a) (f b) = beforeA a b) ->
  stable_sort beforeB (map f l) = map f (stable_sort beforeA l).
Proof.
  intros Hf. induction l as [|x l IH]; cbn; [reflexivity|].
  change (fold_right (insert_sorted beforeB) [] (map f l))
    with (stable_sort beforeB (map f l)).
  rewrite IH. apply insert_sorted_map, Hf.
Qed.

Lemma filter_map_commute {A B : Type} (f : A -> B) (p : B -> bool) l :
  filter p (map f l) = map f (filter (fun a => p (f a)) l).
Proof.
  induction l as [|x l IH]; cbn; [reflexivity|].
  destruct (p (f x)); cbn; rewrite IH; reflexivity.
Qed.

Lemma find_map_commute {A B : Type} (f : A -> B) (p : B -> bool) l :
  find p (map f l) = option_map f (find (fun a => p (f a)) l).
Proof.
  induction l as [|x l IH]; cbn; [reflexivity|].
  destruct (p (f x)); cbn; [reflexivity | exact IH].
Qed.

Lemma find_pointwise {A : Type} (p q : A -> bool) l :
  (forall a, p a = q a) -> find p l = find q l.
Proof.
  intros Hpq. induction l as [|x l IH]; cbn; [reflexivity|].
  rewrite Hpq, IH. reflexivity.
Qed.

Lemma insert_sorted_perm {A : Type} (before : A -> A -> bool) x l :
  Permutation (insert_sorted before x l) (x :: l).
Proof.
  induction l as [|y l IH]; cbn; [reflexivity|].
  destruct (before y x); [|reflexivity].
  rewrite IH. apply perm_swap.
Qed.

Lemma stable_sort_perm {A : Type} (before : A -> A -> bool) l :
  Permutation (stable_sort before l) l.
Proof.
  induction l as [|x l IH]; cbn; [constructor|].
  rewrite insert_sorted_perm. constructor. exact IH.
Qed.

(** ** The catalog hooks *)

Lemma claim_unit_id rid d reward : r_id (claim_unit rid d reward) = r_id reward.
Proof. unfold claim_unit. destruct (r_id reward =? rid)%string; reflexivity. Qed.

Lemma claim_unit_project rid d reward :
  r_project_id (claim_unit rid d reward) = r_project_id reward.
Proof. unfold claim_unit. destruct (r_id reward =? rid)%string; reflexivity. Qed.

Lemma claim_unit_min rid d reward :
  min_amount (claim_unit rid d reward) = min_amount reward.
Proof. unfold claim_unit. destruct (r_id reward =? rid)%string; reflexivity. Qed.

Lemma claim_unit_other rid d rewards :
  ~ In rid (map r_id rewards) -> map (claim_unit rid d) rewards = rewards.
Proof.
  induction rewards as [|r rest IH]; cbn; intros Hn; [reflexivity|].
  rewrite IH by tauto. unfold claim_unit.
  destruct (String.eqb_spec (r_id r) rid) as [He|_]; [tauto | reflexivity].
Qed.

(** With unique tier identifiers the hook changes the selected tier, and only
    that one. *)
Lemma take_quota_unique rid d tier rewards :
  NoDup (map r_id rewards) -> In tier rewards -> r_id tier = rid ->
  0 < remaining_quota tier ->
  take_quota rid d rewards = Some (map (claim_unit rid d) rewards).
Proof.
  induction rewards as [|r rest IH]; cbn; intros Hnd Hin Hid Hq; [contradiction|].
  inversion Hnd as [|? ? Hnotin Hnd']; subst.
  destruct (String.eqb_spec (r_id r) (r_id tier)) as [He|Hne].
  - assert (r = tier) as ->.
    { destruct Hin as [|Hin]; [assumption|].
      exfalso. apply Hnotin. rewrite He. apply in_map, Hin. }
    destruct (0 <? remaining_quota tier) eqn:Hpos;
      [|apply Z.ltb_ge in Hpos; lia].
    cbn. rewrite claim_unit_other by assumption.
    unfold claim_unit. rewrite String.eqb_refl. reflexivity.
  - destruct Hin as [->|Hin]; [congruence|].
    cbn. rewrite IH by auto. cbn. unfold claim_unit at 2.
    destruct (String.eqb_spec (r_id r) (r_id tier)); [contradiction|reflexivity].
Qed.

Lemma add_amount_found now project_id amount projects project :
  find (fun view => (p_id (pv_project view) =? project_id)%string)
       (map (fun p => mkProjectView p (_calculate_days_remaining now (deadline p)))
            projects) = Some project ->
  exists projects',
    add_amount project_id amount projects = Some projects' /\
    find (fun view => (p_id (pv_project view) =? project_id)%string)
         (map (fun p => mkProjectView p (_calculate_days_remaining now (deadline p)))
              projects') =
      Some (mkProjectView
              (with_amount (pv_project project)
                 (current_amount (pv_project project) + amount))
              (days_remaining project)).
Proof.
  induction projects as [|p rest IH]; cbn; [discriminate|].
  destruct (p_id p =? project_id)%string eqn:He.
  - intros [= <-]. eexists. split; [reflexivity|]. cbn. rewrite He. reflexivity.
  - intros Hf. destruct (IH Hf) as (rest' & Ha & Hf').
    rewrite Ha. eexists. split; [reflexivity|]. cbn. rewrite He. exact Hf'.
Qed.

Lemma tiers_after_claim rid d project_id (rewards : list RewardTier) :
  stable_sort (fun x y => min_amount x <? min_amount y)
    (filter (fun r => (r_project_id r =? project_id)%string)
            (map (claim_unit rid d) rewards)) =
  map (claim_unit rid d)
    (stable_sort (fun x y => min_amount x <? min_amount y)
       (filter (fun r => (r_project_id r =? project_id)%string) rewards)).
Proof.
  rewrite filter_map_commute.
  rewrite (filter_ext _ (fun r => (r_project_id r =? project_id)%string))
    by (intros r; rewrite claim_unit_project; reflexivity).
  apply stable_sort_map. intros a b. rewrite !claim_unit_min. reflexivity.
Qed.

Lemma select_reward_In (w : World disk) project_id rid tier :
  select_reward w project_id rid = Some tier ->
  In tier (rewards_file w) /\ r_id tier = rid /\ r_project_id tier = project_id.
Proof.
  unfold select_reward, get_reward_tiers. cbn. intros Hf.
  apply find_some in Hf. destruct Hf as (Hin & Hid).
  apply stable_sort_In, filter_In in Hin. destruct Hin as (Hin & Hpj).
  apply String.eqb_eq in Hid, Hpj. auto.
Qed.

(** What [reward_rejection] having no objection means. *)
Lemma reward_rejection_None {F} {storage : Storage F} (w : World F)
  project_id amount reward_id :
  reward_rejection w project_id amount reward_id = None ->
  truthy reward_id = None \/
  exists rid tier,
    truthy reward_id = Some rid /\ select_reward w project_id rid = Some tier /\
    min_amount tier <= amount /\ 0 < remaining_quota tier.
Proof.
  unfold reward_rejection.
  destruct (truthy reward_id) as [rid|]; [|left; reflexivity].
  destruct (select_reward w project_id rid) as [tier|] eqn:Hsel; [|discriminate].
  destruct (amount <? min_amount tier) eqn:Hmin; [discriminate|].
  destruct (remaining_quota tier <=? 0) eqn:Hq; [discriminate|].
  apply Z.ltb_ge in Hmin. apply Z.leb_gt in Hq. intros _. right.
  exists rid, tier. auto.
Qed.

(** The settlement adds the pledged amount to the owning project. *)
Lemma record_pledge_project (w : World disk) now user_id project_id amount
  reward_id project :
  get_project_by_id w now project_id = Some project ->
  get_project_by_id
    (fst (record_pledge w now user_id project_id amount reward_id))
    now project_id =
  Some (mkProjectView
          (with_amount (pv_project project)
             (current_amount (pv_project project) + amount))
          (days_remaining project)).
Proof.
  intros Hp.
  unfold get_project_by_id, get_all_projects in Hp.
  cbn [_load_data disk_storage] in Hp.
  destruct (add_amount_found now project_id amount _ _ Hp)
    as (projects' & Ha & Hf').
  destruct (record_pledge_catalog w now user_id project_id amount reward_id)
    as (Hpf & _).
  cbv zeta in Hpf. cbn [_load_data _save_data disk_storage] in Hpf.
  rewrite Ha in Hpf.
  unfold get_project_by_id, get_all_projects.
  cbn [_load_data _save_data disk_storage]. rewrite Hpf. exact Hf'.
Qed.

(** ** C3: the two side effects of a successful pledge *)

(** On typed records and storage that always writes, after a successful call
    the owning project's [current_amount] is its previous value plus the
    pledged amount, the project being otherwise as it was.  Without a reward
    the reward file is untouched; with a reward (tier identifiers being
    unique, as the data model has them) the selected tier's [remaining_quota]
    is its previous value minus 1. *)
Theorem successful_pledge_effects :
  forall (w : World disk) now user_id project_id amount reward_id,
    let result := create_pledge w now user_id project_id amount reward_id in
    let w' := fst result in
    success (snd result) = true ->
    (exists project,
       get_project_by_id w now project_id = Some project /\
       get_project_by_id w' now project_id =
         Some (mkProjectView
                 (with_amount (pv_project project)
                    (current_amount (pv_project project) + amount))
                 (days_remaining project))) /\
    (truthy reward_id = None -> rewards_file w' = rewards_file w) /\
    (forall rid,
       truthy reward_id = Some rid ->
       NoDup (map r_id (rewards_file w)) ->
       exists tier,
         select_reward w project_id rid = Some tier /\
         select_reward w' project_id rid =
           Some (with_quota tier (remaining_quota tier - 1)) /\
         rewards_file w' = map (claim_unit rid 1) (rewards_file w)).
Proof.
  intros w now user_id project_id amount reward_id result w' Hs.
  destruct (create_pledge_success w now user_id project_id amount reward_id Hs)
    as ((project & Hp & Hd & Hrr) & Heq).
  subst w' result. rewrite Heq. clear Heq Hs.
  destruct (record_pledge_catalog w now user_id project_id amount reward_id)
    as (_ & Hrf).
  cbv zeta in Hrf. cbn [_load_data _save_data disk_storage] in Hrf.
  apply reward_rejection_None in Hrr.
  split; [|split].
  - exists project. split; [exact Hp|].
    apply record_pledge_project, Hp.
  - intros Hnone. rewrite Hnone in Hrf. exact Hrf.
  - intros rid Hsome Hnd.
    destruct Hrr as [Hnone | (rid' & tier & Hsome' & Hsel & Hmin & Hq)];
      [congruence|].
    assert (rid' = rid) as -> by congruence.
    destruct (select_reward_In w project_id rid tier Hsel) as (Hin & Hid & Hpj).
    rewrite Hsome in Hrf.
    rewrite (take_quota_unique rid 1 tier (rewards_file w) Hnd Hin Hid Hq) in Hrf.
    exists tier. split; [exact Hsel|]. split; [|exact Hrf].
    unfold select_reward, get_reward_tiers.
    cbn [_load_data _save_data disk_storage]. rewrite Hrf.
    rewrite tiers_after_claim, find_map_commute.
    rewrite (find_pointwise _ (fun reward => (r_id reward =? rid)%string))
      by (intros r; rewrite claim_unit_id; reflexivity).
    unfold select_reward, get_reward_tiers in Hsel.
    cbn [_load_data disk_storage] in Hsel.
    rewrite Hsel. cbn. unfold claim_unit. rewrite Hid, String.eqb_refl.
    reflexivity.
Qed.

Lemma successful_pledge_effects_witness :
  success (snd (create_pledge Sample.catalog Sample.now0 "user_0001" "10001001"
                  1500 (Some "reward_2"%string))) = true /\
  (exists project,
     get_project_by_id Sample.catalog Sample.now0 "10001001" = Some project /\
     get_project_by_id
       (fst (create_pledge Sample.catalog Sample.now0 "user_0001" "10001001"
               1500 (Some "reward_2"%string)))
       Sample.now0 "10001001" =
       Some (mkProjectView
               (with_amount (pv_project project)
                  (current_amount (pv_project project) + 1500))
               (days_remaining project))) /\
  (exists tier,
     select_reward Sample.catalog "10001001" "reward_2" = Some tier /\
     select_reward
       (fst (create_pledge Sample.catalog Sample.now0 "user_0001" "10001001"
               1500 (Some "reward_2"%string)))
       "10001001" "reward_2" =
       Some (with_quota tier (remaining_quota tier - 1)) /\
     rewards_file
       (fst (create_pledge Sample.catalog Sample.now0 "user_0001" "10001001"
               1500 (Some "reward_2"%string))) =
       map (claim_unit "reward_2" 1) (rewards_file Sample.catalog)).
Proof.
  pose proof (successful_pledge_effects Sample.catalog Sample.now0
                "user_0001" "10001001" 1500 (Some "reward_2"%string) eq_refl)
    as (Hproject & _ & Htier).
  split; [reflexivity|]. split; [exact Hproject|].
  apply (Htier "reward_2"%string eq_refl).
  repeat constructor; cbn; intuition discriminate.
Defined.

(** C3.  A successful call can leave both side effects undone.  With
    [projects.json] and [reward_tiers.json] not writable, the pledge of 1500
    for tier [reward_2] passes every check and is stored; the two hooks write
    through [_save_data], which swallows the error; the call returns success,
    and afterwards the project's [current_amount] is still 35750 and the
    tier's [remaining_quota] is still 3. *)
Theorem settlement_lost_when_catalog_unwritable :
  let result :=
    create_pledge Sample.read_only_catalog Sample.now0 "user_0001" "10001001"
      1500 (Some "reward_2"%string) in
  snd result =
    mkOutcome true "Pledge created successfully" (Some "pledge_000001"%string) /\
  contents (pledges_file (fst result)) =
    [mkPledge "pledge_000001" "user_0001" "10001001" 1500
       (Some "reward_2"%string) (strftime_seconds Sample.now0)] /\
  option_map (fun view => current_amount (pv_project view))
    (get_project_by_id Sample.read_only_catalog Sample.now0 "10001001")
    = Some 35750 /\
  option_map (fun view => current_amount (pv_project view))
    (get_project_by_id (fst result) Sample.now0 "10001001") = Some 35750 /\
  option_map remaining_quota
    (select_reward Sample.read_only_catalog "10001001" "reward_2") = Some 3 /\
  option_map remaining_quota
    (select_reward (fst result) "10001001" "reward_2") = Some 3.
Proof. vm_compute. repeat split. Qed.

(** ** Rejections of the typed ledger *)

(** On typed records, where no statement raises: when [create_pledge] fails,
    the project file, the reward file, the success store and the user file
    are what they were, so every project keeps its [current_amount] and every
    tier its [remaining_quota]; the only write is the append of one record,
    carrying the returned reason, to the rejection store. *)
Theorem failed_pledge_leaves_catalog :
  forall (F : Type -> Type) (storage : Storage F) (w : World F)
         now user_id project_id amount reward_id,
    let result := create_pledge w now user_id project_id amount reward_id in
    let w' := fst result in
    success (snd result) = false ->
    projects_file w' = projects_file w /\
    rewards_file w' = rewards_file w /\
    pledges_file w' = pledges_file w /\
    users_file w' = users_file w /\
    rejected_pledges_file w' =
      _save_data
        (_load_data (rejected_pledges_file w) ++
         [mkRejectedPledge user_id project_id amount (truthy reward_id)
            (strftime_seconds now) (message (snd result))])
        (rejected_pledges_file w) /\
    (forall t project_id', get_project_by_id w' t project_id' =
                           get_project_by_id w t project_id') /\
    (forall project_id', get_reward_tiers w' project_id' =
                         get_reward_tiers w project_id').
Proof.
  intros F storage w now user_id project_id amount reward_id result w' Hs.
  destruct (create_pledge_failure w now user_id project_id amount reward_id Hs)
    as (_ & Heq).
  fold result in Heq.
  assert (Hw : w' = fst (_reject_pledge w now user_id project_id amount reward_id
                           (message (snd result))))
    by (subst w'; rewrite Heq at 1; reflexivity).
  destruct (_reject_pledge_frame w now user_id project_id amount reward_id
              (message (snd result))) as (Hp & Hr & Hl & Hu & Hj).
  cbv zeta in Hp, Hr, Hl, Hu, Hj. rewrite <- Hw in Hp, Hr, Hl, Hu, Hj.
  repeat split; try assumption.
  - intros t pid. unfold get_project_by_id, get_all_projects. rewrite Hp.
    reflexivity.
  - intros pid. unfold get_reward_tiers. rewrite Hr. reflexivity.
Qed.

Lemma failed_pledge_leaves_catalog_witness :
  success (snd (create_pledge Sample.catalog Sample.now0 "user_0001" "10001001"
                  3000 (Some "reward_1"%string))) = false /\
  message (snd (create_pledge Sample.catalog Sample.now0 "user_0001" "10001001"
                  3000 (Some "reward_1"%string))) = sold_out /\
  projects_file
    (fst (create_pledge Sample.catalog Sample.now0 "user_0001" "10001001"
            3000 (Some "reward_1"%string))) =
  projects_file Sample.catalog.
Proof.
  split; [reflexivity|]. split; [reflexivity|].
  exact (proj1 (failed_pledge_leaves_catalog disk disk_storage Sample.catalog
                  Sample.now0 "user_0001" "10001001" 3000
                  (Some "reward_1"%string) eq_refl)).
Defined.

(** ** C5: quotas never go negative *)

Lemma take_quota_nonneg rid d rewards rewards' :
  d <= 1 ->
  Forall (fun reward => 0 <= remaining_quota reward) rewards ->
  take_quota rid d rewards = Some rewards' ->
  Forall (fun reward => 0 <= remaining_quota reward) rewards'.
Proof.
  intros Hd. revert rewards'.
  induction rewards as [|r rest IH]; cbn; intros rewards' Hall Ht;
    [discriminate|].
  inversion Hall as [|? ? Hr Hrest]; subst.
  destruct ((r_id r =? rid)%string && (0 <? remaining_quota r))%bool eqn:Hc.
  - injection Ht as <-. apply andb_prop in Hc. destruct Hc as (_ & Hpos).
    apply Z.ltb_lt in Hpos. constructor; [cbn; lia | assumption].
  - destruct (take_quota rid d rest) as [rest'|]; [|discriminate].
    injection Ht as <-. constructor; [assumption | apply IH; auto].
Qed.

Lemma update_reward_quota_nonneg (w : World disk) rid d :
  d <= 1 -> quotas_nonneg w ->
  quotas_nonneg (fst (update_reward_quota w rid d)).
Proof.
  unfold quotas_nonneg, update_reward_quota. cbn. intros Hd Hall.
  destruct (take_quota rid d (rewards_file w)) as [rewards'|] eqn:Ht; cbn;
    [|assumption].
  eapply take_quota_nonneg; eauto.
Qed.

Lemma create_pledge_nonneg (w : World disk) now user_id project_id amount reward_id :
  quotas_nonneg w ->
  quotas_nonneg (fst (create_pledge w now user_id project_id amount reward_id)).
Proof.
  intros Hall. unfold quotas_nonneg.
  destruct (create_pledge_exits w now user_id project_id amount reward_id)
    as [(_ & Heq) | (_ & reason & Heq)]; rewrite Heq.
  - destruct (record_pledge_catalog w now user_id project_id amount reward_id)
      as (_ & Hr).
    cbv zeta in Hr. rewrite Hr. cbn [_load_data _save_data disk_storage].
    destruct (truthy reward_id) as [rid|]; [|exact Hall].
    destruct (take_quota rid 1 (rewards_file w)) as [rewards'|] eqn:Ht;
      [|exact Hall].
    eapply take_quota_nonneg; eauto. lia.
  - exact Hall.
Qed.

Lemma run_operation_nonneg (w : World disk) op :
  small_decrement op -> quotas_nonneg w -> quotas_nonneg (run_operation w op).
Proof.
  destruct op as [now user_id project_id amount reward_id
                 | project_id amount | rid d]; cbn [run_operation small_decrement].
  - intros _. apply create_pledge_nonneg.
  - intros _ Hall. unfold quotas_nonneg.
    destruct (update_project_amount_frame w project_id amount) as (Hr & _).
    cbv zeta in Hr. rewrite Hr. exact Hall.
  - apply update_reward_quota_nonneg.
Qed.

(** What the code does guarantee about quotas.  Starting from non-negative
    quotas, every state reached by a sequence of pledges, amount updates and
    calls of the quota hook whose decrement is at most 1 (the hook's default,
    and the only value the ledger passes, is 1) has non-negative quotas; and
    in such a state a pledge that selects a tier whose quota is 0 fails and
    leaves the reward file alone. *)
Theorem quotas_stay_nonneg :
  forall (w : World disk) (ops : list operation),
    quotas_nonneg w ->
    Forall small_decrement ops ->
    quotas_nonneg (run ops w) /\
    (forall now user_id project_id amount reward_id rid tier,
       truthy reward_id = Some rid ->
       select_reward (run ops w) project_id rid = Some tier ->
       remaining_quota tier = 0 ->
       success (snd (create_pledge (run ops w) now user_id project_id amount
                       reward_id)) = false /\
       rewards_file (fst (create_pledge (run ops w) now user_id project_id amount
                            reward_id)) = rewards_file (run ops w)).
Proof.
  intros w ops Hall Hops.
  assert (Hinv : quotas_nonneg (run ops w)).
  { revert w Hall. unfold run.
    induction Hops as [|op ops Hop _ IH]; intros w Hall; cbn; [exact Hall|].
    apply IH, run_operation_nonneg; assumption. }
  split; [exact Hinv|].
  intros now user_id project_id amount reward_id rid tier Hrid Hsel Hzero.
  set (w1 := run ops w) in *.
  assert (Hfail : success (snd (create_pledge w1 now user_id project_id amount
                                  reward_id)) = false).
  { destruct (success (snd (create_pledge w1 now user_id project_id amount
                              reward_id))) eqn:Hs; [|reflexivity].
    apply create_pledge_success in Hs. destruct Hs as ((p & _ & _ & Hrr) & _).
    apply reward_rejection_None in Hrr.
    destruct Hrr as [Hnone | (rid' & tier' & Hrid' & Hsel' & _ & Hq)];
      [congruence|].
    assert (rid' = rid) as -> by congruence.
    assert (tier' = tier) as -> by congruence. lia. }
  split; [exact Hfail|].
  destruct (create_pledge_exits w1 now user_id project_id amount reward_id)
    as [(_ & Heq) | (_ & reason & Heq)]; rewrite Heq in Hfail |- *.
  - discriminate Hfail.
  - reflexivity.
Qed.

Lemma quotas_stay_nonneg_witness :
  quotas_nonneg Sample.catalog /\
  quotas_nonneg
    (run [CreatePledge Sample.now0 "user_0001" "10001001" 1500
            (Some "reward_2"%string);
          UpdateRewardQuota "reward_2" 1]
         Sample.catalog).
Proof.
  assert (H0 : quotas_nonneg Sample.catalog).
  { unfold quotas_nonneg. cbn. repeat constructor; cbn; discriminate. }
  split; [exact H0|].
  refine (proj1 (quotas_stay_nonneg Sample.catalog _ H0 _)).
  repeat constructor. cbn. discriminate.
Defined.

(** C5.  A direct call of the quota hook can drive a quota below 0: the guard
    of [update_reward_quota] only asks for a positive quota, whatever
    [decrease_by] is, so in a catalog whose quotas are all non-negative,
    taking 5 from the quota 3 of tier [reward_2] leaves -2. *)
Lemma quota_hook_can_go_negative :
  quotas_nonneg Sample.catalog /\
  rewards_file (fst (update_reward_quota Sample.catalog "reward_2" 5)) =
    [Sample.early_bird; with_quota Sample.standard (-2)] /\
  ~ quotas_nonneg (fst (update_reward_quota Sample.catalog "reward_2" 5)).
Proof.
  split; [|split].
  - unfold quotas_nonneg. cbn. repeat constructor; cbn; discriminate.
  - reflexivity.
  - unfold quotas_nonneg. cbn. intros H.
    inversion H as [|? ? _ H']; subst. inversion H' as [|? ? Hneg _]; subst.
    cbn in Hneg. lia.
Qed.

(** ** C6: the window of recent activity *)

Lemma is_recent_whole_days (now : datetime) (date_str : Z) :
  is_recent now date_str = (now - strptime_seconds date_str <? 8 * US_PER_DAY).
Proof.
  unfold is_recent, timedelta_days, US_PER_DAY, US_PER_SECOND.
  destruct (Z.leb_spec ((now - strptime_seconds date_str) / (86400 * 1000000)) 7);
    destruct (Z.ltb_spec (now - strptime_seconds date_str) (8 * (86400 * 1000000)));
    try reflexivity; exfalso; Z.div_mod_to_equations; lia.
Qed.

(** C6, as amended.  [get_pledge_statistics] counts as recent exactly the
    successful and the rejected records whose age has at most 7 whole days,
    that is, whose age is less than 8 days: a record exactly 7 days old is
    counted, a record 8 days old or older is not. *)
Theorem recent_window_is_whole_days :
  forall (F : Type -> Type) (storage : Storage F) (w : World F) (now : datetime),
    let stats := get_pledge_statistics w now in
    let younger_than_8_days date_str :=
      now - strptime_seconds date_str <? 8 * US_PER_DAY in
    recent_successful_pledges stats =
      List.length (filter (fun pledge => younger_than_8_days (pledge_date pledge))
                          (_load_data (pledges_file w))) /\
    recent_rejected_pledges stats =
      List.length (filter (fun rejection =>
                             younger_than_8_days (rejection_date rejection))
                          (_load_data (rejected_pledges_file w))) /\
    (forall date_str,
       is_recent (strptime_seconds date_str + 7 * US_PER_DAY) date_str = true) /\
    (forall date_str (extra : N),
       is_recent (strptime_seconds date_str + 8 * US_PER_DAY + Z.of_N extra)
                 date_str = false).
Proof.
  intros F storage w now stats younger_than_8_days. subst stats. cbn.
  split; [|split; [|split]].
  - f_equal. apply filter_ext. intros p. apply is_recent_whole_days.
  - f_equal. apply filter_ext. intros r. apply is_recent_whole_days.
  - intros d. rewrite is_recent_whole_days. apply Z.ltb_lt.
    unfold US_PER_DAY, US_PER_SECOND. lia.
  - intros d extra. rewrite is_recent_whole_days. apply Z.ltb_ge.
    unfold US_PER_DAY, US_PER_SECOND. lia.
Qed.

(** C6 as stated fails between 7 and 8 days: the only pledge of
    [Sample.aged] is seven days and one second old at [Sample.now0], older
    than 7 days; its [timedelta.days] is 7, and it is counted as recent. *)
Lemma older_than_7_days_still_recent :
  7 * US_PER_DAY <
    Sample.now0 - strptime_seconds (strftime_seconds Sample.now0 - 7 * 86400 - 1) /\
  _load_data (pledges_file Sample.aged) =
    [mkPledge "pledge_000001" "user_0001" "10001001" 200 None
       (strftime_seconds Sample.now0 - 7 * 86400 - 1)] /\
  timedelta_days
    (Sample.now0 - strptime_seconds (strftime_seconds Sample.now0 - 7 * 86400 - 1))
    = 7 /\
  recent_successful_pledges (get_pledge_statistics Sample.aged Sample.now0) = 1%nat.
Proof. repeat split; reflexivity. Qed.

(** ** Dictionaries and descending order *)

Lemma dict_add_key k v d k' :
  In k' (map fst (dict_add k v d)) <-> k' = k \/ In k' (map fst d).
Proof.
  induction d as [|[k0 v0] d IH]; cbn.
  - intuition.
  - destruct (String.eqb_spec k0 k) as [->|Hne]; cbn; [|rewrite IH]; intuition.
Qed.

Lemma dict_add_NoDup k v d :
  NoDup (map fst d) -> NoDup (map fst (dict_add k v d)).
Proof.
  induction d as [|[k0 v0] d IH]; cbn; intros Hnd.
  - repeat constructor. intros [].
  - inversion Hnd as [|? ? Hnotin Hnd']; subst.
    destruct (String.eqb_spec k0 k) as [->|Hne]; cbn.
    + constructor; assumption.
    + constructor; [|auto]. rewrite dict_add_key. intros [->|Hin]; tauto.
Qed.

Lemma dict_add_other k v d k' v' :
  k' <> k -> In (k', v') (dict_add k v d) <-> In (k', v') d.
Proof.
  intros Hne. induction d as [|[k0 v0] d IH]; cbn.
  - split; [intros [[= -> _]|[]]; contradiction | intros []].
  - destruct (String.eqb_spec k0 k) as [->|Hne0]; cbn.
    + split; (intros [[= <- _]|Hin]; [contradiction | auto]).
    + rewrite IH. reflexivity.
Qed.

Lemma dict_add_same k v d v' :
  NoDup (map fst d) ->
  In (k, v') (dict_add k v d) ->
  (exists v0, In (k, v0) d /\ v' = v0 + v) \/
  (~ In k (map fst d) /\ v' = 0 + v).
Proof.
  induction d as [|[k0 v0] d IH]; cbn; intros Hnd Hin.
  - right. destruct Hin as [[= <-]|[]]. tauto.
  - inversion Hnd as [|? ? Hnotin Hnd']; subst.
    destruct (String.eqb_spec k0 k) as [->|Hne]; cbn in Hin.
    + left. destruct Hin as [[= <-]|Hin].
      * exists v0. auto.
      * exfalso. apply Hnotin. change k with (fst (k, v')). apply in_map, Hin.
    + destruct Hin as [[= -> _]|Hin]; [contradiction|].
      destruct (IH Hnd' Hin) as [(v1 & Hin1 & ->) | (Hnk & ->)].
      * left. exists v1. auto.
      * right. split; [|reflexivity]. intros [Heq|Hin']; auto.
Qed.

Lemma user_totals_snoc pledges pledge :
  user_totals (pledges ++ [pledge]) =
  dict_add (pl_user_id pledge) (pl_amount pledge) (user_totals pledges).
Proof. unfold user_totals. rewrite fold_left_app. reflexivity. Qed.

Lemma pledges_of_snoc user_id pledges pledge :
  pledges_of user_id (pledges ++ [pledge]) =
  pledges_of user_id pledges ++
  (if (pl_user_id pledge =? user_id)%string then [pledge] else []).
Proof. unfold pledges_of. rewrite filter_app. reflexivity. Qed.

Lemma total_of_snoc user_id pledges pledge :
  total_of user_id (pledges ++ [pledge]) =
  if (pl_user_id pledge =? user_id)%string
  then total_of user_id pledges + pl_amount pledge
  else total_of user_id pledges.
Proof.
  unfold total_of. rewrite pledges_of_snoc.
  destruct (pl_user_id pledge =? user_id)%string.
  - rewrite map_app, fold_left_app. reflexivity.
  - rewrite app_nil_r. reflexivity.
Qed.

(** The grouping loop: one entry per user that has a pledge, holding the sum
    of that user's amounts. *)
Lemma user_totals_spec pledges :
  NoDup (map fst (user_totals pledges)) /\
  (forall user_id, In user_id (map fst (user_totals pledges)) <->
                   pledges_of user_id pledges <> []) /\
  (forall user_id total, In (user_id, total) (user_totals pledges) ->
                         total = total_of user_id pledges).
Proof.
  induction pledges as [|pledge pledges (Hnd & Hkeys & Hsum)] using rev_ind.
  - cbn. split; [constructor|]. split; [|intros ? ? []].
    intros k. split; [intros [] | intros H; contradiction].
  - rewrite user_totals_snoc. split; [|split].
    + apply dict_add_NoDup, Hnd.
    + intros k. rewrite dict_add_key, pledges_of_snoc, Hkeys.
      destruct (String.eqb_spec (pl_user_id pledge) k) as [Heq|Hne].
      * split; [|auto]. intros _ H. apply app_eq_nil in H.
        destruct H as (_ & H). discriminate H.
      * rewrite app_nil_r. split; [|auto]. intros [->|H]; [contradiction|auto].
    + intros k total Hin. rewrite total_of_snoc.
      destruct (String.eqb_spec (pl_user_id pledge) k) as [Heq|Hne].
      * subst k.
        destruct (dict_add_same _ _ _ _ Hnd Hin) as [(v0 & Hin0 & ->) | (Hnk & ->)].
        -- rewrite (Hsum _ _ Hin0). reflexivity.
        -- assert (Hnil : pledges_of (pl_user_id pledge) pledges = []).
           { destruct (pledges_of (pl_user_id pledge) pledges) eqn:He;
               [reflexivity|].
             exfalso. apply Hnk, Hkeys. rewrite He. discriminate. }
           unfold total_of. rewrite Hnil. reflexivity.
      * apply dict_add_other in Hin; [|congruence]. apply Hsum, Hin.
Qed.

Lemma insert_sorted_desc x l :
  StronglySorted by_value_desc l ->
  StronglySorted by_value_desc (insert_sorted (fun a b => snd b <? snd a) x l).
Proof.
  induction l as [|y l IH]; cbn; intros Hs.
  - repeat constructor.
  - inversion Hs as [|? ? Hl Hy]; subst.
    destruct (Z.ltb_spec (snd x) (snd y)) as [Hlt|Hge].
    + constructor; [auto|]. apply Forall_forall. intros z Hz.
      apply insert_sorted_In in Hz. destruct Hz as [->|Hz].
      * unfold by_value_desc. lia.
      * rewrite Forall_forall in Hy. auto.
    + constructor; [exact Hs|]. constructor; [exact Hge|].
      rewrite Forall_forall in Hy |- *. intros z Hz.
      specialize (Hy z Hz). unfold by_value_desc in *. lia.
Qed.

Lemma sort_by_value_desc_sorted items :
  StronglySorted by_value_desc (sort_by_value_desc items).
Proof.
  unfold sort_by_value_desc.
  induction items as [|x items IH]; cbn; [constructor|].
  apply insert_sorted_desc, IH.
Qed.

Lemma firstn_incl_In {A : Type} (n : nat) (l : list A) (x : A) :
  In x (firstn n l) -> In x l.
Proof.
  intros H. rewrite <- (firstn_skipn n l). apply in_or_app. left. exact H.
Qed.

Lemma slice_to_In {A : Type} (n : Z) (l : list A) (x : A) :
  In x (slice_to n l) -> In x l.
Proof. unfold slice_to. destruct (0 <=? n); apply firstn_incl_In. Qed.

Lemma firstn_sorted {A : Type} (R : A -> A -> Prop) (n : nat) (l : list A) :
  StronglySorted R l -> StronglySorted R (firstn n l).
Proof.
  revert l. induction n as [|n IH]; intros l Hs; cbn; [constructor|].
  destruct l as [|x l]; [constructor|].
  inversion Hs as [|? ? Hl Hx]; subst. constructor; [auto|].
  rewrite Forall_forall in Hx |- *. intros y Hy. apply Hx.
  apply (firstn_incl_In n), Hy.
Qed.

Lemma slice_to_sorted {A : Type} (R : A -> A -> Prop) (n : Z) (l : list A) :
  StronglySorted R l -> StronglySorted R (slice_to n l).
Proof. unfold slice_to. destruct (0 <=? n); apply firstn_sorted. Qed.









(** ** C7: the top backers *)



(** ** Accepted pledges *)

Section Accepting.
Context {F : Type -> Type} {storage : Storage F}.



Lemma create_pledge_accepted (w : World F) now user_id project_id amount
  reward_id project :
  get_project_by_id w now project_id = Some project ->
  0 < days_remaining project ->
  reward_rejection w project_id amount reward_id = None ->
  create_pledge w now user_id project_id amount reward_id =
    record_pledge w now user_id project_id amount reward_id.
Proof.
  intros Hp Hd Hr. unfold create_pledge. rewrite Hp, Hr.
  destruct (Z.leb_spec (days_remaining project) 0); [lia|reflexivity].
Qed.


End Accepting.

(** ** A valid pledge of any user *)


(** ** The scenarios of the specification *)

Example scenario_deadline_passed :
  create_pledge Sample.catalog Sample.now0 "user_0001" "20002002" 500
    (Some "reward_1"%string) =
  (set_rejected Sample.catalog
     [mkRejectedPledge "user_0001" "20002002" 500 (Some "reward_1"%string)
        (strftime_seconds Sample.now0) "Project deadline has passed"],
   mkOutcome false "Project deadline has passed" None).
Proof. reflexivity. Qed.

Example scenario_pledge_without_reward :
  snd (create_pledge Sample.catalog Sample.now0 "user_0001" "10001001" 500 None) =
    mkOutcome true "Pledge created successfully" (Some "pledge_000001"%string) /\
  option_map (fun view => current_amount (pv_project view))
    (get_project_by_id
       (fst (create_pledge Sample.catalog Sample.now0 "user_0001" "10001001" 500
               None))
       Sample.now0 "10001001") = Some 36250.
Proof. split; reflexivity. Qed.

Example scenario_sold_out :
  snd (create_pledge Sample.catalog Sample.now0 "user_0001" "10001001" 3000
         (Some "reward_1"%string)) = mkOutcome false sold_out None /\
  option_map (fun view => current_amount (pv_project view))
    (get_project_by_id
       (fst (create_pledge Sample.catalog Sample.now0 "user_0001" "10001001" 3000
               (Some "reward_1"%string)))
       Sample.now0 "10001001") = Some 35750.
Proof. split; reflexivity. Qed.

(** * Further properties of the three models *)

(** ** Which check fails first *)

Lemma deadline_passed_other_messages (min : Z) :
  let m := "Project deadline has passed"%string in
  m <> "Project not found"%string /\ m <> tier_not_found /\
  m <> amount_too_low min /\ m <> sold_out /\
  m <> "Pledge created successfully"%string.
Proof. unfold amount_too_low, tier_not_found, sold_out. cbn. repeat split; discriminate. Qed.

Lemma not_found_other_messages (min : Z) :
  let m := "Project not found"%string in
  m <> tier_not_found /\ m <> amount_too_low min /\ m <> sold_out /\
  m <> "Pledge created successfully"%string.
Proof. unfold amount_too_low, tier_not_found, sold_out. cbn. repeat split; discriminate. Qed.

Lemma tier_not_found_other_messages (min : Z) :
  tier_not_found <> amount_too_low min /\ tier_not_found <> sold_out /\
  tier_not_found <> "Pledge created successfully"%string.
Proof. unfold amount_too_low, tier_not_found, sold_out. cbn. repeat split; discriminate. Qed.

(** The message of [create_pledge], case by case. *)
Lemma create_pledge_message {F} {storage : Storage F} (w : World F)
  now user_id project_id amount reward_id :
  message (snd (create_pledge w now user_id project_id amount reward_id)) =
  match get_project_by_id w now project_id with
  | None => "Project not found"%string
  | Some project =>
      if days_remaining project <=? 0 then "Project deadline has passed"%string
      else match reward_rejection w project_id amount reward_id with
           | Some reason => reason
           | None => "Pledge created successfully"%string
           end
  end.
Proof.
  unfold create_pledge.
  destruct (get_project_by_id w now project_id) as [project|]; [|reflexivity].
  destruct (days_remaining project <=? 0); [reflexivity|].
  destruct (reward_rejection w project_id amount reward_id); reflexivity.
Qed.

Lemma reward_rejection_cases {F} {storage : Storage F} (w : World F)
  project_id amount reward_id reason :
  reward_rejection w project_id amount reward_id = Some reason ->
  exists rid,
    truthy reward_id = Some rid /\
    ((select_reward w project_id rid = None /\ reason = tier_not_found) \/
     exists tier,
       select_reward w project_id rid = Some tier /\
       (reason = amount_too_low (min_amount tier) \/ reason = sold_out)).
Proof.
  unfold reward_rejection.
  destruct (truthy reward_id) as [rid|]; [|discriminate].
  intros H. exists rid. split; [reflexivity|].
  destruct (select_reward w project_id rid) as [tier|].
  - right. exists tier. split; [reflexivity|].
    destruct (amount <? min_amount tier); [injection H as <-; auto|].
    destruct (remaining_quota tier <=? 0); [injection H as <-; auto | discriminate].
  - left. injection H as <-. auto.
Qed.

(** X1.  The returned message tells which of the first three checks failed:
    it is "Project not found" exactly when the project does not resolve,
    "Project deadline has passed" exactly when it resolves with no day left
    (whatever the amount and the reward), and "Selected reward tier not
    found" exactly when the project is active and a non-empty [reward_id]
    resolves to no tier of that project. *)
Theorem first_failing_check :
  forall (F : Type -> Type) (storage : Storage F) (w : World F)
         now user_id project_id amount reward_id,
    let result := create_pledge w now user_id project_id amount reward_id in
    (message (snd result) = "Project not found"%string <->
       get_project_by_id w now project_id = None) /\
    (message (snd result) = "Project deadline has passed"%string <->
       exists project,
         get_project_by_id w now project_id = Some project /\
         days_remaining project <= 0) /\
    (message (snd result) = tier_not_found <->
       exists project rid,
         get_project_by_id w now project_id = Some project /\
         0 < days_remaining project /\
         truthy reward_id = Some rid /\
         select_reward w project_id rid = None).
Proof.
  intros F storage w now user_id project_id amount reward_id result.
  subst result. rewrite create_pledge_message.
  destruct (get_project_by_id w now project_id) as [project|] eqn:Hp.
  - destruct (Z.leb_spec (days_remaining project) 0) as [Hd|Hd].
    + split; [|split].
      * split; [|discriminate].
        intros H. exfalso.
        apply (proj1 (deadline_passed_other_messages 0)). exact H.
      * split; [eauto|reflexivity].
      * split.
        -- intros H. exfalso.
           apply (proj1 (proj2 (deadline_passed_other_messages 0))). exact H.
        -- intros (p & rid & [= <-] & Hpos & _). lia.
    + destruct (reward_rejection w project_id amount reward_id) as [reason|] eqn:Hr.
      * apply reward_rejection_cases in Hr.
        destruct Hr as (rid & Ht & [(Hsel & ->) | (tier & Hsel & Hreason)]).
        -- split; [|split].
           ++ split; [|discriminate]. intros H. exfalso.
              apply (proj1 (not_found_other_messages 0)). symmetry. exact H.
           ++ split.
              ** intros H. exfalso.
                 apply (proj1 (proj2 (deadline_passed_other_messages 0))).
                 symmetry. exact H.
              ** intros (p & [= <-] & Hle). lia.
           ++ split; [|reflexivity]. intros _. exists project, rid. auto.
        -- pose proof (deadline_passed_other_messages (min_amount tier))
             as (_ & _ & Hd1 & Hd2 & _).
           pose proof (not_found_other_messages (min_amount tier))
             as (_ & Hn1 & Hn2 & _).
           pose proof (tier_not_found_other_messages (min_amount tier))
             as (Ht1 & Ht2 & _).
           split; [|split].
           ++ split; [|discriminate]. intros H.
              destruct Hreason as [-> | ->]; exfalso; auto.
           ++ split.
              ** intros H. destruct Hreason as [-> | ->]; exfalso; auto.
              ** intros (p & [= <-] & Hle). lia.
           ++ split.
              ** intros H. destruct Hreason as [-> | ->]; exfalso; auto.
              ** intros (p & rid' & _ & _ & Ht' & Hsel').
                 assert (rid' = rid) as -> by congruence. congruence.
      * pose proof (deadline_passed_other_messages 0) as (_ & _ & _ & _ & Hd1).
        pose proof (not_found_other_messages 0) as (_ & _ & _ & Hn1).
        pose proof (tier_not_found_other_messages 0) as (_ & _ & Ht1).
        split; [|split].
        -- split; [|discriminate]. intros H. exfalso. auto.
        -- split; [intros H; exfalso; auto|].
           intros (p & [= <-] & Hle). lia.
        -- split; [intros H; exfalso; auto|].
           intros (p & rid & _ & _ & Ht & Hsel).
           unfold reward_rejection in Hr. rewrite Ht, Hsel in Hr. discriminate.
  - split; [|split].
    + split; reflexivity.
    + split; [|intros (p & Habs & _); discriminate].
      intros H. exfalso.
      apply (proj1 (deadline_passed_other_messages 0)). symmetry. exact H.
    + split; [|intros (p & rid & Habs & _); discriminate].
      intros H. exfalso.
      apply (proj1 (not_found_other_messages 0)). exact H.
Qed.

(** ** Deadlines *)

Lemma days_remaining_by_date (now : datetime) (day : Z) :
  _calculate_days_remaining now (Some day) = Z.max 0 (day - now / US_PER_DAY).
Proof.
  unfold _calculate_days_remaining, strptime_date, midnight, timedelta_days.
  rewrite <- Z.mul_sub_distr_r, Z.div_mul; [reflexivity|].
  unfold US_PER_DAY, US_PER_SECOND. lia.
Qed.

Lemma get_project_by_id_find {F} {storage : Storage F} (w : World F) now project_id :
  get_project_by_id w now project_id =
  option_map
    (fun project =>
       mkProjectView project (_calculate_days_remaining now (deadline project)))
    (find (fun project => (p_id project =? project_id)%string)
          (_load_data (projects_file w))).
Proof.
  unfold get_project_by_id, get_all_projects. apply find_map_commute.
Qed.

Lemma deadline_message_iff {F} {storage : Storage F} (w : World F)
  now user_id project_id amount reward_id project :
  get_project_by_id w now project_id = Some project ->
  message (snd (create_pledge w now user_id project_id amount reward_id)) =
    "Project deadline has passed"%string <->
  days_remaining project <= 0.
Proof.
  intros Hp. rewrite create_pledge_message, Hp.
  destruct (Z.leb_spec (days_remaining project) 0) as [Hd|Hd]; [tauto|].
  split; [|lia]. intros H. exfalso.
  destruct (reward_rejection w project_id amount reward_id) as [reason|] eqn:Hr.
  - apply reward_rejection_cases in Hr.
    destruct Hr as (rid & _ & [(_ & ->) | (tier & _ & Hreason)]).
    + pose proof (deadline_passed_other_messages 0) as (_ & H1 & _). auto.
    + pose proof (deadline_passed_other_messages (min_amount tier))
        as (_ & _ & H2 & H3 & _).
      destruct Hreason as [-> | ->]; auto.
  - pose proof (deadline_passed_other_messages 0) as (_ & _ & _ & _ & H4). auto.
Qed.

(** X2.  The deadline check works on calendar days.  For the stored project
    that [project_id] resolves to, [days_remaining] is the number of days from
    today's date to the deadline date, never less than 0 and the same at
    every time of the day, and 0 for a deadline text that does not parse; a
    pledge is rejected with "Project deadline has passed" exactly when the
    deadline date is today or earlier, or does not parse. *)
Theorem deadline_counts_calendar_days :
  forall (F : Type -> Type) (storage : Storage F) (w : World F)
         now user_id project_id amount reward_id project,
    find (fun p => (p_id p =? project_id)%string) (_load_data (projects_file w))
      = Some project ->
    let today := now / US_PER_DAY in
    let days := match deadline project with
                | Some day => Z.max 0 (day - today)
                | None => 0
                end in
    get_project_by_id w now project_id = Some (mkProjectView project days) /\
    0 <= days /\
    (message (snd (create_pledge w now user_id project_id amount reward_id)) =
       "Project deadline has passed"%string <->
     match deadline project with
     | Some day => day <= today
     | None => True
     end).
Proof.
  intros F storage w now user_id project_id amount reward_id project Hfind
    today days.
  assert (Hp : get_project_by_id w now project_id =
               Some (mkProjectView project days)).
  { rewrite get_project_by_id_find, Hfind. cbn. subst days today.
    destruct (deadline project) as [day|]; [|reflexivity].
    rewrite days_remaining_by_date. reflexivity. }
  split; [exact Hp|]. split.
  - subst days. destruct (deadline project); lia.
  - rewrite (deadline_message_iff w now user_id project_id amount reward_id _ Hp).
    cbn. subst days. destruct (deadline project) as [day|]; [lia|].
    split; [trivial | lia].
Qed.

Lemma deadline_counts_calendar_days_witness :
  get_project_by_id Sample.catalog Sample.now0 "20002002" =
    Some (mkProjectView Sample.expired 0) /\
  message (snd (create_pledge Sample.catalog Sample.now0 "user_0001" "20002002"
                  500 None)) = "Project deadline has passed"%string.
Proof.
  pose proof (deadline_counts_calendar_days disk disk_storage Sample.catalog
                Sample.now0 "user_0001" "20002002" 500 None Sample.expired
                eq_refl) as (Hview & _ & Hmsg).
  split; [exact Hview|]. apply Hmsg. cbn. discriminate.
Defined.

Lemma str_of_Z_positive_head (z : Z) :
  0 < z -> exists c rest, str_of_Z z = String c rest /\ c <> "E"%char.
Proof.
  destruct z as [|p|p]; try lia. intros _.
  unfold str_of_Z, Z.to_int, NilZero.string_of_int, NilZero.string_of_uint.
  destruct (Pos.to_uint p); cbn; do 2 eexists; (split; [reflexivity|discriminate]).
Qed.

Lemma expired_label_iff (days : Z) :
  days_remaining_filter days = "Expired"%string <-> days <= 0.
Proof.
  unfold days_remaining_filter.
  destruct (Z.leb_spec days 0) as [Hd|Hd]; [tauto|].
  split; [|lia]. intros H. exfalso.
  destruct (days =? 1); [discriminate H|].
  destruct (str_of_Z_positive_head days Hd) as (c & rest & Heq & Hc).
  rewrite Heq in H. cbn in H. injection H as Hhead _. contradiction.
Qed.

(** X3.  The label that the view shows agrees with the ledger: a project is
    labelled "Expired" by the [days_remaining] filter exactly when every
    pledge to it is rejected with "Project deadline has passed". *)
Theorem expired_label_means_rejected :
  forall (F : Type -> Type) (storage : Storage F) (w : World F)
         now user_id project_id amount reward_id project,
    get_project_by_id w now project_id = Some project ->
    days_remaining_filter (days_remaining project) = "Expired"%string <->
    (success (snd (create_pledge w now user_id project_id amount reward_id))
       = false /\
     message (snd (create_pledge w now user_id project_id amount reward_id))
       = "Project deadline has passed"%string).
Proof.
  intros F storage w now user_id project_id amount reward_id project Hp.
  rewrite expired_label_iff.
  rewrite <- (deadline_message_iff w now user_id project_id amount reward_id _ Hp).
  split; [|tauto]. intros Hm. split; [|exact Hm].
  destruct (success (snd (create_pledge w now user_id project_id amount
                            reward_id))) eqn:Hs; [|reflexivity].
  apply create_pledge_success in Hs. destruct Hs as (_ & Heq).
  rewrite Heq in Hm. discriminate Hm.
Qed.

Lemma expired_label_means_rejected_witness :
  days_remaining_filter 0 = "Expired"%string /\
  success (snd (create_pledge Sample.catalog Sample.now0 "user_0001" "20002002"
                  500 None)) = false.
Proof.
  split; [reflexivity|].
  apply (proj1 (expired_label_means_rejected disk disk_storage Sample.catalog
                  Sample.now0 "user_0001" "20002002" 500 None
                  (mkProjectView Sample.expired 0) eq_refl)).
  reflexivity.
Defined.

(** ** The two hooks of the Project Catalog *)

Lemma sum_from (l : list Z) (a : Z) :
  fold_left Z.add l a = a + fold_left Z.add l 0.
Proof.
  revert a. induction l as [|x l IH]; intros a; cbn; [lia|].
  rewrite (IH (a + x)), (IH x). lia.
Qed.

Lemma sum_cons (x : Z) (l : list Z) :
  fold_left Z.add (x :: l) 0 = x + fold_left Z.add l 0.
Proof. cbn. apply sum_from. Qed.

Lemma sum_app (l1 l2 : list Z) :
  fold_left Z.add (l1 ++ l2) 0 = fold_left Z.add l1 0 + fold_left Z.add l2 0.
Proof. rewrite fold_left_app. apply sum_from. Qed.

Lemma add_amount_none project_id amount projects :
  add_amount project_id amount projects = None <->
  find (fun p => (p_id p =? project_id)%string) projects = None.
Proof.
  induction projects as [|p rest IH]; cbn; [tauto|].
  destruct (p_id p =? project_id)%string; [split; discriminate|].
  destruct (add_amount project_id amount rest); cbn.
  - split; [discriminate|]. intros H. apply IH in H. discriminate.
  - split; [intros _; apply IH; reflexivity | reflexivity].
Qed.

Lemma add_amount_same project_id amount projects projects' :
  add_amount project_id amount projects = Some projects' ->
  find (fun p => (p_id p =? project_id)%string) projects' =
  option_map (fun p => with_amount p (current_amount p + amount))
    (find (fun p => (p_id p =? project_id)%string) projects).
Proof.
  revert projects'. induction projects as [|p rest IH]; cbn; [discriminate|].
  intros projects'. destruct (p_id p =? project_id)%string eqn:He.
  - intros [= <-]. cbn. rewrite He. reflexivity.
  - destruct (add_amount project_id amount rest) as [rest'|]; [|discriminate].
    intros [= <-]. cbn. rewrite He. apply IH. reflexivity.
Qed.

Lemma add_amount_other project_id amount projects projects' other :
  add_amount project_id amount projects = Some projects' ->
  other <> project_id ->
  find (fun p => (p_id p =? other)%string) projects' =
  find (fun p => (p_id p =? other)%string) projects.
Proof.
  revert projects'. induction projects as [|p rest IH]; cbn; [discriminate|].
  intros projects' Ha Hne. destruct (String.eqb_spec (p_id p) project_id) as [He|He].
  - injection Ha as <-. cbn.
    destruct (String.eqb_spec (p_id p) other); [congruence|reflexivity].
  - destruct (add_amount project_id amount rest) as [rest'|]; [|discriminate].
    injection Ha as <-. cbn.
    destruct (p_id p =? other)%string; [reflexivity|]. apply IH; auto.
Qed.

Lemma add_amount_shape project_id amount projects projects' :
  add_amount project_id amount projects = Some projects' ->
  map p_id projects' = map p_id projects /\
  map p_name projects' = map p_name projects /\
  map deadline projects' = map deadline projects /\
  map goal_amount projects' = map goal_amount projects /\
  fold_left Z.add (map current_amount projects') 0 =
    fold_left Z.add (map current_amount projects) 0 + amount.
Proof.
  revert projects'. induction projects as [|p rest IH]; cbn [add_amount];
    [discriminate|].
  intros projects'. destruct (p_id p =? project_id)%string.
  - intros [= <-]. cbn [map p_id p_name deadline goal_amount current_amount].
    rewrite !sum_cons. repeat split; lia.
  - destruct (add_amount project_id amount rest) as [rest'|]; [|discriminate].
    intros [= <-]. destruct (IH rest' eq_refl) as (H1 & H2 & H3 & H4 & H5).
    cbn [map]. rewrite !sum_cons, H1, H2, H3, H4, H5. repeat split; lia.
Qed.

Lemma add_amount_split project_id amount projects projects' :
  add_amount project_id amount projects = Some projects' ->
  exists before project after,
    projects = before ++ project :: after /\
    (forall earlier, In earlier before -> p_id earlier <> project_id) /\
    p_id project = project_id /\
    projects' =
      before ++ with_amount project (current_amount project + amount) :: after.
Proof.
  revert projects'. induction projects as [|p rest IH]; cbn; [discriminate|].
  intros projects'. destruct (String.eqb_spec (p_id p) project_id) as [He|Hne].
  - intros [= <-]. exists [], p, rest.
    split; [reflexivity|]. split; [intros ? []|]. split; [exact He | reflexivity].
  - destruct (add_amount project_id amount rest) as [rest'|]; [|discriminate].
    intros [= <-].
    destruct (IH rest' eq_refl) as (before & project & after & -> & Hb & Hid & ->).
    exists (p :: before), project, after. repeat split; auto.
    intros earlier [<-|Hin]; auto.
Qed.

Lemma add_amount_some project_id amount projects :
  (exists projects', add_amount project_id amount projects = Some projects') <->
  exists project, In project projects /\ p_id project = project_id.
Proof.
  split.
  - intros (projects' & Ha).
    destruct (add_amount_split _ _ _ _ Ha) as (before & project & after & -> & _ & Hid & _).
    exists project. split; [apply in_or_app; right; left; reflexivity | exact Hid].
  - intros (project & Hin & Hid).
    destruct (add_amount project_id amount projects) as [projects'|] eqn:Ha;
      [eauto|].
    exfalso. apply add_amount_none in Ha.
    apply (find_none _ _ Ha) in Hin. rewrite Hid, String.eqb_refl in Hin.
    discriminate Hin.
Qed.

(** X4.  [update_project_amount] reports whether a stored project has the
    identifier.  If one has, the list handed to [_save_data] for
    [projects.json] is the stored list in which the first project with that
    identifier has its [current_amount] raised by the additional amount, every
    other field and every other project being in place; if none has, nothing
    is written.  The other four files are never touched. *)
Theorem update_project_amount_touches_one_project :
  forall (F : Type -> Type) (storage : Storage F) (w : World F)
         project_id additional_amount,
    let projects := _load_data (projects_file w) in
    let result := update_project_amount w project_id additional_amount in
    (snd result = true <->
       exists project, In project projects /\ p_id project = project_id) /\
    (snd result = false -> fst result = w) /\
    (snd result = true ->
       exists before project after,
         projects = before ++ project :: after /\
         (forall earlier, In earlier before -> p_id earlier <> project_id) /\
         p_id project = project_id /\
         projects_file (fst result) =
           _save_data
             (before ++
              mkProject (p_id project) (p_name project) (goal_amount project)
                (current_amount project + additional_amount) (deadline project)
              :: after)
             (projects_file w)) /\
    rewards_file (fst result) = rewards_file w /\
    pledges_file (fst result) = pledges_file w /\
    rejected_pledges_file (fst result) = rejected_pledges_file w /\
    users_file (fst result) = users_file w.
Proof.
  intros F storage w project_id amount projects result.
  destruct (update_project_amount_frame w project_id amount)
    as (Hr & Hl & Hj & Hu).
  cbv zeta in Hr, Hl, Hj, Hu. fold result in Hr, Hl, Hj, Hu.
  pose proof (add_amount_some project_id amount projects) as Hsome.
  subst result. unfold update_project_amount in *. fold projects in Hsome |- *.
  destruct (add_amount project_id amount projects) as [projects'|] eqn:Ha;
    cbn [fst snd] in *.
  - split; [split; [intros _; apply Hsome; eauto | reflexivity]|].
    split; [discriminate|]. split; [|auto].
    intros _.
    destruct (add_amount_split _ _ _ _ Ha)
      as (before & project & after & Hsplit & Hb & Hid & ->).
    exists before, project, after. repeat split; auto.
  - split; [split; [discriminate|]|].
    + intros Hex. apply Hsome in Hex. destruct Hex as (projects' & Hex).
      discriminate Hex.
    + split; [reflexivity|]. split; [discriminate | auto].
Qed.

Lemma take_quota_none reward_id decrease_by rewards :
  take_quota reward_id decrease_by rewards = None <->
  forall reward, In reward rewards ->
                 ~ (r_id reward = reward_id /\ 0 < remaining_quota reward).
Proof.
  induction rewards as [|r rest IH]; cbn.
  - split; [intros _ ? [] | reflexivity].
  - destruct ((r_id r =? reward_id)%string && (0 <? remaining_quota r))%bool
      eqn:Hc.
    + split; [discriminate|]. intros H. exfalso.
      apply andb_prop in Hc. destruct Hc as (Hid & Hq).
      apply String.eqb_eq in Hid. apply Z.ltb_lt in Hq.
      apply (H r); auto.
    + destruct (take_quota reward_id decrease_by rest) as [rest'|]; cbn.
      * split; [discriminate|]. intros H.
        assert (Hn : Some rest' = None)
          by (apply IH; intros x Hx; apply H; right; exact Hx).
        discriminate Hn.
      * split; [|reflexivity]. intros _ x [<-|Hx].
        -- intros (Hid & Hq).
           apply String.eqb_eq in Hid. apply Z.ltb_lt in Hq.
           rewrite Hid, Hq in Hc. discriminate Hc.
        -- apply (proj1 IH eq_refl x Hx).
Qed.

Lemma take_quota_shape reward_id decrease_by rewards rewards' :
  take_quota reward_id decrease_by rewards = Some rewards' ->
  map r_id rewards' = map r_id rewards /\
  map r_project_id rewards' = map r_project_id rewards /\
  map min_amount rewards' = map min_amount rewards /\
  total_quota rewards' = total_quota rewards - decrease_by.
Proof.
  unfold total_quota. revert rewards'.
  induction rewards as [|r rest IH]; cbn [take_quota]; [discriminate|].
  intros rewards'.
  destruct ((r_id r =? reward_id)%string && (0 <? remaining_quota r))%bool.
  - intros [= <-]. cbn [map r_id r_project_id min_amount remaining_quota].
    rewrite !sum_cons. repeat split; lia.
  - destruct (take_quota reward_id decrease_by rest) as [rest'|]; [|discriminate].
    intros [= <-]. destruct (IH rest' eq_refl) as (H1 & H2 & H3 & H4).
    cbn [map]. rewrite !sum_cons, H1, H2, H3, H4. repeat split; lia.
Qed.

Lemma take_quota_split reward_id decrease_by rewards rewards' :
  take_quota reward_id decrease_by rewards = Some rewards' ->
  exists before tier after,
    rewards = before ++ tier :: after /\
    (forall earlier, In earlier before ->
       ~ (r_id earlier = reward_id /\ 0 < remaining_quota earlier)) /\
    r_id tier = reward_id /\ 0 < remaining_quota tier /\
    rewards' =
      before ++ with_quota tier (remaining_quota tier - decrease_by) :: after.
Proof.
  revert rewards'. induction rewards as [|r rest IH]; cbn; [discriminate|].
  intros rewards'.
  destruct ((r_id r =? reward_id)%string && (0 <? remaining_quota r))%bool eqn:Hc.
  - intros [= <-]. apply andb_prop in Hc. destruct Hc as (Hid & Hq).
    apply String.eqb_eq in Hid. apply Z.ltb_lt in Hq.
    exists [], r, rest.
    split; [reflexivity|]. split; [intros ? []|]. repeat split; assumption.
  - destruct (take_quota reward_id decrease_by rest) as [rest'|]; [|discriminate].
    intros [= <-].
    destruct (IH rest' eq_refl)
      as (before & tier & after & -> & Hb & Hid & Hq & ->).
    exists (r :: before), tier, after. repeat split; auto.
    intros earlier [<-|Hin]; [|auto].
    intros (Hid' & Hq'). apply String.eqb_eq in Hid'. apply Z.ltb_lt in Hq'.
    rewrite Hid', Hq' in Hc. discriminate Hc.
Qed.

(** X6.  [update_reward_quota] succeeds exactly when some stored tier with
    that identifier has a positive quota.  The list then handed to
    [_save_data] for [reward_tiers.json] is the stored list in which the first
    such tier has [decrease_by] taken from its quota, everything else being in
    place, so the quotas sum to [decrease_by] less; otherwise nothing is
    written.  The other four files are never touched. *)
Theorem update_reward_quota_takes_from_one_tier :
  forall (F : Type -> Type) (storage : Storage F) (w : World F)
         reward_id decrease_by,
    let rewards := _load_data (rewards_file w) in
    let result := update_reward_quota w reward_id decrease_by in
    (snd result = true <->
       exists tier, In tier rewards /\ r_id tier = reward_id /\
                    0 < remaining_quota tier) /\
    (snd result = false -> fst result = w) /\
    (snd result = true ->
       exists before tier after,
         rewards = before ++ tier :: after /\
         (forall earlier, In earlier before ->
            ~ (r_id earlier = reward_id /\ 0 < remaining_quota earlier)) /\
         r_id tier = reward_id /\ 0 < remaining_quota tier /\
         rewards_file (fst result) =
           _save_data
             (before ++
              mkRewardTier (r_id tier) (r_project_id tier) (r_name tier)
                (min_amount tier) (remaining_quota tier - decrease_by)
              :: after)
             (rewards_file w) /\
         total_quota
           (before ++
            mkRewardTier (r_id tier) (r_project_id tier) (r_name tier)
              (min_amount tier) (remaining_quota tier - decrease_by)
            :: after) = total_quota rewards - decrease_by) /\
    projects_file (fst result) = projects_file w /\
    pledges_file (fst result) = pledges_file w /\
    rejected_pledges_file (fst result) = rejected_pledges_file w /\
    users_file (fst result) = users_file w.
Proof.
  intros F storage w reward_id decrease_by rewards result.
  destruct (update_reward_quota_frame w reward_id decrease_by)
    as (Hp & Hl & Hj & Hu).
  cbv zeta in Hp, Hl, Hj, Hu. fold result in Hp, Hl, Hj, Hu.
  subst result. unfold update_reward_quota in *. fold rewards.
  fold rewards in Hp, Hl, Hj, Hu.
  destruct (take_quota reward_id decrease_by rewards) as [rewards'|] eqn:Ht;
    cbn [fst snd] in *.
  - destruct (take_quota_split _ _ _ _ Ht)
      as (before & tier & after & Hsplit & Hb & Hid & Hq & Hnew).
    split; [split; [intros _ | reflexivity]|].
    { exists tier. split; [|auto]. rewrite Hsplit.
      apply in_or_app. right. left. reflexivity. }
    split; [discriminate|]. split; [|auto].
    intros _. exists before, tier, after.
    split; [exact Hsplit|]. split; [exact Hb|]. split; [exact Hid|].
    split; [exact Hq|]. split; [rewrite Hnew; reflexivity|].
    destruct (take_quota_shape _ _ _ _ Ht) as (_ & _ & _ & Hsum).
    rewrite Hnew in Hsum. exact Hsum.
  - split; [split; [discriminate|]|].
    + intros (tier & Hin & Hid & Hq). exfalso.
      apply (proj1 (take_quota_none _ _ _) Ht tier Hin). auto.
    + split; [reflexivity|]. split; [discriminate | auto].
Qed.

(** ** The tiers of a project *)

(** Sorting with [before] yields the order [R] when [before] decides it. *)
Lemma stable_sort_sorted {A : Type} (before : A -> A -> bool)
  (R : A -> A -> Prop) l :
  (forall x y, before x y = true -> R x y) ->
  (forall x y, before x y = false -> R y x) ->
  (forall x y z, R x y -> R y z -> R x z) ->
  StronglySorted R (stable_sort before l).
Proof.
  intros Htrue Hfalse Htrans.
  induction l as [|x l IH]; cbn; [constructor|].
  change (fold_right (insert_sorted before) [] l) with (stable_sort before l).
  generalize dependent (stable_sort before l). clear l.
  intros s Hs. induction s as [|y s IHs]; cbn; [repeat constructor|].
  inversion Hs as [|? ? Hs' Hy]; subst.
  destruct (before y x) eqn:Hb.
  - constructor; [auto|]. apply Forall_forall. intros z Hz.
    apply insert_sorted_In in Hz. destruct Hz as [->|Hz]; [auto|].
    rewrite Forall_forall in Hy. auto.
  - constructor; [exact Hs|]. constructor; [auto|].
    rewrite Forall_forall in Hy |- *. intros z Hz. eauto.
Qed.

(** X7.  [get_reward_tiers] returns exactly the tiers of the project, each as
    often as the file has it, in ascending order of [min_amount]; a tier of
    another project is never in the list. *)
Theorem reward_tiers_sorted_and_complete :
  forall (F : Type -> Type) (storage : Storage F) (w : World F) project_id,
    let tiers := get_reward_tiers w project_id in
    StronglySorted cheaper_first tiers /\
    Permutation tiers
      (filter (fun r => (r_project_id r =? project_id)%string)
              (_load_data (rewards_file w))) /\
    (forall tier, In tier tiers <->
       In tier (_load_data (rewards_file w)) /\ r_project_id tier = project_id).
Proof.
  intros F storage w project_id tiers. subst tiers. unfold get_reward_tiers.
  split; [|split].
  - apply stable_sort_sorted.
    + intros x y H. apply Z.ltb_lt in H. unfold cheaper_first. lia.
    + intros x y H. apply Z.ltb_ge in H. exact H.
    + unfold cheaper_first. intros x y z. lia.
  - apply stable_sort_perm.
  - intros tier. rewrite stable_sort_In, filter_In, String.eqb_eq. reflexivity.
Qed.

(** X8.  A reward of another project cannot be redeemed: when every tier
    stored under the given non-empty [reward_id] belongs to some other
    project, a pledge against an active project is rejected with "Selected
    reward tier not found", and neither the project nor any quota changes. *)
Theorem foreign_reward_is_not_found :
  forall (w : World disk) now user_id project_id amount rid project,
    get_project_by_id w now project_id = Some project ->
    0 < days_remaining project ->
    rid <> ""%string ->
    (forall tier, In tier (rewards_file w) -> r_id tier = rid ->
                  r_project_id tier <> project_id) ->
    let result := create_pledge w now user_id project_id amount (Some rid) in
    snd result = mkOutcome false tier_not_found None /\
    projects_file (fst result) = projects_file w /\
    rewards_file (fst result) = rewards_file w /\
    pledges_file (fst result) = pledges_file w.
Proof.
  intros w now user_id project_id amount rid project Hp Hd Hne Hforeign result.
  assert (Hsel : select_reward w project_id rid = None).
  { destruct (select_reward w project_id rid) as [tier|] eqn:Hs; [|reflexivity].
    apply select_reward_In in Hs. destruct Hs as (Hin & Hid & Hpj).
    exfalso. apply (Hforeign tier Hin Hid Hpj). }
  subst result. unfold create_pledge. rewrite Hp.
  destruct (Z.leb_spec (days_remaining project) 0); [lia|].
  unfold reward_rejection, truthy.
  destruct (String.eqb_spec rid "") as [He|_]; [contradiction|].
  rewrite Hsel. cbn. auto.
Qed.

Lemma foreign_reward_is_not_found_witness :
  snd (create_pledge
         (set_rewards Sample.catalog
            [mkRewardTier "reward_7" "20002002" "Early Bird Special" 100 5])
         Sample.now0 "user_0001" "10001001" 500 (Some "reward_7"%string)) =
  mkOutcome false tier_not_found None.
Proof.
  refine (proj1 (foreign_reward_is_not_found
                   (set_rewards Sample.catalog
                      [mkRewardTier "reward_7" "20002002" "Early Bird Special" 100 5])
                   Sample.now0 "user_0001" "10001001" 500 "reward_7"
                   (mkProjectView Sample.smart_home 45) eq_refl eq_refl _ _)).
  - discriminate.
  - intros tier [<-|[]] _. cbn. discriminate.
Defined.

(** ** Identifiers *)

Lemma string_length_app (s1 s2 : string) :
  String.length (s1 ++ s2) = (String.length s1 + String.length s2)%nat.
Proof. induction s1 as [|c s1 IH]; cbn; [reflexivity | rewrite IH; reflexivity]. Qed.

Lemma zeros_length (k : nat) : String.length (zeros k) = k.
Proof. induction k as [|k IH]; cbn; [reflexivity | rewrite IH; reflexivity]. Qed.

Lemma read_zeros (k : nat) (s : string) :
  read_number (zeros k ++ s) = read_number s.
Proof.
  unfold read_number. induction k as [|k IH]; cbn; [reflexivity|].
  destruct (NilEmpty.uint_of_string (zeros k ++ s)) as [d|];
    destruct (NilEmpty.uint_of_string s) as [d'|]; cbn in *;
    try discriminate; try reflexivity.
  exact IH.
Qed.

Lemma read_zero_pad (width n : nat) : read_number (zero_pad width n) = Some n.
Proof.
  unfold zero_pad. rewrite read_zeros. unfold read_number.
  rewrite NilEmpty.usu. cbn. rewrite Unsigned.of_to. reflexivity.
Qed.

Lemma zero_pad_inj (width n m : nat) :
  zero_pad width n = zero_pad width m -> n = m.
Proof.
  intros H. apply (f_equal read_number) in H.
  rewrite !read_zero_pad in H. congruence.
Qed.

Lemma zero_pad_length (width n : nat) :
  (width <= String.length (zero_pad width n))%nat.
Proof. unfold zero_pad. rewrite string_length_app, zeros_length. lia. Qed.

(** X9.  The numbers in the identifiers read back.  The six-digit suffix of
    a pledge identifier and the four-digit suffix of a user identifier parse
    to the number they were formatted from, they are at least six and four
    characters long, and different numbers give different suffixes, also
    beyond 999999 and 9999, where the suffix simply gets longer. *)
Theorem identifier_numbers_read_back :
  forall n m : nat,
    read_number (format_06d n) = Some n /\
    read_number (format_04d n) = Some n /\
    (6 <= String.length (format_06d n))%nat /\
    (4 <= String.length (format_04d n))%nat /\
    (format_06d n = format_06d m <-> n = m) /\
    (format_04d n = format_04d m <-> n = m).
Proof.
  intros n m.
  change (format_06d n) with (zero_pad 6 n).
  change (format_06d m) with (zero_pad 6 m).
  unfold format_04d.
  repeat split; try apply read_zero_pad; try apply zero_pad_length;
    try apply zero_pad_inj; intros ->; reflexivity.
Qed.

Lemma numbered_from_snoc (n : nat) (ids : list string) (id : string) :
  numbered_from n ids ->
  id = ("pledge_" ++ format_06d (n + List.length ids))%string ->
  numbered_from n (ids ++ [id]).
Proof.
  revert n. induction ids as [|x ids IH]; cbn; intros n Hn Hid.
  - rewrite Nat.add_0_r in Hid. auto.
  - destruct Hn as (Hx & Hrest). split; [exact Hx|].
    apply IH; [exact Hrest|]. rewrite Hid.
    replace (n + S (List.length ids))%nat with (S n + List.length ids)%nat by lia.
    reflexivity.
Qed.

Lemma numbered_from_In (n : nat) (ids : list string) (id : string) :
  numbered_from n ids -> In id ids ->
  exists k, (n <= k < n + List.length ids)%nat /\
            id = ("pledge_" ++ format_06d k)%string.
Proof.
  revert n. induction ids as [|x ids IH]; cbn; intros n Hn Hin; [contradiction|].
  destruct Hn as (Hx & Hrest). destruct Hin as [<-|Hin].
  - exists n. split; [lia | exact Hx].
  - destruct (IH (S n) Hrest Hin) as (k & Hk & Hid). exists k. split; [lia|exact Hid].
Qed.

Lemma pledge_id_inj (n m : nat) :
  ("pledge_" ++ format_06d n)%string = ("pledge_" ++ format_06d m)%string -> n = m.
Proof.
  cbn. intros H. injection H as H. apply (zero_pad_inj 6). exact H.
Qed.

Lemma numbered_from_NoDup (n : nat) (ids : list string) :
  numbered_from n ids -> NoDup ids.
Proof.
  revert n. induction ids as [|x ids IH]; cbn; intros n Hn; [constructor|].
  destruct Hn as (Hx & Hrest). constructor; [|eauto].
  intros Hin. destruct (numbered_from_In (S n) ids x Hrest Hin) as (k & Hk & Hid).
  rewrite Hx in Hid. apply pledge_id_inj in Hid. lia.
Qed.

Lemma create_pledge_pledges_after {F} {storage : Storage F} (w : World F) now
  user_id project_id amount reward_id :
  let result := create_pledge w now user_id project_id amount reward_id in
  let pledges := _load_data (pledges_file w) in
  let new_id := ("pledge_" ++ format_06d (List.length pledges + 1))%string in
  (success (snd result) = false /\ pledge_id (snd result) = None /\
   pledges_file (fst result) = pledges_file w) \/
  (success (snd result) = true /\ pledge_id (snd result) = Some new_id /\
   pledges_file (fst result) =
     _save_data
       (pledges ++
        [mkPledge new_id user_id project_id amount (truthy reward_id)
           (strftime_seconds now)])
       (pledges_file w)).
Proof.
  cbv zeta.
  destruct (create_pledge_exits w now user_id project_id amount reward_id)
    as [(_ & Heq) | (_ & reason & Heq)]; rewrite Heq.
  - right. split; [reflexivity|]. split; [reflexivity|].
    destruct (record_pledge_ledger w now user_id project_id amount reward_id)
      as (Hl & _). exact Hl.
  - left. repeat split; reflexivity.
Qed.

Lemma run_operation_keeps_sequence {F} {storage : Storage F} (w : World F) op :
  pledge_writes_land_fail_or_tear F ->
  sequential_ledger w -> sequential_ledger (run_operation w op).
Proof.
  unfold sequential_ledger. intros Hwrite Hseq.
  destruct op as [now user_id project_id amount reward_id
                 | project_id amount | rid d]; cbn [run_operation].
  - destruct (create_pledge_pledges_after w now user_id project_id amount reward_id)
      as [(_ & _ & Hl) | (_ & _ & Hl)]; cbv zeta in Hl; rewrite Hl;
      [exact Hseq|].
    destruct (Hwrite
                (_load_data (pledges_file w) ++
                 [mkPledge
                    ("pledge_" ++
                     format_06d (List.length (_load_data (pledges_file w)) + 1))
                    user_id project_id amount (truthy reward_id)
                    (strftime_seconds now)])
                (pledges_file w)) as [-> | [-> | ->]].
    + rewrite map_app. cbn [map pl_id]. apply numbered_from_snoc; [exact Hseq|].
      rewrite length_map. do 2 f_equal. lia.
    + exact Hseq.
    + exact I.
  - destruct (update_project_amount_frame w project_id amount) as (_ & Hl & _).
    cbv zeta in Hl. rewrite Hl. exact Hseq.
  - destruct (update_reward_quota_frame w rid d) as (_ & Hl & _).
    cbv zeta in Hl. rewrite Hl. exact Hseq.
Qed.

(** X10.  The stored pledge identifiers stay in sequence, whatever the
    writes do.  Let every write to a file of pledges land, or leave the file
    as it was, or leave nothing that can be read.  If the success store holds
    [pledge_000001], [pledge_000002], ... in order (as the empty store does),
    it still does after any sequence of pledges and catalog updates, so no
    identifier is stored twice; and the identifier that a successful pledge
    returns is the one numbered one more than the pledges stored, which is
    not an identifier already stored. *)
Theorem pledge_ids_stay_sequential :
  forall (F : Type -> Type) (storage : Storage F) (w : World F)
         (ops : list operation),
    pledge_writes_land_fail_or_tear F ->
    sequential_ledger w ->
    let pledges := _load_data (pledges_file (run ops w)) in
    sequential_ledger (run ops w) /\
    NoDup (map pl_id pledges) /\
    (forall now user_id project_id amount reward_id id,
       pledge_id (snd (create_pledge (run ops w) now user_id project_id amount
                         reward_id)) = Some id ->
       id = ("pledge_" ++ format_06d (S (List.length pledges)))%string /\
       ~ In id (map pl_id pledges)).
Proof.
  intros F storage w ops Hwrite Hseq pledges.
  assert (Hinv : sequential_ledger (run ops w)).
  { clear pledges. revert w Hseq. unfold run.
    induction ops as [|op ops IH]; intros w Hseq; cbn; [exact Hseq|].
    apply IH, run_operation_keeps_sequence; assumption. }
  split; [exact Hinv|]. split.
  - apply (numbered_from_NoDup 1). exact Hinv.
  - intros now user_id project_id amount reward_id id Hid.
    destruct (create_pledge_pledges_after (run ops w) now user_id project_id
                amount reward_id) as [(_ & Hnone & _) | (_ & Hsome & _)];
      cbv zeta in *; rewrite Hid in *; [discriminate|].
    injection Hsome as ->. fold pledges. split.
    + rewrite Nat.add_1_r. reflexivity.
    + intros Hin.
      destruct (numbered_from_In 1 _ _ Hinv Hin) as (k & Hk & Heq).
      apply pledge_id_inj in Heq. fold pledges in Hk.
      rewrite length_map in Hk. lia.
Qed.

Lemma pledge_ids_stay_sequential_witness :
  pledge_writes_land_fail_or_tear flaky /\
  sequential_ledger Sample.read_only_catalog /\
  map pl_id
    (contents
       (pledges_file
          (run [CreatePledge Sample.now0 "user_0001" "10001001" 500 None;
                CreatePledge Sample.now0 "user_0002" "10001001" 700 None]
               Sample.read_only_catalog))) =
    ["pledge_000001"; "pledge_000002"]%string /\
  NoDup
    (map pl_id
       (contents
          (pledges_file
             (run [CreatePledge Sample.now0 "user_0001" "10001001" 500 None;
                   CreatePledge Sample.now0 "user_0002" "10001001" 700 None]
                  Sample.read_only_catalog)))).
Proof.
  assert (Hwrite : pledge_writes_land_fail_or_tear flaky).
  { intros data file. cbn. destruct (writable file); auto. }
  assert (H0 : sequential_ledger Sample.read_only_catalog) by exact I.
  split; [exact Hwrite|]. split; [exact H0|]. split; [reflexivity|].
  exact (proj1 (proj2 (pledge_ids_stay_sequential flaky flaky_storage
                         Sample.read_only_catalog
                         [CreatePledge Sample.now0 "user_0001" "10001001" 500 None;
                          CreatePledge Sample.now0 "user_0002" "10001001" 700 None]
                         Hwrite H0))).
Defined.

(** ** The listings of pledges *)

Lemma create_pledge_projects_after (w : World disk) now user_id project_id amount
  reward_id :
  let result := create_pledge w now user_id project_id amount reward_id in
  (success (snd result) = false /\ projects_file (fst result) = projects_file w) \/
  (success (snd result) = true /\
   add_amount project_id amount (projects_file w) =
     Some (projects_file (fst result))).
Proof.
  cbv zeta.
  destruct (create_pledge_exits w now user_id project_id amount reward_id)
    as [((project & Hp & _) & Heq) | (_ & reason & Heq)]; rewrite Heq.
  - right. split; [reflexivity|].
    destruct (record_pledge_catalog w now user_id project_id amount reward_id)
      as (Hpf & _).
    cbv zeta in Hpf. cbn [_load_data _save_data disk_storage] in Hpf.
    destruct (add_amount project_id amount (projects_file w)) as [projects'|] eqn:Ha.
    + rewrite Hpf. reflexivity.
    + exfalso. apply add_amount_none in Ha.
      rewrite get_project_by_id_find in Hp. cbn [_load_data disk_storage] in Hp.
      rewrite Ha in Hp. discriminate Hp.
  - left. split; reflexivity.
Qed.

Lemma names_after_write {F} {storage : Storage F} (w : World F) project_id amount
  projects' later id :
  write_lands_or_not (projects_file w) ->
  add_amount project_id amount (_load_data (projects_file w)) = Some projects' ->
  option_map (fun view => p_name (pv_project view))
    (get_project_by_id (set_projects w (_save_data projects' (projects_file w)))
       later id) =
  option_map (fun view => p_name (pv_project view)) (get_project_by_id w later id).
Proof.
  intros Hwrite Ha. rewrite !get_project_by_id_find.
  cbn [set_projects projects_file].
  destruct (Hwrite projects') as [-> | ->]; [|reflexivity].
  destruct (String.eqb_spec id project_id) as [->|Hne].
  - rewrite (add_amount_same _ _ _ _ Ha).
    destruct (find _ (_load_data (projects_file w))); reflexivity.
  - rewrite (add_amount_other _ _ _ _ id Ha Hne).
    destruct (find _ (_load_data (projects_file w))); reflexivity.
Qed.

(** X11.  A pledge that has just succeeded shows up in its backer's list.
    When the write to [pledges.json] lands, and the write to [projects.json]
    lands or leaves that file as it was, then after a successful
    [create_pledge], at any later time, [get_user_pledges] of that user is
    the list from before followed by the new pledge under its new identifier,
    annotated with the name of the project; the lists of all other users are
    as they were. *)
Theorem new_pledge_is_listed_for_its_backer :
  forall (F : Type -> Type) (storage : Storage F) (w : World F)
         now user_id project_id amount reward_id later,
    write_lands (pledges_file w) ->
    write_lands_or_not (projects_file w) ->
    let result := create_pledge w now user_id project_id amount reward_id in
    success (snd result) = true ->
    exists project,
      get_project_by_id w now project_id = Some project /\
      get_user_pledges (fst result) later user_id =
        get_user_pledges w later user_id ++
        [mkUserPledge
           (mkPledge
              ("pledge_" ++
               format_06d (List.length (_load_data (pledges_file w)) + 1))
              user_id project_id amount (truthy reward_id) (strftime_seconds now))
           (p_name (pv_project project))] /\
      (forall other, other <> user_id ->
         get_user_pledges (fst result) later other =
         get_user_pledges w later other).
Proof.
  intros F storage w now user_id project_id amount reward_id later
    Hpledges Hprojects result Hs.
  subst result.
  destruct (create_pledge_success w now user_id project_id amount reward_id Hs)
    as ((project & Hp & _) & Heq).
  exists project. split; [exact Hp|].
  destruct (create_pledge_pledges_after w now user_id project_id amount reward_id)
    as [(Hf & _) | (_ & _ & Hl)]; [congruence|].
  cbv zeta in Hl.
  destruct (record_pledge_catalog w now user_id project_id amount reward_id)
    as (Hpf & _).
  cbv zeta in Hpf. rewrite <- Heq in Hpf.
  assert (Hname : forall id,
            match get_project_by_id
              (fst (create_pledge w now user_id project_id amount reward_id)) later id with
            | Some view => p_name (pv_project view)
            | None => "Unknown Project"%string
            end =
            match get_project_by_id w later id with
            | Some view => p_name (pv_project view)
            | None => "Unknown Project"%string
            end).
  { intros id.
    assert (H : option_map (fun view => p_name (pv_project view))
                  (get_project_by_id
                     (fst (create_pledge w now user_id project_id amount reward_id))
                     later id) =
                option_map (fun view => p_name (pv_project view))
                  (get_project_by_id w later id)).
    { destruct (add_amount project_id amount (_load_data (projects_file w)))
        as [projects'|] eqn:Ha.
      - rewrite <- (names_after_write w project_id amount projects' later id
                      Hprojects Ha).
        rewrite !get_project_by_id_find. cbn [set_projects projects_file].
        rewrite Hpf. reflexivity.
      - rewrite !get_project_by_id_find, Hpf. reflexivity. }
    destruct (get_project_by_id
                (fst (create_pledge w now user_id project_id amount reward_id))
                later id);
      destruct (get_project_by_id w later id); cbn in H; congruence. }
  assert (Hproject : match get_project_by_id w later project_id with
                     | Some view => p_name (pv_project view)
                     | None => "Unknown Project"%string
                     end = p_name (pv_project project)).
  { rewrite get_project_by_id_find in Hp |- *.
    destruct (find _ (_load_data (projects_file w))) as [p|]; [|discriminate Hp].
    injection Hp as <-. reflexivity. }
  unfold get_user_pledges. cbv zeta. rewrite Hl, Hpledges.
  split.
  - rewrite filter_app, map_app. cbn [filter pl_user_id].
    rewrite String.eqb_refl. cbn [map pl_project_id].
    f_equal; [apply map_ext; intros p; rewrite Hname; reflexivity|].
    rewrite Hname, Hproject. reflexivity.
  - intros other Hne. rewrite Hpledges, filter_app, map_app.
    cbn [filter pl_user_id].
    destruct (String.eqb_spec user_id other) as [He|_]; [congruence|].
    cbn [map]. rewrite app_nil_r.
    apply map_ext. intros p. rewrite Hname. reflexivity.
Qed.

Lemma new_pledge_is_listed_for_its_backer_witness :
  write_lands (pledges_file Sample.read_only_catalog) /\
  write_lands_or_not (projects_file Sample.read_only_catalog) /\
  get_user_pledges
    (fst (create_pledge Sample.read_only_catalog Sample.now0 "user_0003"
            "10001001" 500 None))
    Sample.now0 "user_0003" =
  [mkUserPledge
     (mkPledge "pledge_000001" "user_0003" "10001001" 500 None
        (strftime_seconds Sample.now0))
     "Smart Home IoT System"].
Proof.
  assert (Hl : write_lands (pledges_file Sample.read_only_catalog))
    by (intros data; reflexivity).
  assert (Hp : write_lands_or_not (projects_file Sample.read_only_catalog))
    by (intros data; right; reflexivity).
  split; [exact Hl|]. split; [exact Hp|].
  destruct (new_pledge_is_listed_for_its_backer flaky flaky_storage
              Sample.read_only_catalog Sample.now0
              "user_0003" "10001001" 500 None Sample.now0 Hl Hp eq_refl)
    as (project & Hproject & Hlist & _).
  rewrite Hlist. injection Hproject as <-. reflexivity.
Defined.

(** X12.  [get_project_pledges] lists exactly the successful pledges of the
    project, each once, newest first, and names each backer by the full name
    the User Directory has for it, or "Anonymous" when the directory does not
    know the user. *)
Theorem project_pledges_newest_first :
  forall (F : Type -> Type) (storage : Storage F) (w : World F) project_id,
    let listing := get_project_pledges w project_id in
    StronglySorted newer_first listing /\
    Permutation (map pp_pledge listing)
      (filter (fun p => (pl_project_id p =? project_id)%string)
              (_load_data (pledges_file w))) /\
    (forall entry, In entry listing ->
       pl_project_id (pp_pledge entry) = project_id /\
       pp_user_name entry =
         match get_user_by_id w (pl_user_id (pp_pledge entry)) with
         | Some user => full_name user
         | None => "Anonymous"%string
         end).
Proof.
  intros F storage w project_id listing. subst listing.
  unfold get_project_pledges.
  split; [|split].
  - apply stable_sort_sorted.
    + intros x y H. apply Z.ltb_lt in H. unfold newer_first. lia.
    + intros x y H. apply Z.ltb_ge in H. exact H.
    + unfold newer_first. intros x y z. lia.
  - rewrite stable_sort_perm, map_map. cbn [pp_pledge]. rewrite map_id. reflexivity.
  - intros entry Hin. apply stable_sort_In, in_map_iff in Hin.
    destruct Hin as (p & <- & Hp). apply filter_In in Hp.
    destruct Hp as (_ & Hid). apply String.eqb_eq in Hid. cbn. auto.
Qed.

(** ** Statistics *)

Lemma tally_snoc {A : Type} (key : A -> string) (value : A -> Z) l x :
  tally key value (l ++ [x]) = dict_add (key x) (value x) (tally key value l).
Proof. unfold tally. rewrite fold_left_app. reflexivity. Qed.

(** The tallying loop in general: one entry per key that occurs, holding the
    sum of the values under that key. *)
Lemma tally_spec {A : Type} (key : A -> string) (value : A -> Z) (l : list A) :
  NoDup (map fst (tally key value l)) /\
  (forall k, In k (map fst (tally key value l)) <->
             filter (fun x => (key x =? k)%string) l <> []) /\
  (forall k v, In (k, v) (tally key value l) ->
     v = fold_left Z.add
           (map value (filter (fun x => (key x =? k)%string) l)) 0).
Proof.
  induction l as [|x l (Hnd & Hkeys & Hsum)] using rev_ind.
  - cbn. split; [constructor|]. split; [|intros ? ? []].
    intros k. split; [intros [] | intros H; contradiction].
  - rewrite tally_snoc. split; [|split].
    + apply dict_add_NoDup, Hnd.
    + intros k. rewrite dict_add_key, filter_app, Hkeys. cbn [filter].
      destruct (String.eqb_spec (key x) k) as [Heq|Hne].
      * split; [|auto]. intros _ H. apply app_eq_nil in H.
        destruct H as (_ & H). discriminate H.
      * rewrite app_nil_r. split; [|auto]. intros [->|H]; [contradiction|auto].
    + intros k v Hin. rewrite filter_app, map_app, sum_app. cbn [filter].
      destruct (String.eqb_spec (key x) k) as [Heq|Hne].
      * subst k. cbn [map]. rewrite sum_cons. cbn [fold_left].
        destruct (dict_add_same _ _ _ _ Hnd Hin) as [(v0 & Hin0 & ->) | (Hnk & ->)].
        -- rewrite (Hsum _ _ Hin0). lia.
        -- assert (Hnil : filter (fun y => (key y =? key x)%string) l = []).
           { destruct (filter (fun y => (key y =? key x)%string) l) eqn:He;
               [reflexivity|].
             exfalso. apply Hnk, Hkeys. rewrite He. discriminate. }
           rewrite Hnil. cbn. lia.
      * apply dict_add_other in Hin; [|congruence].
        rewrite (Hsum _ _ Hin). cbn. lia.
Qed.

Lemma sum_of_ones {A : Type} (l : list A) :
  fold_left Z.add (map (fun _ => 1) l) 0 = Z.of_nat (List.length l).
Proof.
  induction l as [|x l IH]; [reflexivity|].
  cbn [map]. rewrite sum_cons, IH. cbn [List.length]. lia.
Qed.

Lemma firstn_NoDup {A : Type} (n : nat) (l : list A) :
  NoDup l -> NoDup (firstn n l).
Proof.
  revert l. induction n as [|n IH]; intros l Hnd; cbn; [constructor|].
  destruct l as [|x l]; [constructor|].
  inversion Hnd as [|? ? Hnotin Hnd']; subst. constructor; [|auto].
  intros Hin. apply Hnotin. apply (firstn_incl_In n), Hin.
Qed.

Lemma firstn_map {A B : Type} (f : A -> B) (n : nat) (l : list A) :
  firstn n (map f l) = map f (firstn n l).
Proof.
  revert l. induction n as [|n IH]; intros [|x l]; cbn; try reflexivity.
  rewrite IH. reflexivity.
Qed.

Lemma filter_length_le {A : Type} (f : A -> bool) (l : list A) :
  (List.length (filter f l) <= List.length l)%nat.
Proof.
  induction l as [|x l IH]; cbn; [lia|]. destruct (f x); cbn; lia.
Qed.

(** X13.  The histogram of rejection reasons in [get_pledge_statistics] has
    at most five entries, in descending order of their counts, for five
    different reasons; every count is the number of stored rejections with
    exactly that reason, and is at least 1.  The attempts are the successful
    plus the rejected records, and the recent counts never exceed the totals. *)
Theorem rejection_histogram_counts :
  forall (F : Type -> Type) (storage : Storage F) (w : World F) (now : datetime),
    let stats := get_pledge_statistics w now in
    let rejected := _load_data (rejected_pledges_file w) in
    (List.length (top_rejection_reasons stats) <= 5)%nat /\
    StronglySorted by_value_desc (top_rejection_reasons stats) /\
    NoDup (map fst (top_rejection_reasons stats)) /\
    (forall reason count, In (reason, count) (top_rejection_reasons stats) ->
       count = Z.of_nat
                 (List.length
                    (filter (fun r => (rejection_reason r =? reason)%string)
                            rejected)) /\
       1 <= count) /\
    total_pledge_attempts stats =
      (total_successful_pledges stats + total_rejected_pledges stats)%nat /\
    (recent_successful_pledges stats <= total_successful_pledges stats)%nat /\
    (recent_rejected_pledges stats <= total_rejected_pledges stats)%nat.
Proof.
  intros F storage w now stats rejected. subst stats.
  unfold get_pledge_statistics. cbn [top_rejection_reasons total_pledge_attempts
    total_successful_pledges total_rejected_pledges recent_successful_pledges
    recent_rejected_pledges]. fold rejected.
  change (rejection_reasons rejected)
    with (tally rejection_reason (fun _ => 1) rejected).
  destruct (tally_spec rejection_reason (fun _ : RejectedPledge => 1) rejected)
    as (Hnd & Hkeys & Hsum).
  split; [|split; [|split; [|split; [|split; [reflexivity|split]]]]].
  - unfold slice_to. cbn. rewrite length_firstn. lia.
  - apply slice_to_sorted, sort_by_value_desc_sorted.
  - unfold slice_to. cbn [Z.leb Z.compare Z.to_nat]. rewrite <- firstn_map.
    apply firstn_NoDup.
    apply (Permutation_NoDup
             (l := map fst (tally rejection_reason (fun _ => 1) rejected)));
      [|exact Hnd].
    apply Permutation_map. symmetry. apply stable_sort_perm.
  - intros reason count Hin. apply slice_to_In in Hin.
    unfold sort_by_value_desc in Hin. apply stable_sort_In in Hin.
    pose proof (Hsum _ _ Hin) as Hc. rewrite sum_of_ones in Hc.
    split; [exact Hc|].
    assert (Hne : filter (fun r => (rejection_reason r =? reason)%string) rejected
                  <> []).
    { apply Hkeys. change reason with (fst (reason, count)). apply in_map, Hin. }
    rewrite Hc.
    destruct (filter (fun r => (rejection_reason r =? reason)%string) rejected);
      [contradiction | cbn [List.length]; lia].
  - apply filter_length_le.
  - apply filter_length_le.
Qed.

Lemma filter_complement_length {A : Type} (f g : A -> bool) (l : list A) :
  (forall x, g x = negb (f x)) ->
  (List.length (filter f l) + List.length (filter g l))%nat = List.length l.
Proof.
  intros Hfg. induction l as [|x l IH]; cbn; [reflexivity|].
  rewrite Hfg. destruct (f x); cbn; lia.
Qed.

Lemma filter_by_image_length {A B : Type} (g : A -> B) (p : B -> bool) (l : list A) :
  List.length (filter (fun x => p (g x)) l) = List.length (filter p (map g l)).
Proof. rewrite filter_map_commute, length_map. reflexivity. Qed.

(** X16.  In [get_project_statistics] the expired projects are those with no
    day left: [expired_projects] is their number, is never negative, and adds
    up with [active_projects] to [total_projects]; the successful projects
    are at most all.  A pledge, accepted or not, changes none of the total,
    active and expired counts nor [total_goal_amount]. *)
Theorem project_statistics_counts :
  forall (w : World disk) now user_id project_id amount reward_id t,
    let stats := get_project_statistics w t in
    let stats' :=
      get_project_statistics
        (fst (create_pledge w now user_id project_id amount reward_id)) t in
    expired_projects stats =
      Z.of_nat (List.length (filter (fun p => days_remaining p <=? 0)
                                    (get_all_projects w t))) /\
    0 <= expired_projects stats /\
    Z.of_nat (active_projects stats) + expired_projects stats =
      Z.of_nat (total_projects stats) /\
    (successful_projects stats <= total_projects stats)%nat /\
    total_projects stats' = total_projects stats /\
    active_projects stats' = active_projects stats /\
    expired_projects stats' = expired_projects stats /\
    total_goal_amount stats' = total_goal_amount stats.
Proof.
  intros w now user_id project_id amount reward_id t stats stats'.
  assert (Hsplit : forall l : list ProjectView,
            (List.length (filter (fun p => (0 <? days_remaining p)%Z) l)
             + List.length (filter (fun p => (days_remaining p <=? 0)%Z) l))%nat
            = List.length l).
  { intros l. apply filter_complement_length. intros x.
    destruct (Z.ltb_spec 0 (days_remaining x));
      destruct (Z.leb_spec (days_remaining x) 0); cbn; try reflexivity; lia. }
  assert (Hframe :
    map deadline (projects_file
                    (fst (create_pledge w now user_id project_id amount reward_id)))
      = map deadline (projects_file w) /\
    map goal_amount (projects_file
                       (fst (create_pledge w now user_id project_id amount
                               reward_id)))
      = map goal_amount (projects_file w)).
  { destruct (create_pledge_projects_after w now user_id project_id amount
                reward_id) as [(_ & Hp) | (_ & Ha)]; cbv zeta in *.
    - rewrite Hp. auto.
    - destruct (add_amount_shape _ _ _ _ Ha) as (_ & _ & Hd & Hg & _). auto. }
  destruct Hframe as (Hd & Hg).
  assert (Hactive : forall w0 : World disk,
            active_projects (get_project_statistics w0 t) =
            List.length
              (filter (fun d => 0 <? _calculate_days_remaining t d)
                      (map deadline (projects_file w0)))).
  { intros w0. unfold get_project_statistics, get_all_projects.
    cbn [active_projects _load_data disk_storage].
    rewrite <- filter_by_image_length, filter_map_commute, length_map.
    reflexivity. }
  assert (Htotal : forall w0 : World disk,
            total_projects (get_project_statistics w0 t) =
            List.length (map deadline (projects_file w0))).
  { intros w0. unfold get_project_statistics, get_all_projects.
    cbn [total_projects _load_data disk_storage]. rewrite !length_map.
    reflexivity. }
  assert (Hgoal : forall w0 : World disk,
            total_goal_amount (get_project_statistics w0 t) =
            fold_left Z.add (map goal_amount (projects_file w0)) 0).
  { intros w0. unfold get_project_statistics, get_all_projects.
    cbn [total_goal_amount _load_data disk_storage]. rewrite map_map.
    reflexivity. }
  assert (Hexp : forall w0 : World disk,
            expired_projects (get_project_statistics w0 t) =
            Z.of_nat (total_projects (get_project_statistics w0 t))
            - Z.of_nat (active_projects (get_project_statistics w0 t)))
    by reflexivity.
  subst stats stats'.
  specialize (Hsplit (get_all_projects w t)).
  assert (Hsucc : (successful_projects (get_project_statistics w t)
                   <= total_projects (get_project_statistics w t))%nat)
    by apply filter_length_le.
  repeat split.
  - rewrite Hexp. unfold get_project_statistics at 1 2.
    cbn [total_projects active_projects]. lia.
  - rewrite Hexp. unfold get_project_statistics at 1 2.
    cbn [total_projects active_projects].
    pose proof (filter_length_le (fun p => 0 <? days_remaining p)
                  (get_all_projects w t)). lia.
  - rewrite Hexp. lia.
  - exact Hsucc.
  - rewrite !Htotal, Hd. reflexivity.
  - rewrite !Hactive, Hd. reflexivity.
  - rewrite !Hexp, !Htotal, !Hactive, Hd. reflexivity.
  - rewrite !Hgoal, Hg. reflexivity.
Qed.

(** ** The profile page *)

Lemma nodup_nil_iff (l : list string) : nodup string_dec l = [] <-> l = [].
Proof.
  split; [|intros ->; reflexivity].
  destruct l as [|x l]; [reflexivity|]. intros H. exfalso.
  assert (Hin : In x (nodup string_dec (x :: l)))
    by (apply nodup_In; left; reflexivity).
  rewrite H in Hin. destruct Hin.
Qed.

(** X18.  The profile page of a logged-in user lists exactly that user's
    successful pledges; its total is the sum of their amounts (the same sum
    that ranks the user among the top backers), and the number of projects
    backed is at most the number of pledges and is 0 exactly when there are
    none.  Without a session there is no page. *)
Theorem profile_page_totals :
  forall (F : Type -> Type) (storage : Storage F) (w : World F) now user_id,
    user_profile w now None = None /\
    exists page,
      user_profile w now (Some user_id) = Some page /\
      page_user page = get_user_by_id w user_id /\
      map up_pledge (page_pledges page) =
        pledges_of user_id (_load_data (pledges_file w)) /\
      page_total_pledged page = total_of user_id (_load_data (pledges_file w)) /\
      (page_projects_backed page <= List.length (page_pledges page))%nat /\
      (page_projects_backed page = 0%nat <-> page_pledges page = []).
Proof.
  intros F storage w now user_id. split; [reflexivity|].
  eexists. split; [reflexivity|]. cbn [page_user page_pledges page_total_pledged
                                    page_projects_backed].
  split; [reflexivity|].
  assert (Hmap : map up_pledge (get_user_pledges w now user_id) =
                 pledges_of user_id (_load_data (pledges_file w))).
  { unfold get_user_pledges. rewrite map_map. cbn [up_pledge]. apply map_id. }
  split; [exact Hmap|]. split; [|split].
  - unfold total_of. rewrite <- Hmap, map_map. reflexivity.
  - rewrite <- (length_map (fun p => pl_project_id (up_pledge p))).
    apply NoDup_incl_length; [apply NoDup_nodup|].
    intros x Hx. apply nodup_In in Hx. exact Hx.
  - rewrite length_zero_iff_nil, nodup_nil_iff.
    split; [apply map_eq_nil | intros ->; reflexivity].
Qed.

(** ** The ranking of backers *)

(** X19.  When [limit] is at least the number of different backers, nobody is
    cut off: every user who has a successful pledge and is known to the User
    Directory is in the result of [get_top_backers], with the sum and the
    number of their pledges. *)
Theorem every_known_backer_is_ranked :
  forall (F : Type -> Type) (storage : Storage F) (w : World F) (limit : Z)
         pledge user,
    let pledges := _load_data (pledges_file w) in
    Z.of_nat (List.length (user_totals pledges)) <= limit ->
    In pledge pledges ->
    get_user_by_id w (pl_user_id pledge) = Some user ->
    In (mkBacker (full_name user) (username user)
          (total_of (pl_user_id pledge) pledges)
          (List.length (pledges_of (pl_user_id pledge) pledges)))
       (get_top_backers w limit).
Proof.
  intros F storage w limit pledge user pledges Hlimit Hin Huser.
  destruct (user_totals_spec pledges) as (_ & Hkeys & Hsum).
  assert (Hkey : In (pl_user_id pledge) (map fst (user_totals pledges))).
  { apply Hkeys. intros Hnil.
    assert (Hp : In pledge (pledges_of (pl_user_id pledge) pledges)).
    { apply filter_In. split; [exact Hin | apply String.eqb_refl]. }
    rewrite Hnil in Hp. destruct Hp. }
  apply in_map_iff in Hkey. destruct Hkey as ([uid total] & Huid & Hentry).
  cbn in Huid. subst uid. pose proof (Hsum _ _ Hentry) as ->.
  unfold get_top_backers. fold pledges. apply in_flat_map.
  exists (pl_user_id pledge, total_of (pl_user_id pledge) pledges). split.
  - unfold slice_to. destruct (Z.leb_spec 0 limit); [|lia].
    rewrite firstn_all2.
    + unfold sort_by_value_desc. apply stable_sort_In, Hentry.
    + unfold sort_by_value_desc.
      rewrite (Permutation_length (stable_sort_perm _ _)). lia.
  - rewrite Huser. left. reflexivity.
Qed.

Lemma every_known_backer_is_ranked_witness :
  In (mkBacker "Carol Cook" "carol" 300 1) (get_top_backers Sample.backed 3).
Proof.
  apply (every_known_backer_is_ranked disk disk_storage Sample.backed 3
           (mkPledge "pledge_000003" "user_0003" "10001001" 300 None 1727000200)
           Sample.carol).
  - cbn. discriminate.
  - cbn. auto.
  - reflexivity.
Defined.

(** ** Files that cannot be written *)

(** X21.  A pledge can be settled without being recorded.  On storage whose
    writes may fail, when all checks pass but [pledges.json] cannot be
    written while [projects.json] can, [create_pledge] still returns success
    with a pledge identifier and adds the amount to the project, although
    neither pledge store has received a record. *)
Theorem settled_but_not_recorded :
  forall (w : World flaky) now user_id project_id amount reward_id project,
    get_project_by_id w now project_id = Some project ->
    0 < days_remaining project ->
    reward_rejection w project_id amount reward_id = None ->
    writable (pledges_file w) = false ->
    writable (projects_file w) = true ->
    let result := create_pledge w now user_id project_id amount reward_id in
    snd result =
      mkOutcome true "Pledge created successfully"
        (Some ("pledge_" ++
               format_06d (List.length (contents (pledges_file w)) + 1))%string) /\
    pledges_file (fst result) = pledges_file w /\
    rejected_pledges_file (fst result) = rejected_pledges_file w /\
    get_project_by_id (fst result) now project_id =
      Some (mkProjectView
              (with_amount (pv_project project)
                 (current_amount (pv_project project) + amount))
              (days_remaining project)).
Proof.
  intros w now user_id project_id amount reward_id project Hp Hd Hr Hwl Hwp result.
  subst result.
  rewrite (create_pledge_accepted w now user_id project_id amount reward_id
             project Hp Hd Hr).
  destruct (record_pledge_ledger w now user_id project_id amount reward_id)
    as (Hl & Hj & _).
  destruct (record_pledge_catalog w now user_id project_id amount reward_id)
    as (Hpf & _).
  cbv zeta in Hl, Hj, Hpf.
  split; [reflexivity|]. split; [|split; [exact Hj|]].
  - rewrite Hl. cbn. rewrite Hwl. reflexivity.
  - pose proof Hp as Hfind. unfold get_project_by_id, get_all_projects in Hfind.
    destruct (add_amount_found now project_id amount _ _ Hfind)
      as (projects' & Ha & Hf').
    rewrite Ha in Hpf.
    unfold get_project_by_id, get_all_projects. rewrite Hpf.
    cbn [_load_data _save_data flaky_storage]. rewrite Hwp.
    cbn [contents]. exact Hf'.
Qed.

Lemma settled_but_not_recorded_witness :
  success (snd (create_pledge Sample.read_only_ledger Sample.now0 "user_0001"
                  "10001001" 500 None)) = true /\
  pledges_file (fst (create_pledge Sample.read_only_ledger Sample.now0
                       "user_0001" "10001001" 500 None)) =
    pledges_file Sample.read_only_ledger /\
  get_project_by_id
    (fst (create_pledge Sample.read_only_ledger Sample.now0 "user_0001"
            "10001001" 500 None)) Sample.now0 "10001001" =
    Some (mkProjectView (with_amount Sample.smart_home 36250) 45).
Proof.
  destruct (settled_but_not_recorded Sample.read_only_ledger Sample.now0
              "user_0001" "10001001" 500 None
              (mkProjectView Sample.smart_home 45)
              eq_refl eq_refl eq_refl eq_refl eq_refl) as (Hout & Hl & _ & Hp).
  split; [rewrite Hout; reflexivity|]. split; [exact Hl | exact Hp].
Defined.

(** ** The last unit of a tier *)

Lemma select_reward_stored {F} {storage : Storage F} (w : World F)
  project_id rid tier :
  select_reward w project_id rid = Some tier ->
  In tier (_load_data (rewards_file w)) /\ r_id tier = rid /\
  r_project_id tier = project_id.
Proof.
  unfold select_reward, get_reward_tiers. intros Hf.
  apply find_some in Hf. destruct Hf as (Hin & Hid).
  apply stable_sort_In, filter_In in Hin. destruct Hin as (Hin & Hpj).
  apply String.eqb_eq in Hid, Hpj. auto.
Qed.

Lemma tier_after_settlement {F} {storage : Storage F} (w : World F) now user_id
  project_id amount rid tier :
  write_lands (rewards_file w) ->
  NoDup (map r_id (_load_data (rewards_file w))) ->
  truthy (Some rid) = Some rid ->
  select_reward w project_id rid = Some tier ->
  0 < remaining_quota tier ->
  select_reward
    (fst (record_pledge w now user_id project_id amount (Some rid)))
    project_id rid = Some (with_quota tier (remaining_quota tier - 1)).
Proof.
  intros Hwrite Hnd Ht Hsel Hq.
  destruct (record_pledge_catalog w now user_id project_id amount (Some rid))
    as (_ & Hrf).
  cbv zeta in Hrf. rewrite Ht in Hrf.
  destruct (select_reward_stored w project_id rid tier Hsel) as (Hin & Hid & Hpj).
  rewrite (take_quota_unique rid 1 tier _ Hnd Hin Hid Hq) in Hrf.
  unfold select_reward, get_reward_tiers. rewrite Hrf, Hwrite.
  rewrite tiers_after_claim, find_map_commute.
  rewrite (find_pointwise _ (fun reward => (r_id reward =? rid)%string))
    by (intros r; rewrite claim_unit_id; reflexivity).
  unfold select_reward, get_reward_tiers in Hsel.
  rewrite Hsel. cbn. unfold claim_unit. rewrite Hid, String.eqb_refl.
  reflexivity.
Qed.

(** X22.  The last unit of a tier goes to one backer.  With unique tier
    identifiers and a write to [reward_tiers.json] that lands, once a pledge
    for a tier with [remaining_quota = 1] has succeeded, the tier stands at 0,
    and every later pledge for it against the still active project whose
    amount reaches the minimum is rejected with "Selected reward tier is sold
    out". *)
Theorem last_unit_is_taken_once :
  forall (F : Type -> Type) (storage : Storage F) (w : World F)
         now user_id project_id amount rid tier
         later user_id' amount' project',
    write_lands (rewards_file w) ->
    NoDup (map r_id (_load_data (rewards_file w))) ->
    rid <> ""%string ->
    select_reward w project_id rid = Some tier ->
    remaining_quota tier = 1 ->
    let first := create_pledge w now user_id project_id amount (Some rid) in
    success (snd first) = true ->
    get_project_by_id (fst first) later project_id = Some project' ->
    0 < days_remaining project' ->
    min_amount tier <= amount' ->
    select_reward (fst first) project_id rid = Some (with_quota tier 0) /\
    snd (create_pledge (fst first) later user_id' project_id amount' (Some rid)) =
      mkOutcome false sold_out None.
Proof.
  intros F storage w now user_id project_id amount rid tier later user_id' amount'
    project' Hwrite Hnd Hne Hsel Hone first Hs Hp' Hd' Hmin.
  subst first.
  assert (Ht : truthy (Some rid) = Some rid).
  { unfold truthy. destruct (String.eqb_spec rid ""); [contradiction|reflexivity]. }
  destruct (create_pledge_success w now user_id project_id amount (Some rid) Hs)
    as (_ & Heq).
  rewrite Heq in *.
  assert (Hafter : select_reward
                     (fst (record_pledge w now user_id project_id amount (Some rid)))
                     project_id rid = Some (with_quota tier 0)).
  { rewrite (tier_after_settlement w now user_id project_id amount rid tier
               Hwrite Hnd Ht Hsel); [|lia].
    rewrite Hone. reflexivity. }
  split; [exact Hafter|].
  unfold create_pledge. rewrite Hp'.
  destruct (Z.leb_spec (days_remaining project') 0); [lia|].
  unfold reward_rejection. rewrite Ht, Hafter. cbn [min_amount with_quota
                                                     remaining_quota].
  destruct (Z.ltb_spec amount' (min_amount tier)); [lia|].
  cbn. reflexivity.
Qed.

Lemma last_unit_is_taken_once_witness :
  snd (create_pledge
         (fst (create_pledge
                 (set_rewards Sample.read_only_ledger
                    (mkFlaky
                       [mkRewardTier "reward_5" "10001001" "Premium Package" 1000 1]
                       true))
                 Sample.now0 "user_0001" "10001001" 1500 (Some "reward_5"%string)))
         Sample.now0 "user_0002" "10001001" 2000 (Some "reward_5"%string)) =
  mkOutcome false sold_out None.
Proof.
  refine (proj2 (last_unit_is_taken_once flaky flaky_storage
                   (set_rewards Sample.read_only_ledger
                      (mkFlaky
                         [mkRewardTier "reward_5" "10001001" "Premium Package" 1000 1]
                         true))
                   Sample.now0 "user_0001" "10001001" 1500 "reward_5"
                   (mkRewardTier "reward_5" "10001001" "Premium Package" 1000 1)
                   Sample.now0 "user_0002" 2000
                   (mkProjectView (with_amount Sample.smart_home 37250) 45)
                   _ _ _ eq_refl eq_refl eq_refl eq_refl eq_refl _)).
  - intros data. reflexivity.
  - repeat constructor. intros [].
  - discriminate.
  - discriminate.
Defined.

(** ** The User Directory *)

Lemma find_app {A : Type} (p : A -> bool) (l1 l2 : list A) :
  find p (l1 ++ l2) = match find p l1 with
                      | Some x => Some x
                      | None => find p l2
                      end.
Proof.
  induction l1 as [|x l1 IH]; cbn; [reflexivity|].
  destruct (p x); [reflexivity | exact IH].
Qed.

Lemma find_none_iff {A : Type} (p : A -> bool) (l : list A) :
  find p l = None <-> forall x, In x l -> p x = false.
Proof.
  split; [apply find_none|].
  induction l as [|x l IH]; cbn; intros H; [reflexivity|].
  rewrite (H x (or_introl eq_refl)). apply IH. intros y Hy. apply H. auto.
Qed.

Lemma existsb_false_iff {A : Type} (p : A -> bool) (l : list A) :
  existsb p l = false <-> forall x, In x l -> p x = false.
Proof.
  induction l as [|x l IH]; cbn.
  - split; [intros _ ? [] | reflexivity].
  - rewrite orb_false_iff, IH. split.
    + intros (Hx & Hl) y [<-|Hy]; auto.
    + intros H. split; [apply H; auto | intros y Hy; apply H; auto].
Qed.

(** The user records that the ledger reads are the stored ones without
    password, e-mail address and creation date. *)
Lemma directory_lookup_agrees (w : World disk) (accounts : list UserModel.Account) user_id :
  get_user_by_id (set_users w (map UserModel.directory_entry accounts)) user_id =
  option_map UserModel.directory_entry
    (find (fun user => (UserModel.acc_id user =? user_id)%string) accounts).
Proof.
  unfold get_user_by_id. cbn [set_users users_file _load_data disk_storage].
  apply find_map_commute.
Qed.

Section UserFacts.
Import UserModel.
Variable hash : string -> string.

(** [create_user], case by case. *)
Lemma create_user_cases {F} {storage : Storage F} (users_file : F Account)
  now username password email full_name :
  let users := _load_data users_file in
  let result := create_user hash users_file now username password email full_name in
  ((exists user, In user users /\ acc_username user = username) /\
   result = (users_file, mkRegistration false "Username already exists" None)) \/
  ((forall user, In user users -> acc_username user <> username) /\
   (exists user, In user users /\ acc_email user = email) /\
   result = (users_file, mkRegistration false "Email already exists" None)) \/
  ((forall user, In user users -> acc_username user <> username) /\
   (forall user, In user users -> acc_email user <> email) /\
   result =
     (_save_data
        (users ++
         [mkAccount ("user_" ++ format_04d (List.length users + 1)) username
            (hash password) email full_name (Some (strftime_seconds now))])
        users_file,
      mkRegistration true "User created successfully"
        (Some ("user_" ++ format_04d (List.length users + 1))%string))).
Proof.
  cbv zeta. unfold create_user.
  destruct (existsb (fun user => (acc_username user =? username)%string)
                    (_load_data users_file)) eqn:Hu.
  - left. apply existsb_exists in Hu. destruct Hu as (user & Hin & He).
    apply String.eqb_eq in He. eauto.
  - right.
    assert (Hfree : forall user, In user (_load_data users_file) ->
                                 acc_username user <> username).
    { intros user Hin He. apply String.eqb_eq in He.
      rewrite (proj1 (existsb_false_iff _ _) Hu user Hin) in He. discriminate. }
    destruct (existsb (fun user => (acc_email user =? email)%string)
                      (_load_data users_file)) eqn:Hm.
    + left. apply existsb_exists in Hm. destruct Hm as (user & Hin & He).
      apply String.eqb_eq in He. eauto 6.
    + right. split; [exact Hfree|]. split; [|reflexivity].
      intros user Hin He. apply String.eqb_eq in He.
      rewrite (proj1 (existsb_false_iff _ _) Hm user Hin) in He. discriminate.
Qed.

(** X23.  [create_user] refuses a user name or an e-mail address that is
    already stored, and then writes nothing.  A taken user name is reported as
    "Username already exists" even when the e-mail address is taken too; a
    taken address under a free name as "Email already exists"; the call
    succeeds exactly when both are free. *)
Theorem create_user_refuses_duplicates :
  forall (F : Type -> Type) (storage : Storage F) (users_file : F Account)
         now username password email full_name,
    let users := _load_data users_file in
    let result := create_user hash users_file now username password email full_name in
    (reg_success (snd result) = true <->
       (forall user, In user users ->
          acc_username user <> username /\ acc_email user <> email)) /\
    (reg_success (snd result) = false -> fst result = users_file) /\
    ((exists user, In user users /\ acc_username user = username) ->
       snd result = mkRegistration false "Username already exists" None) /\
    ((forall user, In user users -> acc_username user <> username) ->
     (exists user, In user users /\ acc_email user = email) ->
       snd result = mkRegistration false "Email already exists" None).
Proof.
  intros F storage users_file now username password email full_name users result.
  destruct (create_user_cases users_file now username password email full_name)
    as [((u & Hin & Hu) & Heq) | [(Hfree & (u & Hin & Hm) & Heq)
                                 | (Hfree & Hfree' & Heq)]];
    cbv zeta in Heq; subst result users; rewrite Heq; cbn [fst snd reg_success].
  - split; [|split; [reflexivity|split; [reflexivity|]]].
    + split; [discriminate|]. intros H. exfalso.
      apply (proj1 (H u Hin)). exact Hu.
    + intros H _. exfalso. apply (H u Hin). exact Hu.
  - split; [|split; [reflexivity|split; [|reflexivity]]].
    + split; [discriminate|]. intros H. exfalso.
      apply (proj2 (H u Hin)). exact Hm.
    + intros (u' & Hin' & Hu'). exfalso. apply (Hfree u' Hin'). exact Hu'.
  - split; [|split; [discriminate|split]].
    + split; [auto|reflexivity].
    + intros (u & Hin & Hu). exfalso. apply (Hfree u Hin). exact Hu.
    + intros _ (u & Hin & Hm). exfalso. apply (Hfree' u Hin). exact Hm.
Qed.

Lemma NoDup_snoc {A : Type} (l : list A) (x : A) :
  NoDup l -> ~ In x l -> NoDup (l ++ [x]).
Proof.
  intros Hnd Hx. apply NoDup_app; [exact Hnd | repeat constructor; intros [] |].
  intros y Hy [<-|[]]. contradiction.
Qed.

(** X24.  User names and e-mail addresses stay unique.  If no two stored
    users share a user name or an e-mail address, the same holds after
    [create_user]; the file is then either unchanged or has one more record,
    which holds the digest of the password, not the password it was given. *)
Theorem create_user_keeps_names_unique :
  forall (users_file : disk Account) now username password email full_name,
    NoDup (map acc_username users_file) ->
    NoDup (map acc_email users_file) ->
    let result := create_user hash users_file now username password email full_name in
    NoDup (map acc_username (fst result)) /\
    NoDup (map acc_email (fst result)) /\
    (fst result = users_file \/
     fst result =
       users_file ++
       [mkAccount ("user_" ++ format_04d (List.length users_file + 1)) username
          (hash password) email full_name (Some (strftime_seconds now))]).
Proof.
  intros users_file now username password email full_name Hu Hm result.
  destruct (create_user_cases users_file now username password email full_name)
    as [(_ & Heq) | [(_ & _ & Heq) | (Hfree & Hfree' & Heq)]];
    cbv zeta in Heq; subst result; rewrite Heq; cbn [fst _load_data _save_data
                                                     disk_storage].
  - auto.
  - auto.
  - rewrite !map_app. cbn [map acc_username acc_email].
    repeat split; [| |right; reflexivity].
    + apply NoDup_snoc; [exact Hu|]. intros Hin. apply in_map_iff in Hin.
      destruct Hin as (u & He & Hin). apply (Hfree u Hin He).
    + apply NoDup_snoc; [exact Hm|]. intros Hin. apply in_map_iff in Hin.
      destruct Hin as (u & He & Hin). apply (Hfree' u Hin He).
Qed.

End UserFacts.

Lemma create_user_keeps_names_unique_witness :
  NoDup (map UserModel.acc_username
           (fst (UserModel.create_user MoreSamples.toy_hash MoreSamples.accounts Sample.now0
                   "jane_smith" "password123" "jane.smith@email.com"
                   "Jane Smith"))).
Proof.
  refine (proj1 (create_user_keeps_names_unique MoreSamples.toy_hash
                   MoreSamples.accounts Sample.now0
                   "jane_smith" "password123" "jane.smith@email.com" "Jane Smith"
                   _ _)).
  - repeat constructor; cbn; intuition discriminate.
  - repeat constructor; cbn; intuition discriminate.
Defined.

Section AccountFacts.
Import UserModel.
Variable hash : string -> string.

(** X25.  A user who has just registered is recognised.  When the write to
    [users.json] lands, then after a successful [create_user] the file holds
    the users from before followed by the new one, and [authenticate] with the
    same user name and password returns the new user, without the password,
    under the identifier that [create_user] reported. *)
Theorem registered_user_can_log_in :
  forall (F : Type -> Type) (storage : Storage F) (users_file : F Account)
         now username password email full_name user_id,
    write_lands users_file ->
    let result := create_user hash users_file now username password email full_name in
    reg_user_id (snd result) = Some user_id ->
    _load_data (fst result) =
      _load_data users_file ++
      [mkAccount user_id username (hash password) email full_name
         (Some (strftime_seconds now))] /\
    authenticate hash (fst result) username password =
      Some (mkPublicUser user_id username email full_name
              (Some (strftime_seconds now))).
Proof.
  intros F storage users_file now username password email full_name user_id
    Hwrite result Hid.
  destruct (create_user_cases hash users_file now username password email
              full_name)
    as [(_ & Heq) | [(_ & _ & Heq) | (Hfree & _ & Heq)]];
    cbv zeta in Heq; subst result; rewrite Heq in *;
    cbn [snd reg_user_id] in Hid; try discriminate.
  injection Hid as <-. cbn [fst].
  split; [apply Hwrite|].
  unfold authenticate. rewrite Hwrite, find_app.
  assert (Hnone : find (fun user => ((acc_username user =? username)%string
                                     && (acc_password user =? hash password)%string)%bool)
                       (_load_data users_file) = None).
  { apply find_none_iff. intros u Hin.
    destruct (String.eqb_spec (acc_username u) username) as [He|_];
      [exfalso; apply (Hfree u Hin He) | reflexivity]. }
  rewrite Hnone. cbn [find acc_username acc_password].
  rewrite !String.eqb_refl. reflexivity.
Qed.

Lemma users_numbered_from_snoc (n : nat) (ids : list string) (id : string) :
  users_numbered_from n ids ->
  id = ("user_" ++ format_04d (n + List.length ids))%string ->
  users_numbered_from n (ids ++ [id]).
Proof.
  revert n. induction ids as [|x ids IH]; cbn; intros n Hn Hid.
  - rewrite Nat.add_0_r in Hid. auto.
  - destruct Hn as (Hx & Hrest). split; [exact Hx|].
    apply IH; [exact Hrest|]. rewrite Hid.
    replace (n + S (List.length ids))%nat with (S n + List.length ids)%nat by lia.
    reflexivity.
Qed.

Lemma users_numbered_from_In (n : nat) (ids : list string) (id : string) :
  users_numbered_from n ids -> In id ids ->
  exists k, (n <= k < n + List.length ids)%nat /\
            id = ("user_" ++ format_04d k)%string.
Proof.
  revert n. induction ids as [|x ids IH]; cbn; intros n Hn Hin; [contradiction|].
  destruct Hn as (Hx & Hrest). destruct Hin as [<-|Hin].
  - exists n. split; [lia | exact Hx].
  - destruct (IH (S n) Hrest Hin) as (k & Hk & Hid). exists k. split; [lia|exact Hid].
Qed.

Lemma user_id_inj (n m : nat) :
  ("user_" ++ format_04d n)%string = ("user_" ++ format_04d m)%string -> n = m.
Proof.
  cbn. intros H. injection H as H. apply (zero_pad_inj 4). exact H.
Qed.

Lemma users_numbered_from_NoDup (n : nat) (ids : list string) :
  users_numbered_from n ids -> NoDup ids.
Proof.
  revert n. induction ids as [|x ids IH]; cbn; intros n Hn; [constructor|].
  destruct Hn as (Hx & Hrest). constructor; [|eauto].
  intros Hin.
  destruct (users_numbered_from_In (S n) ids x Hrest Hin) as (k & Hk & Hid).
  rewrite Hx in Hid. apply user_id_inj in Hid. lia.
Qed.

(** X26.  User identifiers are handed out in sequence.  When the write to
    [users.json] lands or leaves the file as it was: if the file holds
    [user_0001], [user_0002], ... in order, it still does after
    [create_user], so no identifier is stored twice.  When the write lands,
    the identifier that a successful [create_user] reports resolves, through
    [get_user_by_id], to the user just created, without the password. *)
Theorem user_ids_stay_sequential :
  forall (F : Type -> Type) (storage : Storage F) (users_file : F Account)
         now username password email full_name,
    write_lands_or_not users_file ->
    users_numbered_from 1 (map acc_id (_load_data users_file)) ->
    let result := create_user hash users_file now username password email full_name in
    users_numbered_from 1 (map acc_id (_load_data (fst result))) /\
    NoDup (map acc_id (_load_data (fst result))) /\
    (forall user_id,
       write_lands users_file ->
       reg_user_id (snd result) = Some user_id ->
       get_user_by_id (fst result) user_id =
         Some (mkPublicUser user_id username email full_name
                 (Some (strftime_seconds now)))).
Proof.
  intros F storage users_file now username password email full_name Hwrite Hseq
    result.
  assert (Hafter : users_numbered_from 1 (map acc_id (_load_data (fst result)))).
  { destruct (create_user_cases hash users_file now username password email
                full_name)
      as [(_ & Heq) | [(_ & _ & Heq) | (_ & _ & Heq)]];
      cbv zeta in Heq; subst result; rewrite Heq; cbn [fst]; try exact Hseq.
    destruct (Hwrite
                (_load_data users_file ++
                 [mkAccount
                    ("user_" ++ format_04d (List.length (_load_data users_file) + 1))
                    username (hash password) email full_name
                    (Some (strftime_seconds now))])) as [-> | ->];
      [|exact Hseq].
    rewrite map_app. cbn [map acc_id].
    apply users_numbered_from_snoc; [exact Hseq|].
    rewrite length_map.
    replace (List.length (_load_data users_file) + 1)%nat
      with (1 + List.length (_load_data users_file))%nat by lia.
    reflexivity. }
  split; [exact Hafter|]. split; [apply (users_numbered_from_NoDup 1), Hafter|].
  intros user_id Hlands Hid.
  destruct (create_user_cases hash users_file now username password email
              full_name)
    as [(_ & Heq) | [(_ & _ & Heq) | (_ & _ & Heq)]];
    cbv zeta in Heq; subst result; rewrite Heq in *;
    cbn [snd reg_user_id] in Hid; try discriminate.
  assert (user_id =
          ("user_" ++ format_04d (List.length (_load_data users_file) + 1))%string)
    as -> by (injection Hid; auto).
  unfold get_user_by_id. cbn [fst]. rewrite Hlands, find_app.
  assert (Hnone : find (fun user =>
                          (acc_id user =?
                           "user_" ++
                           format_04d (List.length (_load_data users_file) + 1))%string)
                       (_load_data users_file) = None).
  { apply find_none_iff. intros u Hin.
    destruct (String.eqb_spec (acc_id u)
                ("user_" ++
                 format_04d (List.length (_load_data users_file) + 1))%string)
      as [He|_]; [|reflexivity].
    exfalso.
    destruct (users_numbered_from_In 1 (map acc_id (_load_data users_file))
                (acc_id u) Hseq (in_map acc_id _ _ Hin)) as (k & Hk & Hk').
    rewrite He in Hk'. apply user_id_inj in Hk'.
    rewrite length_map in Hk. lia. }
  rewrite Hnone. cbn [find acc_id]. rewrite String.eqb_refl. reflexivity.
Qed.

(** X27.  [authenticate] only returns a stored user whose user name is the
    one given and whose stored password is the digest of the password given,
    and returns nothing when no stored user has that name.  [login] either
    leaves the session as it was or opens a session under an identifier
    that [authenticate] returned for exactly these credentials. *)
Theorem authenticate_is_sound :
  forall (F : Type -> Type) (storage : Storage F) (users_file : F Account)
         session username password,
    (forall user,
       authenticate hash users_file username password = Some user ->
       exists account,
         In account (_load_data users_file) /\ user = public account /\
         acc_username account = username /\
         acc_password account = hash password) /\
    ((forall account, In account (_load_data users_file) ->
                      acc_username account <> username) ->
     authenticate hash users_file username password = None) /\
    (fst (login hash users_file session username password) = session \/
     exists user,
       authenticate hash users_file username password = Some user /\
       pub_username user = username /\
       fst (login hash users_file session username password) =
         Some (mkSession (pub_id user) username (pub_full_name user))).
Proof.
  intros F storage users_file session username password.
  assert (Hsound : forall user,
            authenticate hash users_file username password = Some user ->
            exists account,
              In account (_load_data users_file) /\ user = public account /\
              acc_username account = username /\
              acc_password account = hash password).
  { unfold authenticate. intros user H.
    destruct (find _ (_load_data users_file)) as [account|] eqn:Hf;
      [|discriminate].
    injection H as <-. apply find_some in Hf. destruct Hf as (Hin & Hc).
    apply andb_prop in Hc. destruct Hc as (Hu & Hp).
    apply String.eqb_eq in Hu, Hp. eauto 6. }
  split; [exact Hsound|]. split.
  - intros Hfree. unfold authenticate.
    rewrite (proj2 (find_none_iff _ _)); [reflexivity|].
    intros u Hin. destruct (String.eqb_spec (acc_username u) username) as [He|_];
      [exfalso; apply (Hfree u Hin He) | reflexivity].
  - unfold login.
    destruct ((username =? "")%string || (password =? "")%string)%bool;
      [left; reflexivity|].
    destruct (authenticate hash users_file username password) as [user|] eqn:Ha;
      [|left; reflexivity].
    right. exists user. split; [reflexivity|].
    destruct (Hsound user eq_refl) as (account & _ & -> & Hu & _).
    cbn [public pub_username pub_id pub_full_name fst]. rewrite Hu. auto.
Qed.

Lemma fresh_timestamp_is_today (now : datetime) :
  timedelta_days (now - strptime_seconds (strftime_seconds now)) = 0.
Proof.
  unfold timedelta_days, strptime_seconds, strftime_seconds, US_PER_DAY,
    US_PER_SECOND.
  apply Z.div_small. Z.div_mod_to_equations. lia.
Qed.

(** X28.  In [get_user_statistics] the total and the active users are both
    the number of stored users, and the recent users are at most that many;
    a user whose creation date does not parse is never recent.  A user who
    has just been created counts at once: when the write to [users.json]
    lands, then after a successful [create_user] at some moment the
    statistics of that moment show one more user and one more recent user;
    after a refused [create_user] they are what they were. *)
Theorem new_user_counts_as_recent :
  forall (F : Type -> Type) (storage : Storage F) (users_file : F Account)
         now username password email full_name,
    write_lands users_file ->
    let before := get_user_statistics users_file now in
    let result := create_user hash users_file now username password email full_name in
    let after := get_user_statistics (fst result) now in
    total_users before = List.length (_load_data users_file) /\
    active_users before = total_users before /\
    (recent_users before <= total_users before)%nat /\
    recent_users before =
      List.length
        (filter (fun user =>
                   match acc_created_date user with
                   | Some created =>
                       timedelta_days (now - strptime_seconds created) <=? 30
                   | None => false
                   end) (_load_data users_file)) /\
    if reg_success (snd result)
    then total_users after = S (total_users before) /\
         recent_users after = S (recent_users before)
    else after = before.
Proof.
  intros F storage users_file now username password email full_name Hwrite
    before result after.
  assert (Hrecent : forall file : F Account,
            recent_users (get_user_statistics file now) =
            List.length
              (filter (fun user =>
                         match acc_created_date user with
                         | Some created =>
                             timedelta_days (now - strptime_seconds created) <=? 30
                         | None => false
                         end) (_load_data file))).
  { intros file. unfold get_user_statistics, get_all_users.
    cbn [recent_users].
    rewrite filter_map_commute, length_map. reflexivity. }
  assert (Htotal : forall file : F Account,
            total_users (get_user_statistics file now) =
            List.length (_load_data file)).
  { intros file. unfold get_user_statistics, get_all_users.
    cbn [total_users]. apply length_map. }
  subst before after.
  split; [apply Htotal|]. split; [reflexivity|]. split.
  { rewrite Hrecent, Htotal. apply filter_length_le. }
  split; [apply Hrecent|].
  destruct (create_user_cases hash users_file now username password email
              full_name)
    as [(_ & Heq) | [(_ & _ & Heq) | (_ & _ & Heq)]];
    cbv zeta in Heq; subst result; rewrite Heq;
    cbn [fst snd reg_success]; try reflexivity.
  rewrite !Htotal, !Hrecent, Hwrite, length_app, filter_app, length_app.
  cbn [filter acc_created_date List.length].
  rewrite fresh_timestamp_is_today. cbn. split; lia.
Qed.

End AccountFacts.

Lemma registered_user_can_log_in_witness :
  UserModel.authenticate MoreSamples.toy_hash
    (fst (UserModel.create_user MoreSamples.toy_hash
            (mkFlaky MoreSamples.accounts true)
            Sample.now0 "jane_smith" "password123" "jane.smith@email.com"
            "Jane Smith"))
    "jane_smith" "password123" =
  Some (UserModel.mkPublicUser "user_0003" "jane_smith" "jane.smith@email.com"
          "Jane Smith" (Some (strftime_seconds Sample.now0))).
Proof.
  refine (proj2 (registered_user_can_log_in MoreSamples.toy_hash flaky
                   flaky_storage (mkFlaky MoreSamples.accounts true)
                   Sample.now0 "jane_smith" "password123"
                   "jane.smith@email.com" "Jane Smith" "user_0003" _ eq_refl)).
  intros data. reflexivity.
Defined.

Lemma user_ids_stay_sequential_witness :
  NoDup (map UserModel.acc_id
           (contents
              (fst (UserModel.create_user MoreSamples.toy_hash
                      (mkFlaky MoreSamples.accounts false)
                      Sample.now0 "jane_smith" "password123"
                      "jane.smith@email.com" "Jane Smith")))).
Proof.
  refine (proj1 (proj2 (user_ids_stay_sequential MoreSamples.toy_hash flaky
                          flaky_storage (mkFlaky MoreSamples.accounts false)
                          Sample.now0 "jane_smith"
                          "password123" "jane.smith@email.com" "Jane Smith" _ _))).
  - intros data. right. reflexivity.
  - cbn. auto.
Defined.

Lemma new_user_counts_as_recent_witness :
  UserModel.total_users
    (UserModel.get_user_statistics
       (fst (UserModel.create_user MoreSamples.toy_hash
               (mkFlaky MoreSamples.accounts true)
               Sample.now0 "jane_smith" "password123" "jane.smith@email.com"
               "Jane Smith")) Sample.now0) = 3%nat.
Proof.
  pose proof (new_user_counts_as_recent MoreSamples.toy_hash flaky flaky_storage
                (mkFlaky MoreSamples.accounts true) Sample.now0 "jane_smith"
                "password123" "jane.smith@email.com" "Jane Smith"
                (fun data => eq_refl)) as (Htotal & _ & _ & _ & Hafter).
  cbv zeta in Hafter. cbn [UserModel.reg_success snd] in Hafter.
  change (UserModel.reg_success
            (snd (UserModel.create_user MoreSamples.toy_hash
                    (mkFlaky MoreSamples.accounts true) Sample.now0 "jane_smith"
                    "password123" "jane.smith@email.com" "Jane Smith")))
    with true in Hafter.
  destruct Hafter as (Hafter & _). rewrite Hafter, Htotal. reflexivity.
Defined.

(** * Properties of the ledger over the stored objects *)

Section ResultFacts.
Import Json.

Lemma map_result_In {T U : Type} (f : T -> result U) l ys y :
  map_result f l = Return ys -> In y ys -> exists x, In x l /\ f x = Return y.
Proof.
  revert ys. induction l as [|x l IH]; cbn; intros ys H Hin.
  - injection H as <-. destruct Hin.
  - destruct (f x) as [v|e] eqn:Hx; cbn in H; [|discriminate].
    destruct (map_result f l) as [vs|e]; cbn in H; [|discriminate].
    injection H as <-. destruct Hin as [<-|Hin]; [eauto|].
    destruct (IH vs eq_refl Hin) as (x' & Hx' & Hf). eauto.
Qed.

Lemma filter_result_In {T : Type} (p : T -> result bool) l kept x :
  filter_result p l = Return kept -> In x kept -> In x l /\ p x = Return true.
Proof.
  revert kept. induction l as [|y l IH]; cbn; intros kept H Hin.
  - injection H as <-. destruct Hin.
  - destruct (p y) as [keep|e] eqn:Hy; cbn in H; [|discriminate].
    destruct (filter_result p l) as [ks|e]; cbn in H; [|discriminate].
    injection H as <-. destruct keep.
    + destruct Hin as [<-|Hin]; [auto|]. destruct (IH ks eq_refl Hin). auto.
    + destruct (IH ks eq_refl Hin). auto.
Qed.

Lemma find_result_Some {T : Type} (p : T -> result bool) l x :
  find_result p l = Return (Some x) -> In x l /\ p x = Return true.
Proof.
  induction l as [|y l IH]; cbn; [discriminate|].
  destruct (p y) as [[|]|e] eqn:Hy; cbn; try discriminate.
  - intros [= <-]. auto.
  - intros H. destruct (IH H). auto.
Qed.

End ResultFacts.

Section StoredCatalog.
Import Json.
Context {A : Type} {number : Number A} {F : Type -> Type} {storage : Storage F}.

Lemma computed_Return (now : datetime) (project : Project A) view :
  computed now project = Return view ->
  pv_project view = project /\
  exists current, current_amount project = Some current.
Proof.
  unfold computed.
  destruct (deadline project) as [d|]; cbn; [|discriminate].
  destruct (current_amount project) as [c|]; cbn; [|discriminate].
  destruct (goal_amount project) as [g|]; cbn; [|discriminate].
  destruct (_calculate_progress_percentage c g); cbn; [|discriminate].
  intros [= <-]. split; [reflexivity | eauto].
Qed.

(** The project that [get_project_by_id] returns is the first stored object
    with that identifier, and [update_project_amount] rewrites that one. *)
Lemma found_project_is_settled (now : datetime) project_id (amount : A)
  (projects : list (Project A)) views project :
  map_result (computed now) projects = Return views ->
  find_result (fun view => id <- item "id" (p_id (pv_project view)) ;;
                           Return (id =? project_id)%string) views
    = Return (Some project) ->
  exists before after current,
    projects = before ++ pv_project project :: after /\
    Forall (fun p => exists id, p_id p = Some id /\ id <> project_id) before /\
    p_id (pv_project project) = Some project_id /\
    current_amount (pv_project project) = Some current /\
    add_amount project_id amount projects =
      Return (Some (before ++
                    with_amount (pv_project project) (num_add current amount)
                    :: after)).
Proof.
  revert views. induction projects as [|p rest IH]; cbn; intros views Hv Hf.
  - injection Hv as <-. discriminate Hf.
  - destruct (computed now p) as [v|e] eqn:Hc; cbn in Hv; [|discriminate].
    destruct (map_result (computed now) rest) as [vs|e] eqn:Hrest; cbn in Hv;
      [|discriminate].
    injection Hv as <-. cbn in Hf.
    destruct (computed_Return now p v Hc) as (Hpv & c & Hcur).
    rewrite Hpv in Hf.
    destruct (p_id p) as [id|] eqn:Hid; cbn in Hf |- *; [|discriminate].
    destruct (String.eqb_spec id project_id) as [He|Hne].
    + injection Hf as <-. rewrite Hpv. subst id.
      exists [], rest, c. rewrite Hcur. cbn. repeat split; auto.
    + destruct (IH vs eq_refl Hf)
        as (before & after & current & Hsplit & Hbefore & Hpid & Hcurrent & Hadd).
      exists (p :: before), after, current. rewrite Hadd. cbn.
      repeat split; auto.
      * rewrite Hsplit. reflexivity.
      * constructor; [eauto | exact Hbefore].
Qed.

Lemma get_project_by_id_settled (w : World F A) now project_id (amount : A) project :
  get_project_by_id w now project_id = Return (Some project) ->
  exists before after current,
    _load_data (projects_file w) = before ++ pv_project project :: after /\
    Forall (fun p => exists id, p_id p = Some id /\ id <> project_id) before /\
    p_id (pv_project project) = Some project_id /\
    current_amount (pv_project project) = Some current /\
    add_amount project_id amount (_load_data (projects_file w)) =
      Return (Some (before ++
                    with_amount (pv_project project) (num_add current amount)
                    :: after)).
Proof.
  unfold get_project_by_id, get_all_projects.
  destruct (map_result (computed now) (_load_data (projects_file w)))
    as [views|e] eqn:Hv; cbn; [|discriminate].
  intros Hf. eapply found_project_is_settled; eauto.
Qed.

(** The tiers that [get_reward_tiers] returns have their sort key. *)
Lemma get_reward_tiers_In (w : World F A) project_id tiers tier :
  get_reward_tiers w project_id = Return tiers -> In tier tiers ->
  In tier (_load_data (rewards_file w)) /\
  r_project_id tier = Some project_id /\
  exists min, min_amount tier = Some min.
Proof.
  unfold get_reward_tiers.
  destruct (filter_result _ (_load_data (rewards_file w))) as [kept|e] eqn:Hk;
    cbn; [|discriminate].
  destruct (map_result _ kept) as [keyed|e] eqn:Hm; cbn; [|discriminate].
  intros [= <-] Hin. apply in_map_iff in Hin.
  destruct Hin as ([key r] & Heq & Hin). cbn in Heq. subst r.
  apply stable_sort_In in Hin.
  destruct (map_result_In _ _ _ _ Hm Hin) as (r & Hr & Hkey).
  destruct (min_amount r) as [m|] eqn:Hmin; cbn in Hkey; [|discriminate].
  injection Hkey as <- <-.
  destruct (filter_result_In _ _ _ _ Hk Hr) as (Hfile & Howner).
  destruct (r_project_id r) as [owner|]; cbn in Howner; [|discriminate].
  injection Howner as Howner. apply String.eqb_eq in Howner. subst owner.
  eauto.
Qed.

Lemma stored_select_reward_In (w : World F A) project_id reward_id tier :
  select_reward w project_id reward_id = Return (Some tier) ->
  In tier (_load_data (rewards_file w)) /\
  r_id tier = Some reward_id /\
  r_project_id tier = Some project_id /\
  exists min, min_amount tier = Some min.
Proof.
  unfold select_reward.
  destruct (get_reward_tiers w project_id) as [tiers|e] eqn:Ht; cbn; [|discriminate].
  intros Hf. apply find_result_Some in Hf. destruct Hf as (Hin & Hid).
  destruct (get_reward_tiers_In w project_id tiers tier Ht Hin) as (Hfile & Hp & Hm).
  destruct (r_id tier) as [id|]; cbn in Hid; [|discriminate].
  injection Hid as Hid. apply String.eqb_eq in Hid. subst id. auto.
Qed.

End StoredCatalog.

Section StoredLedger.
Import Json.
Context {A : Type} {number : Number A} {F : Type -> Type} {storage : Storage F}.

(** A call that passes the first two checks and selects no reward. *)
Lemma create_pledge_without_reward (w : World F A) now user_id project_id
  (amount : A) reward_id project projects' :
  get_project_by_id w now project_id = Return (Some project) ->
  0 < days_remaining project ->
  truthy reward_id = None ->
  add_amount project_id amount (_load_data (projects_file w)) =
    Return (Some projects') ->
  create_pledge w now user_id project_id amount reward_id =
    (mkWorld (_save_data projects' (projects_file w)) (rewards_file w)
       (_save_data
          (_load_data (pledges_file w) ++
           [mkPledge
              ("pledge_" ++
               format_06d (List.length (_load_data (pledges_file w)) + 1))
              user_id project_id amount None (strftime_seconds now)])
          (pledges_file w))
       (rejected_pledges_file w),
     mkOutcome true "Pledge created successfully"
       (Some ("pledge_" ++
              format_06d (List.length (_load_data (pledges_file w)) + 1))%string)).
Proof.
  intros Hp Hd Ht Ha.
  unfold create_pledge, try_block. rewrite Hp.
  destruct (Z.leb_spec (days_remaining project) 0); [lia|].
  unfold reward_rejection. rewrite Ht.
  unfold record_pledge, update_project_amount. rewrite Ht.
  cbn [set_pledges projects_file]. rewrite Ha. reflexivity.
Qed.

(** The rejections of the reward checks, for a tier that resolves. *)
Lemma create_pledge_with_tier (w : World F A) now user_id project_id
  (amount : A) reward_id rid project tier min :
  get_project_by_id w now project_id = Return (Some project) ->
  0 < days_remaining project ->
  truthy reward_id = Some rid ->
  select_reward w project_id rid = Return (Some tier) ->
  min_amount tier = Some min ->
  create_pledge w now user_id project_id amount reward_id =
    if num_ltb amount min
    then _reject_pledge w now user_id project_id amount reward_id
           (amount_too_low min)
    else match remaining_quota tier with
         | None =>
             _reject_pledge w now user_id project_id amount reward_id
               "System error: 'remaining_quota'"
         | Some quota =>
             if quota <=? 0
             then _reject_pledge w now user_id project_id amount reward_id sold_out
             else
               match record_pledge w now user_id project_id amount reward_id with
               | (w', Return outcome) => (w', outcome)
               | (w', Raise e) =>
                   _reject_pledge w' now user_id project_id amount reward_id
                     ("System error: " ++ str_of_exception e)
               end
         end.
Proof.
  intros Hp Hd Ht Hsel Hmin.
  unfold create_pledge, try_block. rewrite Hp.
  destruct (Z.leb_spec (days_remaining project) 0); [lia|].
  unfold reward_rejection. rewrite Ht, Hsel. cbn [bind]. rewrite Hmin. cbn [item bind].
  destruct (num_ltb amount min); [reflexivity|].
  destruct (remaining_quota tier) as [quota|]; cbn [item bind]; [|reflexivity].
  destruct (quota <=? 0); reflexivity.
Qed.

(** What the success path can return. *)
Lemma record_pledge_outcome (w : World F A) now user_id project_id (amount : A)
  reward_id :
  match record_pledge w now user_id project_id amount reward_id with
  | (_, Return outcome) =>
      outcome =
        mkOutcome true "Pledge created successfully"
          (Some ("pledge_" ++
                 format_06d (List.length (_load_data (pledges_file w)) + 1))%string)
  | (_, Raise _) => True
  end.
Proof.
  unfold record_pledge.
  destruct (update_project_amount _ project_id amount) as [w2 [ok|e]]; [|exact I].
  destruct (truthy reward_id) as [rid|]; [|reflexivity].
  destruct (update_reward_quota w2 rid 1) as [w3 [ok'|e]]; [reflexivity | exact I].
Qed.

End StoredLedger.

(** ** Printed numbers *)

Lemma append_cancel_r (s1 s2 t : string) :
  (s1 ++ t)%string = (s2 ++ t)%string -> s1 = s2.
Proof.
  intros H.
  assert (Hlen : String.length s1 = String.length s2).
  { apply (f_equal String.length) in H.
    rewrite !string_length_app in H. lia. }
  revert s2 H Hlen. induction s1 as [|c s1 IH]; intros [|c' s2] H Hlen;
    cbn in *; try discriminate; [reflexivity|].
  injection H as -> H. f_equal. apply IH; [exact H | lia].
Qed.

Lemma str_of_Z_inj (z1 z2 : Z) : str_of_Z z1 = str_of_Z z2 -> z1 = z2.
Proof.
  unfold str_of_Z. intros H.
  assert (Hparse : forall z, NilZero.int_of_string
                               (NilZero.string_of_int (Z.to_int z))
                             = Some (Z.to_int z)).
  { intros z. apply NilZero.isi; destruct z as [|p|p]; cbn; try discriminate;
      intros [= Hnil]; apply (DecimalPos.Unsigned.to_uint_nonnil p Hnil). }
  apply DecimalZ.to_int_inj.
  pose proof (Hparse z1) as H1. rewrite H, Hparse in H1. congruence.
Qed.

Section StoredChecks.
Import Json.

(** ** C2: the minimum-amount check comes before the quota check *)

(** C2.  Let the pledge select a tier that resolves within an existing,
    active project.  The tier then has a [min_amount].  If the amount is
    below it, the call is rejected, whatever the remaining quota is (so also
    when it is 0 or its key is missing): the reason returned, and the reason
    in the record handed to the rejection store, is "Amount must be at least
    ", the text Python prints for that [min_amount], " for this reward", which
    is not the sold-out reason; when the write to the rejection store lands,
    that record is the store's new last record.  The sold-out reason is
    returned, and handed to the rejection store, exactly when the amount is
    not below the minimum and the quota is 0 or less.  For integers two
    different minimums give two different reasons. *)
Theorem minimum_check_precedes_quota_check :
  forall (A : Type) (number : Number A) (F : Type -> Type) (storage : Storage F)
         (w : World F A) now user_id project_id (amount : A) reward_id rid
         project tier,
    get_project_by_id w now project_id = Return (Some project) ->
    0 < days_remaining project ->
    truthy reward_id = Some rid ->
    select_reward w project_id rid = Return (Some tier) ->
    let rejection reason :=
      (set_rejected w
         (_save_data
            (_load_data (rejected_pledges_file w) ++
             [mkRejectedPledge user_id project_id amount (Some rid)
                (strftime_seconds now) reason])
            (rejected_pledges_file w)),
       mkOutcome false reason None) in
    let result := create_pledge w now user_id project_id amount reward_id in
    (exists min,
       min_amount tier = Some min /\
       (num_ltb amount min = true ->
          result =
            rejection ("Amount must be at least " ++ num_str min
                       ++ " for this reward")%string /\
          message (snd result) <> sold_out /\
          (write_lands (rejected_pledges_file w) ->
           _load_data (rejected_pledges_file (fst result)) =
             _load_data (rejected_pledges_file w) ++
             [mkRejectedPledge user_id project_id amount (Some rid)
                (strftime_seconds now)
                ("Amount must be at least " ++ num_str min
                 ++ " for this reward")%string])) /\
       (message (snd result) = sold_out <->
          num_ltb amount min = false /\
          exists quota, remaining_quota tier = Some quota /\ quota <= 0) /\
       (result = rejection sold_out <->
          num_ltb amount min = false /\
          exists quota, remaining_quota tier = Some quota /\ quota <= 0)) /\
    (forall min1 min2 : Z,
       amount_too_low (number := int_number) min1 = amount_too_low min2 ->
       min1 = min2).
Proof.
  intros A number F storage w now user_id project_id amount reward_id rid
    project tier Hp Hd Ht Hsel rejection result.
  split.
  2:{ intros min1 min2 H. unfold amount_too_low in H. cbn in H.
      injection H as H. apply append_cancel_r in H. apply str_of_Z_inj, H. }
  destruct (stored_select_reward_In w project_id rid tier Hsel) as (_ & _ & _ & min & Hmin).
  exists min. split; [exact Hmin|].
  assert (Hrej : forall reason,
            _reject_pledge w now user_id project_id amount reward_id reason =
            rejection reason).
  { intros reason. unfold _reject_pledge, rejection. rewrite Ht. reflexivity. }
  assert (Hm : forall reason, message (snd (rejection reason)) = reason)
    by reflexivity.
  assert (Hinj : forall r1 r2, rejection r1 = rejection r2 -> r1 = r2).
  { intros r1 r2 H. apply (f_equal (fun r => message (snd r))) in H.
    rewrite !Hm in H. exact H. }
  assert (Hlow : ("Amount must be at least " ++ num_str min ++ " for this reward")%string
                 <> sold_out)
    by (unfold sold_out; cbn; discriminate).
  subst result.
  rewrite (create_pledge_with_tier w now user_id project_id amount reward_id rid
             project tier min Hp Hd Ht Hsel Hmin).
  unfold amount_too_low.
  destruct (num_ltb amount min) eqn:Hlt.
  - rewrite !Hrej, !Hm. split; [|split].
    + intros _. split; [reflexivity|]. split; [exact Hlow|].
      intros Hlands. unfold rejection.
      cbn [fst rejected_pledges_file set_rejected]. apply Hlands.
    + split; [intros H; contradiction | intros (H & _); discriminate H].
    + split; [|intros (H & _); discriminate H].
      intros H. apply Hinj in H. contradiction.
  - split; [discriminate|].
    destruct (remaining_quota tier) as [quota|].
    + destruct (Z.leb_spec quota 0) as [Hq|Hq].
      * rewrite !Hrej, !Hm. split; split; eauto.
      * pose proof (record_pledge_outcome w now user_id project_id amount reward_id)
          as Hrec.
        destruct (record_pledge w now user_id project_id amount reward_id)
          as [w' [outcome|e]].
        -- cbn [snd]. split; split.
           ++ intros H. rewrite Hrec in H. discriminate H.
           ++ intros (_ & q & [= <-] & Hle). lia.
           ++ intros H. apply (f_equal (fun r => message (snd r))) in H.
              rewrite Hm, Hrec in H. discriminate H.
           ++ intros (_ & q & [= <-] & Hle). lia.
        -- split; split.
           ++ cbn. discriminate.
           ++ intros (_ & q & [= <-] & Hle). lia.
           ++ intros H. apply (f_equal (fun r => message (snd r))) in H.
              rewrite Hm in H. cbn in H. discriminate H.
           ++ intros (_ & q & [= <-] & Hle). lia.
    + rewrite !Hrej, !Hm. split; split.
      * cbn. discriminate.
      * intros (_ & q & Habs & _). discriminate Habs.
      * intros H. apply Hinj in H. discriminate H.
      * intros (_ & q & Habs & _). discriminate Habs.
Qed.

(** ** C8: no reward selected *)

(** C8.  Against an existing project with [days_remaining > 0], a call whose
    [reward_id] is missing or empty returns success whatever the reward file
    holds: the file is not read (the outcome is the same for any other reward
    file, also one with damaged objects) and not written, the rejection store
    is not written, and the record handed to the success store, which is the
    store's new last record when the write lands, has no [reward_id].  A
    non-empty [reward_id] that resolves to no tier of the
    project is a different case: it is rejected with "Selected reward tier
    not found". *)
Theorem empty_reward_skips_reward_checks :
  forall (A : Type) (number : Number A) (F : Type -> Type) (storage : Storage F)
         (w : World F A) now user_id project_id (amount : A) reward_id
         unresolved project,
    get_project_by_id w now project_id = Return (Some project) ->
    0 < days_remaining project ->
    reward_id = None \/ reward_id = Some ""%string ->
    unresolved <> ""%string ->
    select_reward w project_id unresolved = Return None ->
    let result := create_pledge w now user_id project_id amount reward_id in
    let new_id :=
      ("pledge_" ++
       format_06d (List.length (_load_data (pledges_file w)) + 1))%string in
    (snd result = mkOutcome true "Pledge created successfully" (Some new_id) /\
     pledges_file (fst result) =
       _save_data
         (_load_data (pledges_file w) ++
          [mkPledge new_id user_id project_id amount None (strftime_seconds now)])
         (pledges_file w) /\
     rewards_file (fst result) = rewards_file w /\
     rejected_pledges_file (fst result) = rejected_pledges_file w /\
     (forall rewards' : F (RewardTier A),
        create_pledge (set_rewards w rewards') now user_id project_id amount
          reward_id =
        (set_rewards (fst result) rewards', snd result)) /\
     (write_lands (pledges_file w) ->
      _load_data (pledges_file (fst result)) =
        _load_data (pledges_file w) ++
        [mkPledge new_id user_id project_id amount None (strftime_seconds now)])) /\
    create_pledge w now user_id project_id amount (Some unresolved) =
      (set_rejected w
         (_save_data
            (_load_data (rejected_pledges_file w) ++
             [mkRejectedPledge user_id project_id amount (Some unresolved)
                (strftime_seconds now) tier_not_found])
            (rejected_pledges_file w)),
       mkOutcome false tier_not_found None).
Proof.
  intros A number F storage w now user_id project_id amount reward_id unresolved
    project Hp Hd Hempty Hne Hsel result new_id.
  assert (Ht : truthy reward_id = None)
    by (destruct Hempty as [-> | ->]; reflexivity).
  destruct (get_project_by_id_settled w now project_id amount project Hp)
    as (before & after & current & _ & _ & _ & _ & Ha).
  split.
  - subst result new_id.
    rewrite (create_pledge_without_reward w now user_id project_id amount
               reward_id project _ Hp Hd Ht Ha).
    cbn [fst snd pledges_file rewards_file rejected_pledges_file].
    split; [reflexivity|]. split; [reflexivity|]. split; [reflexivity|].
    split; [reflexivity|]. split.
    + intros rewards'.
      rewrite (create_pledge_without_reward (set_rewards w rewards') now user_id
                 project_id amount reward_id project _ Hp Hd Ht Ha).
      reflexivity.
    + intros Hlands. apply Hlands.
  - unfold create_pledge, try_block. rewrite Hp.
    destruct (Z.leb_spec (days_remaining project) 0); [lia|].
    unfold reward_rejection, truthy.
    destruct (String.eqb_spec unresolved "") as [Heq|_]; [contradiction|].
    rewrite Hsel. cbn [bind]. unfold _reject_pledge, truthy.
    destruct (String.eqb_spec unresolved "") as [Heq|_]; [contradiction|].
    reflexivity.
Qed.

(** ** C10: no positivity check in the ledger *)

(** C10.  [create_pledge] never looks at the sign of the amount.  Against an
    existing project with [days_remaining > 0] and without a reward, a call
    with any amount, so also one that is zero or less, returns success, hands
    a pledge of that amount to the success store and hands to the project
    file the list in which the stored [current_amount] of that project is
    replaced by [current_amount + amount], every other object being as it
    was; when the write lands this is what the file holds afterwards.  With a
    selected tier the amount is compared with the tier's
    [min_amount] and with nothing else: the reward checks give the
    amount-below-minimum reason exactly when [amount < min_amount] holds.
    Amounts of zero or less are turned away by the controller [make_pledge],
    which flashes an error and does not call the ledger. *)
Theorem no_positivity_check_in_ledger :
  forall (A : Type) (number : Number A) (F : Type -> Type) (storage : Storage F)
         (w : World F A) now user_id project_id (amount : A) reward_id project,
    get_project_by_id w now project_id = Return (Some project) ->
    0 < days_remaining project ->
    truthy reward_id = None ->
    let result := create_pledge w now user_id project_id amount reward_id in
    let new_id :=
      ("pledge_" ++
       format_06d (List.length (_load_data (pledges_file w)) + 1))%string in
    (exists before after current,
       _load_data (projects_file w) = before ++ pv_project project :: after /\
       current_amount (pv_project project) = Some current /\
       snd result = mkOutcome true "Pledge created successfully" (Some new_id) /\
       projects_file (fst result) =
         _save_data
           (before ++
            with_amount (pv_project project) (num_add current amount) :: after)
           (projects_file w) /\
       pledges_file (fst result) =
         _save_data
           (_load_data (pledges_file w) ++
            [mkPledge new_id user_id project_id amount None (strftime_seconds now)])
           (pledges_file w) /\
       rejected_pledges_file (fst result) = rejected_pledges_file w /\
       (write_lands (projects_file w) ->
        _load_data (projects_file (fst result)) =
          before ++
          with_amount (pv_project project) (num_add current amount) :: after)) /\
    (forall rid tier min,
       truthy (Some rid) = Some rid ->
       select_reward w project_id rid = Return (Some tier) ->
       min_amount tier = Some min ->
       (reward_rejection w project_id amount (Some rid) =
          Return (Some (amount_too_low min)) <->
        num_ltb amount min = true)) /\
    (forall repr format_2f (files : World F float) (pledged : float)
            form_reward_id,
       PrimFloat.leb pledged 0 = true ->
       make_pledge repr format_2f files now (Some user_id) project_id
         (AmountNumber pledged) form_reward_id =
       (files, Some (mkFlash "Pledge amount must be greater than zero" "error"))).
Proof.
  intros A number F storage w now user_id project_id amount reward_id project
    Hp Hd Ht result new_id.
  split; [|split].
  - destruct (get_project_by_id_settled w now project_id amount project Hp)
      as (before & after & current & Hsplit & _ & _ & Hcur & Ha).
    exists before, after, current. subst result new_id.
    rewrite (create_pledge_without_reward w now user_id project_id amount
               reward_id project _ Hp Hd Ht Ha).
    cbn [fst snd projects_file pledges_file rejected_pledges_file].
    split; [exact Hsplit|]. split; [exact Hcur|]. split; [reflexivity|].
    split; [reflexivity|]. split; [reflexivity|]. split; [reflexivity|].
    intros Hlands. apply Hlands.
  - intros rid tier min Hrid Hsel Hmin.
    unfold reward_rejection. rewrite Hrid, Hsel. cbn [bind].
    rewrite Hmin. cbn [item bind].
    destruct (num_ltb amount min); [tauto|].
    split; [|discriminate]. intros H. exfalso.
    destruct (remaining_quota tier) as [quota|]; cbn [item bind] in H;
      [|discriminate].
    destruct (quota <=? 0); [|discriminate].
    injection H as H. unfold amount_too_low, sold_out in H. cbn in H.
    discriminate H.
  - intros repr format_2f files pledged form_reward_id Hle.
    unfold make_pledge. rewrite Hle. reflexivity.
Qed.

End StoredChecks.

(** ** C4: what a failed call leaves behind *)

(** C4.  A call can fail after it has changed the catalog.  In
    [JsonSample.damaged] the pledge of 1500 for tier [reward_2] passes all
    five checks; its record is saved and the amount is added to the project;
    then [update_reward_quota] reads ['id'] of the object that has none, and
    the handler of [create_pledge] turns the [KeyError] into a rejection.  The
    call returns failure, the project's [current_amount] has gone from 35750
    to 37250, and both stores have received a record. *)
Theorem failed_pledge_can_leave_its_settlement :
  let result :=
    Json.create_pledge JsonSample.damaged Sample.now0 "user_0001" "10001001"
      1500 (Some "reward_2"%string) in
  snd result = mkOutcome false "System error: 'id'" None /\
  map Json.current_amount (Json.projects_file JsonSample.damaged)
    = [Some 35750; Some 28500] /\
  map Json.current_amount (Json.projects_file (fst result))
    = [Some 37250; Some 28500] /\
  Json.rewards_file (fst result) = Json.rewards_file JsonSample.damaged /\
  Json.pledges_file (fst result) =
    [Json.mkPledge "pledge_000001" "user_0001" "10001001" 1500
       (Some "reward_2"%string) (strftime_seconds Sample.now0)] /\
  Json.rejected_pledges_file (fst result) =
    [Json.mkRejectedPledge "user_0001" "10001001" 1500 (Some "reward_2"%string)
       (strftime_seconds Sample.now0) "System error: 'id'"].
Proof. vm_compute. repeat split. Qed.

(** ** The typed ledger is the stored one on complete objects

    On files whose objects have all their keys, whose amounts are integers
    and whose progress can be computed, no statement of the [try] block
    raises, and the two embeddings of [create_pledge] agree. *)

Lemma json_file_save {T U : Type} (f : T -> U) (data : list T) (file : flaky T) :
  json_file f (_save_data data file) = _save_data (map f data) (json_file f file).
Proof.
  unfold json_file. cbn. destruct (writable file) eqn:Hw; cbn; [reflexivity|].
  rewrite Hw. reflexivity.
Qed.

Lemma json_computed now (projects : list Project) :
  no_overflow projects ->
  Json.map_result (Json.computed now) (map json_project projects) =
  Json.Return
    (map (fun project =>
            json_view (mkProjectView project
                         (_calculate_days_remaining now (deadline project))))
         projects).
Proof.
  induction 1 as [|p rest Hp _ IH]; [reflexivity|].
  cbn [map Json.map_result]. rewrite IH.
  unfold Json.computed, Json._calculate_progress_percentage.
  cbn [json_project Json.deadline Json.current_amount Json.goal_amount Json.item
       Json.bind Json.num_leb Json.num_zero Json.true_div_overflows
       Json.int_number].
  destruct (Z.leb_spec (goal_amount p) 0) as [Hg|Hg]; [reflexivity|].
  destruct Hp as [Hp|Hp]; [lia|]. rewrite Hp. reflexivity.
Qed.

Lemma json_find_project project_id (views : list ProjectView) :
  Json.find_result
    (fun view =>
       Json.bind (Json.item "id" (Json.p_id (Json.pv_project view)))
         (fun id => Json.Return (id =? project_id)%string))
    (map json_view views) =
  Json.Return
    (option_map json_view
       (find (fun view => (p_id (pv_project view) =? project_id)%string) views)).
Proof.
  induction views as [|v views IH]; [reflexivity|].
  cbn [map Json.find_result find json_view Json.pv_project json_project Json.p_id
       Json.item Json.bind].
  destruct (p_id (pv_project v) =? project_id)%string; [reflexivity | exact IH].
Qed.

Lemma json_get_project_by_id (w : World flaky) now project_id :
  no_overflow (contents (projects_file w)) ->
  Json.get_project_by_id (json_world w) now project_id =
  Json.Return (option_map json_view (get_project_by_id w now project_id)).
Proof.
  intros Hno. unfold Json.get_project_by_id, Json.get_all_projects.
  cbn [json_world Json.projects_file json_file _load_data flaky_storage contents].
  rewrite (json_computed now _ Hno). cbn [Json.bind].
  rewrite <- map_map. apply json_find_project.
Qed.

Lemma json_filter_tiers project_id (rewards : list RewardTier) :
  Json.filter_result
    (fun r => Json.bind (Json.item "project_id" (Json.r_project_id r))
                (fun owner => Json.Return (owner =? project_id)%string))
    (map json_tier rewards) =
  Json.Return
    (map json_tier
       (filter (fun r => (r_project_id r =? project_id)%string) rewards)).
Proof.
  induction rewards as [|r rest IH]; [reflexivity|].
  cbn [map Json.filter_result]. rewrite IH.
  cbn [json_tier Json.r_project_id Json.item Json.bind filter].
  destruct (r_project_id r =? project_id)%string; reflexivity.
Qed.

Lemma json_keyed_tiers (rewards : list RewardTier) :
  Json.map_result
    (fun r => Json.bind (Json.item "min_amount" (Json.min_amount r))
                (fun key => Json.Return (key, r)))
    (map json_tier rewards) =
  Json.Return (map (fun r => (min_amount r, json_tier r)) rewards).
Proof.
  induction rewards as [|r rest IH]; [reflexivity|].
  cbn [map Json.map_result]. rewrite IH. reflexivity.
Qed.

Lemma json_get_reward_tiers (w : World flaky) project_id :
  Json.get_reward_tiers (json_world w) project_id =
  Json.Return (map json_tier (get_reward_tiers w project_id)).
Proof.
  unfold Json.get_reward_tiers, get_reward_tiers.
  cbn [json_world Json.rewards_file json_file _load_data flaky_storage contents].
  rewrite json_filter_tiers. cbn [Json.bind].
  rewrite json_keyed_tiers. cbn [Json.bind]. f_equal.
  rewrite (stable_sort_map (fun r => (min_amount r, json_tier r))
             (fun x y => min_amount x <? min_amount y)
             (fun x y => Json.num_ltb (fst x) (fst y)))
    by reflexivity.
  rewrite map_map. reflexivity.
Qed.

Lemma json_find_tier reward_id (rewards : list RewardTier) :
  Json.find_result
    (fun reward => Json.bind (Json.item "id" (Json.r_id reward))
                     (fun id => Json.Return (id =? reward_id)%string))
    (map json_tier rewards) =
  Json.Return
    (option_map json_tier
       (find (fun reward => (r_id reward =? reward_id)%string) rewards)).
Proof.
  induction rewards as [|r rest IH]; [reflexivity|].
  cbn [map Json.find_result find json_tier Json.r_id Json.item Json.bind].
  destruct (r_id r =? reward_id)%string; [reflexivity | exact IH].
Qed.

Lemma json_reward_rejection (w : World flaky) project_id amount reward_id :
  Json.reward_rejection (json_world w) project_id amount reward_id =
  Json.Return (reward_rejection w project_id amount reward_id).
Proof.
  unfold Json.reward_rejection, reward_rejection.
  destruct (truthy reward_id) as [rid|]; [|reflexivity].
  unfold Json.select_reward, select_reward.
  rewrite json_get_reward_tiers. cbn [Json.bind]. rewrite json_find_tier.
  cbn [Json.bind].
  destruct (find _ (get_reward_tiers w project_id)) as [tier|]; [|reflexivity].
  cbn [option_map json_tier Json.min_amount Json.remaining_quota Json.item
       Json.bind Json.num_ltb Json.int_number].
  unfold Json.amount_too_low, amount_too_low. cbn [Json.num_str Json.int_number].
  destruct (amount <? min_amount tier); [reflexivity|].
  destruct (remaining_quota tier <=? 0); reflexivity.
Qed.

Lemma json_add_amount project_id amount (projects : list Project) :
  Json.add_amount project_id amount (map json_project projects) =
  Json.Return (option_map (map json_project) (add_amount project_id amount projects)).
Proof.
  induction projects as [|p rest IH]; [reflexivity|].
  cbn [map Json.add_amount add_amount json_project Json.p_id Json.current_amount
       Json.item Json.bind].
  destruct (p_id p =? project_id)%string; [reflexivity|].
  fold (json_project p). rewrite IH. cbn [Json.bind].
  destruct (add_amount project_id amount rest); reflexivity.
Qed.

Lemma json_take_quota reward_id decrease_by (rewards : list RewardTier) :
  Json.take_quota (A := Z) reward_id decrease_by (map json_tier rewards) =
  Json.Return (option_map (map json_tier) (take_quota reward_id decrease_by rewards)).
Proof.
  induction rewards as [|r rest IH]; [reflexivity|].
  cbn [map Json.take_quota take_quota json_tier Json.r_id Json.remaining_quota
       Json.item Json.bind].
  fold (json_tier r). rewrite IH. cbn [Json.bind].
  destruct (r_id r =? reward_id)%string; destruct (0 <? remaining_quota r);
    cbn [andb]; try reflexivity;
    destruct (take_quota reward_id decrease_by rest); reflexivity.
Qed.

Lemma json_update_project_amount (w : World flaky) project_id amount :
  Json.update_project_amount (json_world w) project_id amount =
  (json_world (fst (update_project_amount w project_id amount)),
   Json.Return (snd (update_project_amount w project_id amount))).
Proof.
  unfold Json.update_project_amount, update_project_amount.
  cbn [json_world Json.projects_file json_file _load_data flaky_storage contents].
  rewrite json_add_amount.
  destruct (add_amount project_id amount (contents (projects_file w)));
    cbn [option_map fst snd]; [|reflexivity].
  unfold Json.set_projects, json_world. cbn [projects_file rewards_file
    pledges_file rejected_pledges_file set_projects Json.projects_file
    Json.rewards_file Json.pledges_file Json.rejected_pledges_file].
  rewrite json_file_save. reflexivity.
Qed.

Lemma json_update_reward_quota (w : World flaky) reward_id decrease_by :
  Json.update_reward_quota (json_world w) reward_id decrease_by =
  (json_world (fst (update_reward_quota w reward_id decrease_by)),
   Json.Return (snd (update_reward_quota w reward_id decrease_by))).
Proof.
  unfold Json.update_reward_quota, update_reward_quota.
  cbn [json_world Json.rewards_file json_file _load_data flaky_storage contents].
  rewrite json_take_quota.
  destruct (take_quota reward_id decrease_by (contents (rewards_file w)));
    cbn [option_map fst snd]; [|reflexivity].
  unfold Json.set_rewards, json_world. cbn [projects_file rewards_file
    pledges_file rejected_pledges_file set_rewards Json.projects_file
    Json.rewards_file Json.pledges_file Json.rejected_pledges_file].
  rewrite json_file_save. reflexivity.
Qed.

Lemma json_reject_pledge (w : World flaky) now user_id project_id amount
  reward_id reason :
  Json._reject_pledge (json_world w) now user_id project_id amount reward_id reason =
  (json_world (fst (_reject_pledge w now user_id project_id amount reward_id reason)),
   snd (_reject_pledge w now user_id project_id amount reward_id reason)).
Proof.
  unfold Json._reject_pledge, _reject_pledge. cbn [fst snd]. f_equal.
  unfold Json.set_rejected, json_world. cbn [projects_file rewards_file
    pledges_file rejected_pledges_file set_rejected Json.projects_file
    Json.rewards_file Json.pledges_file Json.rejected_pledges_file].
  rewrite json_file_save, map_app. reflexivity.
Qed.

Lemma json_record_pledge (w : World flaky) now user_id project_id amount reward_id :
  Json.record_pledge (json_world w) now user_id project_id amount reward_id =
  (json_world (fst (record_pledge w now user_id project_id amount reward_id)),
   Json.Return (snd (record_pledge w now user_id project_id amount reward_id))).
Proof.
  unfold Json.record_pledge, record_pledge. cbn [fst snd].
  assert (Hlen : List.length (_load_data (Json.pledges_file (json_world w))) =
                 List.length (_load_data (pledges_file w)))
    by (cbn; apply length_map).
  rewrite Hlen.
  assert (Hsaved : forall pledge : Pledge,
    Json.set_pledges (json_world w)
      (_save_data
         (_load_data (Json.pledges_file (json_world w)) ++ [json_pledge pledge])
         (Json.pledges_file (json_world w))) =
    json_world
      (set_pledges w
         (_save_data (_load_data (pledges_file w) ++ [pledge]) (pledges_file w)))).
  { intros pledge. unfold Json.set_pledges, json_world. cbn [projects_file
      rewards_file pledges_file rejected_pledges_file set_pledges
      Json.projects_file Json.rewards_file Json.pledges_file
      Json.rejected_pledges_file].
    rewrite json_file_save, map_app. reflexivity. }
  match goal with
  | |- context [Json.mkPledge ?i ?u ?p ?a ?r ?d] =>
      change (Json.mkPledge i u p a r d) with (json_pledge (mkPledge i u p a r d))
  end.
  rewrite Hsaved, json_update_project_amount.
  destruct (truthy reward_id) as [rid|]; [|reflexivity].
  rewrite json_update_reward_quota. reflexivity.
Qed.

(** X29.  On stored objects that have all their keys, with integer amounts
    whose progress can be computed, no statement of the [try] block of
    [create_pledge] raises and its [except] clause is never entered: the
    ledger over the stored objects returns the dictionary that the typed
    ledger returns and leaves the files that the typed ledger leaves, whether
    or not each file can be written. *)
Theorem typed_ledger_is_the_stored_one :
  forall (w : World flaky) now user_id project_id amount reward_id,
    no_overflow (contents (projects_file w)) ->
    Json.create_pledge (json_world w) now user_id project_id amount reward_id =
    (json_world (fst (create_pledge w now user_id project_id amount reward_id)),
     snd (create_pledge w now user_id project_id amount reward_id)).
Proof.
  intros w now user_id project_id amount reward_id Hno.
  unfold Json.create_pledge, Json.try_block, create_pledge.
  rewrite (json_get_project_by_id w now project_id Hno).
  destruct (get_project_by_id w now project_id) as [project|];
    cbn [option_map]; [|rewrite json_reject_pledge; reflexivity].
  cbn [json_view Json.days_remaining].
  destruct (days_remaining project <=? 0);
    [rewrite json_reject_pledge; reflexivity|].
  rewrite json_reward_rejection.
  destruct (reward_rejection w project_id amount reward_id) as [reason|];
    [rewrite json_reject_pledge; reflexivity|].
  rewrite json_record_pledge. reflexivity.
Qed.

Section StoredFailures.
Import Json.
Context {A : Type} {number : Number A} {F : Type -> Type} {storage : Storage F}.

(** The two ways in which [create_pledge] fails: a rejection recorded before
    anything else is written, or an exception raised by one of the two hooks
    after the pledge has been saved. *)
Lemma failed_pledge_cases (w : World F A) now user_id project_id (amount : A)
  reward_id :
  let result := create_pledge w now user_id project_id amount reward_id in
  success (snd result) = false ->
  (exists reason,
     result = _reject_pledge w now user_id project_id amount reward_id reason) \/
  (exists w' e,
     record_pledge w now user_id project_id amount reward_id = (w', Raise e) /\
     result =
       _reject_pledge w' now user_id project_id amount reward_id
         ("System error: " ++ str_of_exception e)).
Proof.
  cbv zeta. unfold create_pledge, try_block.
  destruct (get_project_by_id w now project_id) as [[project|]|e].
  2,3: intros _; left; eexists; reflexivity.
  destruct (days_remaining project <=? 0);
    [intros _; left; eexists; reflexivity|].
  destruct (reward_rejection w project_id amount reward_id) as [[reason|]|e].
  1,3: intros _; left; eexists; reflexivity.
  pose proof (record_pledge_outcome w now user_id project_id amount reward_id)
    as Hrec.
  destruct (record_pledge w now user_id project_id amount reward_id)
    as [w' [outcome|e]].
  - intros Hs. rewrite Hrec in Hs. discriminate Hs.
  - intros _. right. eauto.
Qed.

(** A rejection by one of the five checks, or an exception raised before
    the pledge is saved, leaves the catalog and the success store alone. *)
Lemma rejection_before_settlement (w : World F A) now user_id project_id
  (amount : A) reward_id reason :
  let w' := fst (_reject_pledge w now user_id project_id amount reward_id reason) in
  projects_file w' = projects_file w /\ rewards_file w' = rewards_file w /\
  pledges_file w' = pledges_file w /\
  rejected_pledges_file w' =
    _save_data
      (_load_data (rejected_pledges_file w) ++
       [mkRejectedPledge user_id project_id amount (truthy reward_id)
          (strftime_seconds now) reason])
      (rejected_pledges_file w).
Proof. cbn. auto. Qed.

End StoredFailures.

Lemma minimum_check_precedes_quota_check_witness :
  Json.remaining_quota (json_tier Sample.early_bird) = Some 0 /\
  Json.create_pledge JsonSample.catalog Sample.now0 "user_0001" "10001001" 2000
    (Some "reward_1"%string) =
  (Json.set_rejected JsonSample.catalog
     [Json.mkRejectedPledge "user_0001" "10001001" 2000 (Some "reward_1"%string)
        (strftime_seconds Sample.now0)
        "Amount must be at least 2500 for this reward"],
   mkOutcome false "Amount must be at least 2500 for this reward" None).
Proof.
  split; [reflexivity|].
  destruct (proj1 (minimum_check_precedes_quota_check Z Json.int_number disk
                     disk_storage JsonSample.catalog Sample.now0
                     "user_0001" "10001001" 2000 (Some "reward_1"%string)
                     "reward_1"
                     (Json.mkProjectView (json_project Sample.smart_home) 45)
                     (json_tier Sample.early_bird)
                     eq_refl eq_refl eq_refl eq_refl))
    as (min & Hmin & Hlow & _).
  injection Hmin as <-.
  exact (proj1 (Hlow eq_refl)).
Defined.

Lemma empty_reward_skips_reward_checks_witness :
  Json.create_pledge JsonSample.damaged Sample.now0 "user_0001" "10001001" 500
    (Some ""%string) =
  (Json.mkWorld
     (map json_project [with_amount Sample.smart_home 36250; Sample.expired])
     (Json.rewards_file JsonSample.damaged)
     [Json.mkPledge "pledge_000001" "user_0001" "10001001" 500 None
        (strftime_seconds Sample.now0)]
     [],
   mkOutcome true "Pledge created successfully" (Some "pledge_000001"%string)) /\
  message (snd (Json.create_pledge JsonSample.catalog Sample.now0 "user_0001"
                  "10001001" 500 (Some "reward_9"%string))) = tier_not_found.
Proof.
  pose proof (empty_reward_skips_reward_checks Z Json.int_number disk disk_storage
                JsonSample.catalog Sample.now0 "user_0001" "10001001" 500
                (Some ""%string) "reward_9"
                (Json.mkProjectView (json_project Sample.smart_home) 45)
                eq_refl eq_refl (or_intror eq_refl)) as H.
  destruct H as ((_ & _ & _ & _ & Hany & _) & Hrej).
  - discriminate.
  - reflexivity.
  - split.
    + exact (Hany (Json.rewards_file JsonSample.damaged)).
    + rewrite Hrej. reflexivity.
Defined.

Lemma no_positivity_check_in_ledger_witness :
  snd (Json.create_pledge JsonSample.catalog Sample.now0 "user_0001" "10001001"
         (-250) None) =
    mkOutcome true "Pledge created successfully" (Some "pledge_000001"%string) /\
  Json.projects_file
    (fst (Json.create_pledge JsonSample.catalog Sample.now0 "user_0001"
            "10001001" (-250) None)) =
    map json_project [with_amount Sample.smart_home 35500; Sample.expired].
Proof.
  destruct (proj1 (no_positivity_check_in_ledger Z Json.int_number disk
                     disk_storage JsonSample.catalog Sample.now0
                     "user_0001" "10001001" (-250) None
                     (Json.mkProjectView (json_project Sample.smart_home) 45)
                     eq_refl eq_refl eq_refl))
    as (before & after & current & Hsplit & Hcur & Hout & Hprojects & _).
  split; [exact Hout|].
  rewrite Hprojects. injection Hcur as <-.
  destruct before as [|p before].
  - injection Hsplit as <-. reflexivity.
  - exfalso. injection Hsplit as _ Hrest.
    destruct before as [|q before]; [discriminate Hrest|].
    injection Hrest as _ Hrest. destruct before; discriminate Hrest.
Defined.

(** ** The pledge controller *)

(** X17.  What [make_pledge] lets through.  Without a session, with an empty
    or unreadable amount, or with an amount for which [amount <= 0] holds, no
    file is written.  In every other case the amount that [float] returned is
    handed to [create_pledge] as it is, the files are those that
    [create_pledge] leaves, and the flashed message follows its outcome.  The
    test is not "the amount is positive": [nan <= 0] is false, so a form
    field that reads [nan] is handed to the ledger; with the files of the
    sample catalog it passes the minimum-amount check of tier [reward_2], is
    stored as a pledge and leaves the project with a [current_amount] of
    [nan]. *)
Theorem make_pledge_forwards_what_is_not_below_zero :
  forall (repr format_2f : float -> string) (F : Type -> Type)
         (storage : Storage F) (w : Json.World F float) now session_user
         project_id amount_str reward_id,
    let result :=
      Json.make_pledge repr format_2f w now session_user project_id amount_str
        reward_id in
    (session_user = None -> result = (w, None)) /\
    (amount_str = Json.AmountEmpty \/ amount_str = Json.AmountInvalid \/
     (exists amount,
        amount_str = Json.AmountNumber amount /\ PrimFloat.leb amount 0 = true) ->
     fst result = w) /\
    (forall user_id amount,
       session_user = Some user_id ->
       amount_str = Json.AmountNumber amount ->
       PrimFloat.leb amount 0 = false ->
       let outcome :=
         Json.create_pledge (number := Json.float_number repr) w now user_id
           project_id amount
           (if (reward_id =? "")%string then None else Some reward_id) in
       fst result = fst outcome /\
       snd result =
         Some (if success (snd outcome)
               then mkFlash ("Thank you! Your pledge of $" ++ format_2f amount
                             ++ " was successful!") "success"
               else mkFlash ("Pledge failed: " ++ message (snd outcome)) "error")) /\
    PrimFloat.leb nan 0 = false /\
    Json.make_pledge repr format_2f JsonSample.float_catalog Sample.now0
      (Some "user_0001"%string) "10001001" (Json.AmountNumber nan) "reward_2" =
    (Json.mkWorld
       [Json.mkProject (Some "10001001"%string)
          (Some "Smart Home IoT System"%string)
          (Some 50000%float) (Some nan) (Some (Some 20045))]
       [Json.mkRewardTier (Some "reward_1"%string) (Some "10001001"%string)
          (Some "Early Bird Special"%string) (Some 2500%float) (Some 0);
        Json.mkRewardTier (Some "reward_2"%string) (Some "10001001"%string)
          (Some "Standard Package"%string) (Some 1000%float) (Some 2)]
       [Json.mkPledge "pledge_000001" "user_0001" "10001001" nan
          (Some "reward_2"%string) (strftime_seconds Sample.now0)]
       [],
     Some (mkFlash ("Thank you! Your pledge of $" ++ format_2f nan
                    ++ " was successful!") "success")).
Proof.
  intros repr format_2f F storage w now session_user project_id amount_str
    reward_id result.
  subst result. unfold Json.make_pledge.
  split; [intros ->; reflexivity|].
  split; [|split; [|split; reflexivity]].
  - destruct session_user as [user_id|]; [|reflexivity].
    intros [-> | [-> | (amount & -> & Hle)]]; try reflexivity.
    rewrite Hle. reflexivity.
  - intros user_id amount Hs Ha Hgt. subst session_user amount_str.
    cbv zeta. rewrite Hgt.
    destruct (Json.create_pledge w now user_id project_id amount _)
      as [w' out].
    cbn [fst snd]. destruct (success out); split; reflexivity.
Qed.

(** With the float minimum of 2500 the reason prints what [repr] gives for
    it, which in Python is the text 2500.0. *)
Example float_minimum_is_printed_by_repr :
  forall repr,
    snd (Json.create_pledge (number := Json.float_number repr) JsonSample.float_catalog
           Sample.now0 "user_0001" "10001001" 2000%float
           (Some "reward_1"%string)) =
    mkOutcome false
      ("Amount must be at least " ++ repr 2500%float ++ " for this reward") None.
Proof. intros repr. reflexivity. Qed.

(** ** The two ways in which a call fails *)

Section StoredExits.
Import Json.
Context {A : Type} {number : Number A} {F : Type -> Type} {storage : Storage F}.

Lemma record_pledge_saves_first (w : World F A) now user_id project_id
  (amount : A) reward_id :
  let w' := fst (record_pledge w now user_id project_id amount reward_id) in
  pledges_file w' =
    _save_data
      (_load_data (pledges_file w) ++
       [mkPledge
          ("pledge_" ++ format_06d (List.length (_load_data (pledges_file w)) + 1))%string
          user_id project_id amount (truthy reward_id) (strftime_seconds now)])
      (pledges_file w) /\
  rejected_pledges_file w' = rejected_pledges_file w.
Proof.
  unfold record_pledge, update_project_amount, update_reward_quota.
  cbv zeta.
  destruct (add_amount project_id amount _) as [[projects'|]|e];
    cbn [fst snd set_projects set_pledges pledges_file rejected_pledges_file
         rewards_file projects_file];
    try (split; reflexivity);
    destruct (truthy reward_id) as [rid|];
    try (split; reflexivity);
    cbn [fst snd set_projects set_pledges pledges_file rejected_pledges_file
         rewards_file projects_file];
    destruct (take_quota rid 1 _) as [[rewards'|]|e]; split; reflexivity.
Qed.

(** X30.  [create_pledge] fails in one of two ways.  Either the call is
    rejected before anything is written, by a check or by an exception raised
    while the checks read the files: then the project file, the reward file
    and the success store are the files they were, and the one record handed
    to [_save_data] is the rejection.  Or an exception is raised by one of the
    two hooks after the pledge has been handed to [_save_data] for the success
    store: then the [except] clause hands a rejection with the reason
    "System error: " followed by the text of the exception to [_save_data] for
    the rejection store, and the pledge is not taken back. *)
Theorem failure_is_rejection_or_late_exception :
  forall (w : World F A) now user_id project_id (amount : A) reward_id,
    let result := create_pledge w now user_id project_id amount reward_id in
    let rejection reason :=
      mkRejectedPledge user_id project_id amount (truthy reward_id)
        (strftime_seconds now) reason in
    success (snd result) = false ->
    (exists reason,
       snd result = mkOutcome false reason None /\
       projects_file (fst result) = projects_file w /\
       rewards_file (fst result) = rewards_file w /\
       pledges_file (fst result) = pledges_file w /\
       rejected_pledges_file (fst result) =
         _save_data (_load_data (rejected_pledges_file w) ++ [rejection reason])
           (rejected_pledges_file w)) \/
    (exists w' e,
       record_pledge w now user_id project_id amount reward_id = (w', Raise e) /\
       snd result =
         mkOutcome false ("System error: " ++ str_of_exception e)%string None /\
       pledges_file (fst result) =
         _save_data
           (_load_data (pledges_file w) ++
            [mkPledge
               ("pledge_" ++
                format_06d (List.length (_load_data (pledges_file w)) + 1))%string
               user_id project_id amount (truthy reward_id)
               (strftime_seconds now)])
           (pledges_file w) /\
       rejected_pledges_file (fst result) =
         _save_data
           (_load_data (rejected_pledges_file w) ++
            [rejection ("System error: " ++ str_of_exception e)%string])
           (rejected_pledges_file w)).
Proof.
  intros w now user_id project_id amount reward_id result rejection Hs.
  destruct (failed_pledge_cases w now user_id project_id amount reward_id Hs)
    as [(reason & Heq) | (w' & e & Hrec & Heq)]; fold result in Heq.
  - left. exists reason. rewrite Heq. cbn. auto.
  - right. exists w', e. split; [exact Hrec|].
    destruct (record_pledge_saves_first w now user_id project_id amount reward_id)
      as (Hl & Hj).
    cbv zeta in Hl, Hj. rewrite Hrec in Hl, Hj. cbn [fst] in Hl, Hj.
    rewrite Heq. cbn [fst snd _reject_pledge set_rejected pledges_file
                      rejected_pledges_file].
    rewrite Hj. auto.
Qed.



End StoredExits.

(** ** C9: the User Directory is not consulted *)



Lemma failure_is_rejection_or_late_exception_witness :
  let result :=
    Json.create_pledge JsonSample.damaged Sample.now0 "user_0001" "10001001"
      1500 (Some "reward_2"%string) in
  success (snd result) = false /\
  exists w' e,
    Json.record_pledge JsonSample.damaged Sample.now0 "user_0001" "10001001"
      1500 (Some "reward_2"%string) = (w', Json.Raise e) /\
    snd result =
      mkOutcome false ("System error: " ++ Json.str_of_exception e)%string None.
Proof.
  cbv zeta.
  assert (Hfails : success
                     (snd (Json.create_pledge JsonSample.damaged Sample.now0
                             "user_0001" "10001001" 1500
                             (Some "reward_2"%string))) = false)
    by reflexivity.
  split; [exact Hfails|].
  destruct (failure_is_rejection_or_late_exception JsonSample.damaged Sample.now0
              "user_0001" "10001001" 1500 (Some "reward_2"%string) Hfails)
    as [(reason & _ & _ & _ & Hl & _) | (w' & e & Hrec & Hout & _)].
  - exfalso. vm_compute in Hl. discriminate Hl.
  - exists w', e. split; [exact Hrec | exact Hout].
Defined.

Lemma typed_ledger_is_the_stored_one_witness :
  no_overflow (contents (projects_file Sample.read_only_ledger)) /\
  Json.create_pledge (json_world Sample.read_only_ledger) Sample.now0
    "user_0001" "10001001" 1500 (Some "reward_2"%string) =
  (json_world
     (fst (create_pledge Sample.read_only_ledger Sample.now0
             "user_0001" "10001001" 1500 (Some "reward_2"%string))),
   mkOutcome true "Pledge created successfully" (Some "pledge_000001"%string)).
Proof.
  assert (Hno : no_overflow (contents (projects_file Sample.read_only_ledger))).
  { constructor; [right; reflexivity|]. constructor; [right; reflexivity|].
    constructor. }
  split; [exact Hno|].
  exact (typed_ledger_is_the_stored_one Sample.read_only_ledger Sample.now0
           "user_0001" "10001001" 1500 (Some "reward_2"%string) Hno).
Defined.

(** ** C1: one record per call *)

(** C1.  A call can leave no record, and a call can leave two.  With
    [pledges.json] and [rejected_pledges.json] not writable, [_save_data]
    swallows the error of the write: an accepted call returns success with a
    pledge identifier, a rejected call returns its reason, and both stores are
    as empty as before.  With a tier in [reward_tiers.json] that has no ['id']
    key, the pledge of 1500 for tier [reward_2] passes every check and is
    saved; [update_reward_quota] then raises [KeyError], and the [except]
    clause of [create_pledge] appends a rejection: the call returns failure and
    leaves one record in each store. *)
Theorem create_pledge_leaves_none_or_two :
  (let result :=
     create_pledge Sample.read_only_ledger Sample.now0
       "user_0001" "10001001" 500 None in
   snd result =
     mkOutcome true "Pledge created successfully" (Some "pledge_000001"%string) /\
   record_count Sample.read_only_ledger = 0%nat /\
   record_count (fst result) = 0%nat) /\
  (let result :=
     create_pledge Sample.read_only_ledger Sample.now0
       "user_0001" "no such project" 500 None in
   snd result = mkOutcome false "Project not found" None /\
   record_count (fst result) = 0%nat) /\
  (let result :=
     Json.create_pledge JsonSample.damaged Sample.now0
       "user_0001" "10001001" 1500 (Some "reward_2"%string) in
   snd result = mkOutcome false "System error: 'id'" None /\
   List.length (_load_data (Json.pledges_file JsonSample.damaged)) = 0%nat /\
   List.length (_load_data (Json.rejected_pledges_file JsonSample.damaged)) = 0%nat /\
   List.length (_load_data (Json.pledges_file (fst result))) = 1%nat /\
   List.length (_load_data (Json.rejected_pledges_file (fst result))) = 1%nat).
Proof. vm_compute. repeat split. Qed.
